(** * Egypt-Trade-Analysis: the aggregation and forecasting core of the dashboard

    A shallow embedding of the two builds of the dashboard component:

    - the static-payload build (the component that imports
      [uncomtrade_data.json] and [worldbank_data.json] and normalises and
      aggregates them in the browser), module [Static];
    - the pre-computed build ([my-dashboard-app/src/App.jsx], which fetches
      [dashboard_precomputed.json] and [wb_data_db.json]), module [Fetched].

    JavaScript numbers are IEEE-754 binary64 values, so they are embedded as
    Rocq's primitive [float]s: [+], [-], [*], [/], [<] and [===] on numbers are
    the primitive operations, and NaN, the infinities and the two zeros are
    all present.  Strings are sequences of code units; the embedding uses
    [string], one [ascii] per code unit, which covers the code units below
    256 (Latin-1).  Values read from a JSON payload are the inductive type
    [value].  A thrown exception is an explicit outcome, [TypeError], of the
    type [completion]. *)

From Stdlib Require Import ZArith NArith List String Ascii Bool Lia Floats DecimalString.
From Stdlib Require Import Permutation.
Import ListNotations.

Open Scope string_scope.
Open Scope list_scope.
Open Scope Z_scope.

(** ** Strings: the methods of [String.prototype] the program calls *)

Module JsString.

Definition code (c : ascii) : N := N_of_ascii c.

(** WhiteSpace and LineTerminator code units below 256: TAB, LF, VT, FF,
    CR, SP and NBSP.  [trim], [parseFloat], [parseInt] and the regular
    expression class [\s] all use this set. *)
Definition isWhiteSpace (c : ascii) : bool :=
  existsb (N.eqb (code c)) [9; 10; 11; 12; 13; 32; 160]%N.

Definition isDigit (c : ascii) : bool :=
  ((48 <=? code c) && (code c <=? 57))%N.

Fixpoint trimStart (s : string) : string :=
  match s with
  | String c r => if isWhiteSpace c then trimStart r else s
  | EmptyString => EmptyString
  end.

Fixpoint trimEnd (s : string) : string :=
  match s with
  | EmptyString => EmptyString
  | String c r =>
      match trimEnd r with
      | EmptyString => if isWhiteSpace c then EmptyString else String c EmptyString
      | r' => String c r'
      end
  end.

(** [s.trim()] *)
Definition trim (s : string) : string := trimEnd (trimStart s).

Fixpoint startsWith (s p : string) {struct p} : bool :=
  match p, s with
  | EmptyString, _ => true
  | String a p', String b s' => Ascii.eqb a b && startsWith s' p'
  | String _ _, EmptyString => false
  end.

(** [s.includes(search)] *)
Fixpoint includes (s search : string) : bool :=
  startsWith s search
  || match s with
     | EmptyString => false
     | String _ r => includes r search
     end.

(** Lower-casing of one code unit below 256: A-Z, and the Latin-1 capitals
    U+00C0..U+00DE except the multiplication sign U+00D7. *)
Definition lowerChar (c : ascii) : ascii :=
  let n := code c in
  if ((65 <=? n) && (n <=? 90) || (192 <=? n) && (n <=? 222) && negb (n =? 215))%N
  then ascii_of_N (n + 32)
  else c.

(** [s.toLowerCase()] *)
Fixpoint toLowerCase (s : string) : string :=
  match s with
  | EmptyString => EmptyString
  | String c r => String (lowerChar c) (toLowerCase r)
  end.

(** [s.replace(/,/g, '')] *)
Fixpoint removeCommas (s : string) : string :=
  match s with
  | EmptyString => EmptyString
  | String c r => if Ascii.eqb c "," then removeCommas r else String c (removeCommas r)
  end.

(** [s.split(';')[0]]: the text before the first semicolon. *)
Fixpoint beforeSemicolon (s : string) : string :=
  match s with
  | EmptyString => EmptyString
  | String c r => if Ascii.eqb c ";" then EmptyString else String c (beforeSemicolon r)
  end.

Fixpoint dropWhile (p : ascii -> bool) (s : string) : string :=
  match s with
  | String c r => if p c then dropWhile p r else s
  | EmptyString => EmptyString
  end.

Fixpoint takeWhile (p : ascii -> bool) (s : string) : string :=
  match s with
  | String c r => if p c then String c (takeWhile p r) else EmptyString
  | EmptyString => EmptyString
  end.

(** [s.replace(/^\d+\s*-\s*/, '')]: one or more digits, optional white
    space, a hyphen, optional white space, all at the start.  The greedy
    match is the only one: after the digits comes a non-digit, after the
    white space a non-space, so backtracking finds nothing else. *)
Definition stripCodePrefix (s : string) : string :=
  match takeWhile isDigit s with
  | EmptyString => s
  | _ =>
      match dropWhile isWhiteSpace (dropWhile isDigit s) with
      | String "-" r => dropWhile isWhiteSpace r
      | _ => s
      end
  end.

End JsString.

(** ** Numbers: binary64 values, their decimal text and the global parsers *)

Module JsNumber.
Import JsString.

(** The Number value for an integer (used for [array.length]). *)
Definition ofZ (z : Z) : float := SF2Prim (binary_normalize prec emax z 0 false).

(** ToBoolean on a number: false for +0, -0 and NaN. *)
Definition toBoolean (x : float) : bool :=
  negb (PrimFloat.eqb x 0 || is_nan x).

(** [x || y] on numbers. *)
Definition orElse (x y : float) : float := if toBoolean x then x else y.

(** The Number value for the decimal [m * 10^e] ([m >= 0]) with the sign
    [neg]: the nearest binary64 value, ties to even.  A negative exponent
    divides the two integers with one rounding. *)
Definition decimalToSF (neg : bool) (m e : Z) : spec_float :=
  match m with
  | Zpos p =>
      match e with
      | Zneg d =>
          SFdiv prec emax (S754_finite neg p 0) (S754_finite false (Pos.pow 10 d) 0)
      | _ =>
          binary_normalize prec emax ((if neg then Zneg p else Zpos p) * 10 ^ e) 0 false
      end
  | _ => S754_zero neg
  end.

Definition decimalToNumber (neg : bool) (m e : Z) : float :=
  SF2Prim (decimalToSF neg m e).

(** *** Number::toString, radix 10 *)

Definition digitsOfZ (z : Z) : string := NilZero.string_of_uint (N.to_uint (Z.to_N z)).

Fixpoint zeros (n : nat) : string :=
  match n with
  | O => EmptyString
  | S n' => String "0" (zeros n')
  end.

(** For [x = num/den > 0]: is [x < 10^n]? *)
Definition belowPow10 (num den n : Z) : bool :=
  if 0 <=? n then num <? den * 10 ^ n else num * 10 ^ (- n) <? den.

(** The least [n], from [n] upwards, with [x < 10^n]. *)
Fixpoint decimalExponent (fuel : nat) (num den n : Z) : Z :=
  match fuel with
  | O => n
  | S fuel' =>
      if belowPow10 num den n then n else decimalExponent fuel' num den (n + 1)
  end.

(** The shortest digit string: the least [k] for which some [k]-digit
    integer [s] has [s * 10^(n-k)] round to [x]; of two such [s] the one
    nearer to [x], and the even one on a tie.  Returns [s] and [n - k]. *)
Fixpoint shortestDigits (fuel : nat) (x : float) (num den n k : Z) : Z * Z :=
  match fuel with
  | O => (0, n)
  | S fuel' =>
      let p := k - n in
      let P := if 0 <=? p then num * 10 ^ p else num in
      let Q := if 0 <=? p then den else den * 10 ^ (- p) in
      let lo := P / Q in
      let r := P mod Q in
      let hi := lo + 1 in
      let ok c := PrimFloat.eqb (decimalToNumber false c (n - k)) x in
      match ok lo, ok hi with
      | true, true =>
          match 2 * r ?= Q with
          | Lt => (lo, n - k)
          | Gt => (hi, n - k)
          | Eq => (if Z.even lo then lo else hi, n - k)
          end
      | true, false => (lo, n - k)
      | false, true => (hi, n - k)
      | false, false => shortestDigits fuel' x num den n (k + 1)
      end
  end.

Fixpoint stripZeros (fuel : nat) (s e : Z) : Z * Z :=
  match fuel with
  | O => (s, e)
  | S fuel' =>
      if (s mod 10 =? 0) && negb (s =? 0) then stripZeros fuel' (s / 10) (e + 1) else (s, e)
  end.

(** The text of [s * 10^e10], where [s] has [k] digits and [n = e10 + k]. *)
Definition formatDecimal (s e10 : Z) : string :=
  let ds := digitsOfZ s in
  let k := Z.of_nat (String.length ds) in
  let n := e10 + k in
  if (k <=? n) && (n <=? 21) then (ds ++ zeros (Z.to_nat (n - k)))%string
  else if (0 <? n) && (n <=? 21) then
    (substring 0 (Z.to_nat n) ds ++ "." ++ substring (Z.to_nat n) (Z.to_nat (k - n)) ds)%string
  else if (-6 <? n) && (n <=? 0) then ("0." ++ zeros (Z.to_nat (- n)) ++ ds)%string
  else
    let e := n - 1 in
    let sg : string := if e <? 0 then "-" else "+" in
    let es := (sg ++ digitsOfZ (Z.abs e))%string in
    if k =? 1 then (ds ++ "e" ++ es)%string
    else (substring 0 1 ds ++ "." ++ substring 1 (Z.to_nat (k - 1)) ds ++ "e" ++ es)%string.

(** [x = m * 2^e > 0].  The search for the decimal exponent starts just
    below [log10 x], estimated from the bit length (1233/4096 is a little
    less than log10 2), and needs at most four steps. *)
Definition positiveToString (x : float) (m : positive) (e : Z) : string :=
  let num := match e with Zneg _ => Zpos m | _ => Zpos m * 2 ^ e end in
  let den := match e with Zneg d => 2 ^ Zpos d | _ => 1 end in
  let bits := Zpos (digits2_pos m) + e in
  let n := decimalExponent 8 num den ((bits - 1) * 1233 / 4096 - 1) in
  let '(s, e10) := shortestDigits 17 x num den n 1 in
  let '(s', e10') := stripZeros 400 s e10 in
  formatDecimal s' e10'.

(** ToString applied to a number. *)
Definition toString (x : float) : string :=
  match Prim2SF x with
  | S754_nan => "NaN"
  | S754_zero _ => "0"
  | S754_infinity s => if s then "-Infinity" else "Infinity"
  | S754_finite s m e =>
      let sg : string := if s then "-" else EmptyString in
      (sg ++ positiveToString (abs x) m e)%string
  end.

(** *** parseFloat and parseInt on a string *)

Definition tail (s : string) : string :=
  match s with
  | String _ r => r
  | EmptyString => EmptyString
  end.

Definition digitValue (c : ascii) : Z := Z.of_N (code c) - 48.

Fixpoint digitsValue (acc : Z) (s : string) : Z :=
  match s with
  | EmptyString => acc
  | String c r => digitsValue (acc * 10 + digitValue c) r
  end.

Definition hasSign (s : string) : bool := startsWith s "-" || startsWith s "+".

(** ExponentPart: [e] or [E], an optional sign, at least one digit;
    anything else is not part of the literal. *)
Definition exponentPart (s : string) : Z :=
  match s with
  | String c r =>
      if Ascii.eqb c "e" || Ascii.eqb c "E" then
        let ds := takeWhile isDigit (if hasSign r then tail r else r) in
        match ds with
        | EmptyString => 0
        | _ => if startsWith r "-" then - digitsValue 0 ds else digitsValue 0 ds
        end
      else 0
  | EmptyString => 0
  end.

(** [parseFloat(s)]: leading white space is skipped, then the longest
    prefix that is a StrDecimalLiteral is converted; NaN when there is
    none. *)
Definition parseFloat (input : string) : float :=
  let s := trimStart input in
  let neg := startsWith s "-" in
  let s1 := if hasSign s then tail s else s in
  if startsWith s1 "Infinity" then (if neg then neg_infinity else infinity)
  else
    let ip := takeWhile isDigit s1 in
    let s2 := dropWhile isDigit s1 in
    let hasDot := startsWith s2 "." in
    let fp := if hasDot then takeWhile isDigit (tail s2) else EmptyString in
    let s3 := if hasDot then dropWhile isDigit (tail s2) else s2 in
    match (ip ++ fp)%string with
    | EmptyString => nan
    | ds => decimalToNumber neg (digitsValue 0 ds)
                            (exponentPart s3 - Z.of_nat (String.length fp))
    end.

Definition hexValue (c : ascii) : option Z :=
  let n := code c in
  if isDigit c then Some (Z.of_N n - 48)
  else if ((65 <=? n) && (n <=? 70))%N then Some (Z.of_N n - 55)
  else if ((97 <=? n) && (n <=? 102))%N then Some (Z.of_N n - 87)
  else None.

Definition isHexDigit (c : ascii) : bool :=
  match hexValue c with Some _ => true | None => false end.

Fixpoint hexDigitsValue (acc : Z) (s : string) : Z :=
  match s with
  | EmptyString => acc
  | String c r =>
      hexDigitsValue (acc * 16 + match hexValue c with Some d => d | None => 0 end) r
  end.

(** [parseInt(s)] with no radix argument: radix 16 after [0x] or [0X],
    radix 10 otherwise; the digits up to the first character that is not
    one; NaN when there is no digit.  The integer is converted exactly
    (an engine may zero the decimal digits after the twentieth). *)
Definition parseInt (input : string) : float :=
  let s := trimStart input in
  let neg := startsWith s "-" in
  let s1 := if hasSign s then tail s else s in
  let hex := startsWith s1 "0x" || startsWith s1 "0X" in
  let s2 := if hex then tail (tail s1) else s1 in
  let ds := takeWhile (if hex then isHexDigit else isDigit) s2 in
  match ds with
  | EmptyString => nan
  | _ =>
      let mathInt := if hex then hexDigitsValue 0 ds else digitsValue 0 ds in
      SF2Prim (binary_normalize prec emax (if neg then - mathInt else mathInt) 0 neg)
  end.

End JsNumber.

(** ** Values, exceptions, plain objects used as maps, and [Array.prototype.sort] *)

Module Js.
Import JsString.

(** A value of a parsed JSON payload, or [undefined] (what reading an
    absent property gives).  The properties of [VObj] are the object's own
    properties, each name once. *)
#[warnings="-register-all"]
Inductive value : Type :=
| VUndefined
| VNull
| VBool (b : bool)
| VNum (x : float)
| VStr (s : string)
| VArr (items : list value)
| VObj (props : list (string * value)).

(** The outcome of evaluating an expression: a value, or a TypeError
    thrown (the only exception these programs can raise). *)
Inductive completion (A : Type) : Type :=
| Normal (a : A)
| TypeError.

Arguments Normal {A} a.
Arguments TypeError {A}.

Definition bind {A B : Type} (c : completion A) (k : A -> completion B) : completion B :=
  match c with
  | Normal a => k a
  | TypeError => TypeError
  end.

Notation "x <- c ;; k" := (bind c (fun x => k))
  (at level 61, c at next level, right associativity).

(** [array.map(f)], stopping at the first exception. *)
Fixpoint mapM {A B : Type} (f : A -> completion B) (l : list A) : completion (list B) :=
  match l with
  | [] => Normal []
  | a :: r => b <- f a ;; bs <- mapM f r ;; Normal (b :: bs)
  end.

(** [array.filter(p)], stopping at the first exception. *)
Fixpoint filterM {A : Type} (p : A -> completion bool) (l : list A) : completion (list A) :=
  match l with
  | [] => Normal []
  | a :: r => keep <- p a ;; rs <- filterM p r ;; Normal (if keep then a :: rs else rs)
  end.

(** [array.forEach(row => ...)] threading the variables the callback
    updates, stopping at the first exception. *)
Fixpoint foldM {A S : Type} (step : S -> A -> completion S) (s : S) (l : list A) : completion S :=
  match l with
  | [] => Normal s
  | a :: r => s' <- step s a ;; foldM step s' r
  end.

(** ToBoolean *)
Definition truthy (v : value) : bool :=
  match v with
  | VUndefined | VNull => false
  | VBool b => b
  | VNum x => JsNumber.toBoolean x
  | VStr s => negb (String.eqb s EmptyString)
  | VArr _ | VObj _ => true
  end.

(** [a || b] *)
Definition or (a b : value) : value := if truthy a then a else b.

Fixpoint lookup {A : Type} (k : string) (ps : list (string * A)) : option A :=
  match ps with
  | [] => None
  | (k', v) :: r => if String.eqb k k' then Some v else lookup k r
  end.

(** [row.name] for the field names the program reads ([Year],
    [Trade_Value], ...; none of them is a member of a built-in prototype):
    a TypeError on [null] and [undefined], the own property of an object,
    [undefined] everywhere else. *)
Definition get (row : value) (name : string) : completion value :=
  match row with
  | VUndefined | VNull => TypeError
  | VObj ps => Normal (match lookup name ps with Some v => v | None => VUndefined end)
  | _ => Normal VUndefined
  end.

(** ToString.  An object is converted by [Object.prototype.toString]
    unless it has an own property [toString]: a JSON value is not callable,
    and OrdinaryToPrimitive then ends in a TypeError.  An array joins the
    text of its elements with commas, [null] and [undefined] giving the
    empty text. *)
Fixpoint ToString (v : value) : completion string :=
  match v with
  | VUndefined => Normal "undefined"
  | VNull => Normal "null"
  | VBool b => Normal (if b then "true" else "false")
  | VNum x => Normal (JsNumber.toString x)
  | VStr s => Normal s
  | VArr items =>
      (fix join (l : list value) : completion string :=
         match l with
         | [] => Normal EmptyString
         | x :: r =>
             sx <- match x with
                   | VUndefined | VNull => Normal EmptyString
                   | _ => ToString x
                   end ;;
             match r with
             | [] => Normal sx
             | _ => sr <- join r ;; Normal (sx ++ "," ++ sr)%string
             end
         end) items
  | VObj ps =>
      match lookup "toString" ps with
      | Some _ => TypeError
      | None => Normal "[object Object]"
      end
  end.

(** [parseInt(v)] and [parseFloat(v)]: ToString, then the parser. *)
Definition parseInt (v : value) : completion float :=
  s <- ToString v ;; Normal (JsNumber.parseInt s).

Definition parseFloat (v : value) : completion float :=
  s <- ToString v ;; Normal (JsNumber.parseFloat s).

(** [a === b] for a string literal [b]. *)
Definition strictEqStr (a : value) (b : string) : bool :=
  match a with
  | VStr s => String.eqb s b
  | _ => false
  end.

(** [x.includes(search)] for a string literal [search]: substring search
    on a string, element search on an array, and a TypeError on every other
    value (no callable [includes]). *)
Definition includes (x : value) (search : string) : completion bool :=
  match x with
  | VStr s => Normal (JsString.includes s search)
  | VArr items => Normal (existsb (fun e => strictEqStr e search) items)
  | _ => TypeError
  end.

(** *** Plain objects [{}] used as maps

    The own properties in creation order.  [Object.values] lists the
    properties whose name is an array index (a canonical decimal integer
    below 2^32 - 1) first, in increasing order, then the others in creation
    order. *)
Definition obj (A : Type) : Type := list (string * A).

Fixpoint set {A : Type} (o : obj A) (k : string) (v : A) : obj A :=
  match o with
  | [] => [(k, v)]
  | (k', v') :: r => if String.eqb k k' then (k, v) :: r else (k', v') :: set r k v
  end.

Definition arrayIndex (k : string) : option Z :=
  let n := JsNumber.digitsValue 0 k in
  if String.eqb k (JsNumber.digitsOfZ n) && negb (String.eqb k EmptyString)
     && (String.length k <=? 10)%nat && (n <=? 4294967294)
  then Some n else None.

Fixpoint insertIndexed {A : Type} (n : Z) (a : A) (l : list (Z * A)) : list (Z * A) :=
  match l with
  | [] => [(n, a)]
  | (m, b) :: r => if n <? m then (n, a) :: l else (m, b) :: insertIndexed n a r
  end.

Definition values {A : Type} (o : obj A) : list A :=
  let indexed :=
    fold_left (fun acc kv => match arrayIndex (fst kv) with
                             | Some n => insertIndexed n (snd kv) acc
                             | None => acc
                             end) o [] in
  let named :=
    filter (fun kv => match arrayIndex (fst kv) with Some _ => false | None => true end) o in
  map snd indexed ++ map snd named.

(** The names [{}] inherits from [Object.prototype]; reading one of them
    on a plain object gives a built-in function (or, for [__proto__], the
    prototype itself), which is truthy. *)
Definition objectPrototypeMembers : list string :=
  [ "constructor"; "__defineGetter__"; "__defineSetter__"; "hasOwnProperty";
    "__lookupGetter__"; "__lookupSetter__"; "isPrototypeOf";
    "propertyIsEnumerable"; "toString"; "valueOf"; "__proto__"; "toLocaleString" ].

Definition inherited (k : string) : bool :=
  existsb (String.eqb k) objectPrototypeMembers.

(** *** [array.sort(compare)]

    The sort is stable; [compare a b > 0] puts [a] after [b], and any other
    result (negative, zero, NaN) leaves [a] before [b].  For a consistent
    comparator every stable sort gives this list; for the others the
    language leaves the order to the engine. *)
Fixpoint insert {A : Type} (compare : A -> A -> float) (a : A) (l : list A) : list A :=
  match l with
  | [] => [a]
  | b :: r => if PrimFloat.ltb 0 (compare a b) then b :: insert compare a r else a :: l
  end.

Definition sort {A : Type} (compare : A -> A -> float) (l : list A) : list A :=
  fold_right (insert compare) [] l.

End Js.

(** ** The records of the derived views *)

(** A point of the yearly history; a projected point carries
    [isForecast: true], a historical one has no such property. *)
Module Point.
Record t : Type := { year : float; exports : float; imports : float; isForecast : option bool }.
End Point.

(** [{ slope, intercept }] *)
Module Line.
Record t : Type := { slope : float; intercept : float }.
End Line.

(** An entry of the waterfall chart: [{ name, value, fill }]. *)
Module Bar.
Record t : Type := { name : string; value : float; fill : string }.
End Bar.

(** An entry of the partner or region rollup: [{ name, exports, imports }]. *)
Module Rollup.
Record t (N : Type) : Type := { name : N; exports : float; imports : float }.
Arguments name {N} _.
Arguments exports {N} _.
Arguments imports {N} _.
End Rollup.

(** An entry of the commodity rollup: [{ name, value, weight }], and
    [size] in the list sized for the treemap. *)
Module Group.
Record t : Type := { name : string; value : float; weight : float; size : option float }.
End Group.

(** One merged indicator record: [{ Year, GDP, Inflation }]. *)
Module Indicator.
Record t : Type := { Year : float; GDP : float; Inflation : float }.
End Indicator.

(** [COLORS.export] and [COLORS.import] *)
Module COLORS.
Definition export : string := "#10b981".
Definition import : string := "#ef4444".
End COLORS.

(** The metric a regression is fitted to: the key ['exports'] or
    ['imports'] passed to [calculateLinearRegression]. *)
Inductive metric : Type := Exports | Imports.

Definition metricOf (key : metric) (p : Point.t) : float :=
  match key with
  | Exports => Point.exports p
  | Imports => Point.imports p
  end.

(** ** What the two builds share: [calculateLinearRegression] and the
    projection of two future points *)

Module Forecast.

Record sums : Type := { sumX : float; sumY : float; sumXY : float; sumXX : float }.

(** The body of [data.forEach(point => ...)]. *)
Definition accumulate (key : metric) (s : sums) (point : Point.t) : sums :=
  {| sumX := sumX s + Point.year point;
     sumY := sumY s + metricOf key point;
     sumXY := sumXY s + Point.year point * metricOf key point;
     sumXX := sumXX s + Point.year point * Point.year point |}%float.

(** [n = data.length] is an integer below 2^32, so the guards [n < 2] and
    [data.length > 0] are comparisons of integers; in the normal equations
    [n] is the Number with that value. *)
Definition calculateLinearRegression (data : list Point.t) (key : metric) : Line.t :=
  let n := JsNumber.ofZ (Z.of_nat (List.length data)) in
  if (List.length data <? 2)%nat then
    {| Line.slope := 0;
       Line.intercept :=
         match data with
         | p :: _ => metricOf key p
         | [] => 0
         end |}
  else
    let s := fold_left (accumulate key) data
               {| sumX := 0; sumY := 0; sumXY := 0; sumXX := 0 |} in
    let slope := ((n * sumXY s - sumX s * sumY s) / (n * sumXX s - sumX s * sumX s))%float in
    let intercept := ((sumY s - slope * sumX s) / n)%float in
    {| Line.slope := slope; Line.intercept := intercept |}.

(** The part of [forecastData] after its guard: [history] is not empty
    there, and [last] is its final point. *)
Definition project (history : list Point.t) (last : Point.t) : list Point.t :=
  let expReg := calculateLinearRegression history Exports in
  let impReg := calculateLinearRegression history Imports in
  let lastYear := Point.year last in
  let futureYears := [lastYear + 1; lastYear + 2]%float in
  let projections :=
    map (fun year =>
           {| Point.year := year;
              Point.exports := (Line.slope expReg * year + Line.intercept expReg)%float;
              Point.imports := (Line.slope impReg * year + Line.intercept impReg)%float;
              Point.isForecast := Some true |}) futureYears in
  history ++ projections.

End Forecast.

(** ** What the two builds share: [truncateText] *)

Module Format.

(** The end index [text.substring(0, maxLength)] uses: [maxLength]
    truncated to an integer (NaN counting as 0), then clamped to
    [0 .. text.length]. *)
Definition endIndex (maxLength : float) (len : nat) : nat :=
  match Prim2SF maxLength with
  | S754_nan => 0%nat
  | S754_zero _ => 0%nat
  | S754_infinity s => if s then 0%nat else len
  | S754_finite s m e =>
      if s then 0%nat
      else Nat.min len (Z.to_nat match e with
                                 | Zneg d => Zpos m / 2 ^ Zpos d
                                 | _ => Zpos m * 2 ^ e
                                 end)
  end.

(** [truncateText(text, maxLength)] for a text. *)
Definition truncateText (text : string) (maxLength : float) : string :=
  if String.eqb text EmptyString then EmptyString
  else if PrimFloat.ltb maxLength (JsNumber.ofZ (Z.of_nat (String.length text)))
       then (substring 0 (endIndex maxLength (String.length text)) text ++ "...")%string
       else text.

(** The call without a second argument: [maxLength = 15]. *)
Definition truncateTextDefault (text : string) : string := truncateText text 15.

End Format.

(** ** The static-payload build: normalisation and aggregation in the browser *)

Module Static.
Import Js.

(** [safeParseFloat] *)
Definition safeParseFloat (val : value) : completion float :=
  match val with
  | VNum x => Normal x
  | _ =>
      if negb (truthy val) then Normal 0%float
      else
        s <- ToString val ;;
        let cleanStr := JsString.trim (JsString.removeCommas s) in
        let num := JsNumber.parseFloat cleanStr in
        Normal (if is_nan num then 0%float else num)
  end.

(** What [getRegionFromCountry] returns: a label, or, when the country
    name is the name of a member of [Object.prototype], that built-in
    (which [map[country]] finds through the prototype chain). *)
Inductive region : Type :=
| Label (name : string)
| Inherited (member : string).

Definition regionMap : list (string * string) :=
  [ ("Turkey", "MENA"); ("Saudi Arabia", "MENA"); ("United Arab Emirates", "MENA");
    ("Libya", "MENA"); ("Jordan", "MENA"); ("Egypt", "MENA");
    ("Italy", "Europe"); ("Germany", "Europe"); ("Spain", "Europe");
    ("United Kingdom", "Europe"); ("France", "Europe"); ("Russia", "Europe");
    ("Ukraine", "Europe");
    ("USA", "Americas"); ("Canada", "Americas"); ("Brazil", "Americas");
    ("China", "Asia"); ("India", "Asia"); ("South Korea", "Asia"); ("Japan", "Asia") ].

Definition getRegionFromCountry (country : value) : completion region :=
  if negb (truthy country) then Normal (Label "International")
  else
    k <- ToString country ;;
    Normal (match lookup k regionMap with
            | Some r => Label r
            | None => if inherited k then Inherited k else Label "International"
            end).

(** The canonical record built by [tradeData]. *)
Record TradeRecord : Type := {
  Year : float;
  Flow : value;
  Partner : value;
  Region : region;
  Commodity : value;
  Value : float;
  Weight : float
}.

(** [row.a || row.b] *)
Definition either (row : value) (a b : string) : completion value :=
  x <- get row a ;; y <- get row b ;; Normal (or x y).

(** The callback of [tradeDataRawInput.map]. *)
Definition toRecord (row : value) : completion TradeRecord :=
  year <- either row "Year" "year_of_trade" ;;
  f <- either row "Flow_Description" "flow_description" ;;
  let flow := or f (VStr "Unknown") in
  p <- either row "Partner_Country" "partner_country_name" ;;
  let partner := or p (VStr "Unknown") in
  c <- either row "Traded_Commodities" "commodity_description" ;;
  let commodity := or c (VStr "Unknown") in
  y <- parseInt year ;;
  r <- getRegionFromCountry partner ;;
  tv <- get row "Trade_Value" ;;
  v <- safeParseFloat tv ;;
  tw <- get row "WeightofTradedGoods" ;;
  w <- safeParseFloat tw ;;
  Normal {| Year := JsNumber.orElse y 0;
            Flow := flow;
            Partner := partner;
            Region := r;
            Commodity := commodity;
            Value := v;
            Weight := w |}.

(** [d.Commodity.toLowerCase().includes("all commodities")]: only a
    string has [toLowerCase]. *)
Definition isAllCommodities (d : TradeRecord) : completion bool :=
  match Commodity d with
  | VStr s => Normal (JsString.includes (JsString.toLowerCase s) "all commodities")
  | _ => TypeError
  end.

(** [tradeData], as a function of the imported payload. *)
Definition tradeData (tradeDataRawInput : value) : completion (list TradeRecord) :=
  match tradeDataRawInput with
  | VArr rows =>
      ds <- mapM toRecord rows ;;
      filterM (fun d => b <- isAllCommodities d ;; Normal (negb b))
              (filter (fun d => PrimFloat.ltb 0 (Year d)) ds)
  | _ => Normal []
  end.

Definition isGdpCode (code : value) : bool :=
  strictEqStr code "NY.GDP.MKTP.KD.ZG" || strictEqStr code "WB_WDI_NY_GDP_MKTP_KD_ZG".

Definition isCpiCode (code : value) : bool :=
  strictEqStr code "FP.CPI.TOTL.ZG" || strictEqStr code "WB_WDI_FP_CPI_TOTL_ZG".

(** [years[y]] after [if (!years[y]) years[y] = { Year: y, GDP: 0, Inflation: 0 }].
    The key is the decimal text of a number, never a member of
    [Object.prototype]; an entry, once stored, is an object and truthy. *)
Definition entryFor (years : obj Indicator.t) (y : float) : Indicator.t :=
  match lookup (JsNumber.toString y) years with
  | Some e => e
  | None => {| Indicator.Year := y; Indicator.GDP := 0; Indicator.Inflation := 0 |}
  end.

(** The callback of [wbDataRawInput.forEach]. *)
Definition mergeIndicator (years : obj Indicator.t) (row : value)
  : completion (obj Indicator.t) :=
  yv <- either row "Year" "year_of_trade" ;;
  y <- parseInt yv ;;
  if negb (JsNumber.toBoolean y) then Normal years
  else
    let e := entryFor years y in
    code <- either row "Indicator_Code" "indicator_code" ;;
    iv <- get row "Indicator_Value" ;;
    val <- safeParseFloat iv ;;
    let e1 := if isGdpCode code
              then {| Indicator.Year := Indicator.Year e; Indicator.GDP := val;
                      Indicator.Inflation := Indicator.Inflation e |}
              else e in
    let e2 := if isCpiCode code
              then {| Indicator.Year := Indicator.Year e1; Indicator.GDP := Indicator.GDP e1;
                      Indicator.Inflation := val |}
              else e1 in
    Normal (set years (JsNumber.toString y) e2).

Definition wbData (wbDataRawInput : value) : completion (list Indicator.t) :=
  match wbDataRawInput with
  | VArr rows =>
      years <- foldM mergeIndicator [] rows ;;
      Normal (sort (fun a b => (Indicator.Year a - Indicator.Year b)%float) (values years))
  | _ => Normal []
  end.

(** [currentYearData]; [parseInt(selectedYear)] is evaluated in the
    callback of [filter], once per record. *)
Definition currentYearData (selectedYear : value) (tradeData : list TradeRecord)
  : completion (list TradeRecord) :=
  if negb (truthy selectedYear) then Normal []
  else filterM (fun row => y <- parseInt selectedYear ;; Normal (PrimFloat.eqb (Year row) y))
               tradeData.

(** [if (row.Flow.includes('Export')) exports += row.Value;
     if (row.Flow.includes('Import')) imports += row.Value;]
    on a pair of accumulators.  The same two statements update the totals
    of the year, the entries of the history and the entries of the partner
    and region rollups. *)
Definition addFlow (row : TradeRecord) (exports imports : float)
  : completion (float * float) :=
  isExport <- includes (Flow row) "Export" ;;
  isImport <- includes (Flow row) "Import" ;;
  Normal (if isExport then (exports + Value row)%float else exports,
          if isImport then (imports + Value row)%float else imports).

(** The first loop of [overviewStats]. *)
Definition totals (currentYearData : list TradeRecord) : completion (float * float) :=
  foldM (fun acc row => addFlow row (fst acc) (snd acc)) (0%float, 0%float) currentYearData.

(** The second loop: [partnerTotals].  The flag records that a partner
    name hit a function inherited from [Object.prototype]: the total for
    that name is then a text made of the function's source, which the
    language leaves to the engine.  ([__proto__] is inherited too, but
    assigning a text to it changes nothing.) *)
Definition addPartnerTotal (st : obj float * bool) (row : TradeRecord)
  : completion (obj float * bool) :=
  k <- ToString (Partner row) ;;
  Normal
    match lookup k (fst st) with
    | Some t => (set (fst st) k (JsNumber.orElse t 0 + Value row)%float, snd st)
    | None =>
        if inherited k then (fst st, snd st || negb (String.eqb k "__proto__"))
        else (set (fst st) k (0 + Value row)%float, snd st)
    end.

Definition partnerTotals (currentYearData : list TradeRecord) : completion (obj float * bool) :=
  foldM addPartnerTotal ([], false) currentYearData.

(** [Object.values(partnerTotals).sort((a,b)=>b-a).slice(0,3).reduce((a,b)=>a+b, 0)] *)
Definition top3Sum (partnerTotals : obj float) : float :=
  fold_left PrimFloat.add
    (firstn 3 (sort (fun a b => (b - a)%float) (values partnerTotals))) 0%float.

(** The third loop: [historyMap], over all the records.  The key is the
    decimal text of [row.Year]. *)
Definition addHistory (historyMap : obj Point.t) (row : TradeRecord)
  : completion (obj Point.t) :=
  let k := JsNumber.toString (Year row) in
  let e := match lookup k historyMap with
           | Some e => e
           | None => {| Point.year := Year row; Point.exports := 0; Point.imports := 0;
                        Point.isForecast := None |}
           end in
  ei <- addFlow row (Point.exports e) (Point.imports e) ;;
  Normal (set historyMap k {| Point.year := Point.year e; Point.exports := fst ei;
                              Point.imports := snd ei;
                              Point.isForecast := Point.isForecast e |}).

Definition history (tradeData : list TradeRecord) : completion (list Point.t) :=
  historyMap <- foldM addHistory [] tradeData ;;
  Normal (sort (fun a b => (Point.year a - Point.year b)%float) (values historyMap)).

(** The [waterfall] array of the returned object. *)
Definition waterfall (exports imports : float) : list Bar.t :=
  [ {| Bar.name := "Exports"; Bar.value := exports; Bar.fill := COLORS.export |};
    {| Bar.name := "Imports"; Bar.value := (- imports)%float; Bar.fill := COLORS.import |};
    {| Bar.name := "Net"; Bar.value := (exports - imports)%float;
       Bar.fill := if PrimFloat.ltb 0 (exports - imports) then COLORS.export
                   else COLORS.import |} ].

(** What [overviewStats] returns.  [concentrationRisk] is [None] when it
    is computed from partner totals that contain an engine-defined text. *)
Module Stats.
Record t : Type := {
  waterfall : list Bar.t;
  history : list Point.t;
  exports : float;
  imports : float;
  net : float;
  concentrationRisk : option float
}.
End Stats.

Definition overviewStats (currentYearData tradeData : list TradeRecord) : completion Stats.t :=
  ei <- totals currentYearData ;;
  let exports := fst ei in
  let imports := snd ei in
  pt <- partnerTotals currentYearData ;;
  let totalVol := (exports + imports)%float in
  let concentrationRisk :=
    if PrimFloat.ltb 0 totalVol
    then if snd pt then None else Some (top3Sum (fst pt) / totalVol * 100)%float
    else Some 0%float in
  h <- history tradeData ;;
  Normal {| Stats.waterfall := waterfall exports imports;
            Stats.history := h;
            Stats.exports := exports;
            Stats.imports := imports;
            Stats.net := (exports - imports)%float;
            Stats.concentrationRisk := concentrationRisk |}.

(** [forecastData], as a function of [overviewStats.history]. *)
Definition forecastData (history : list Point.t) : list Point.t :=
  match history with
  | [] => []
  | p :: r => Forecast.project history (List.last r p)
  end.

(** [rawName.split(';')[0].replace(/^\d+\s*-\s*/, '')]: only a string
    has [split]. *)
Definition cleanName (rawName : value) : completion string :=
  match rawName with
  | VStr s => Normal (JsString.stripCodePrefix (JsString.beforeSemicolon s))
  | _ => TypeError
  end.

(** The callback of the loop of [commodityStats].  When the cleaned name
    is a member of [Object.prototype] no group is created, and the two
    additions write to the built-in, not to [groups]. *)
Definition addCommodity (groups : obj Group.t) (row : TradeRecord)
  : completion (obj Group.t) :=
  name <- cleanName (Commodity row) ;;
  Normal
    match lookup name groups with
    | Some g =>
        set groups name
          {| Group.name := Group.name g;
             Group.value := (Group.value g + Value row)%float;
             Group.weight := (Group.weight g + JsNumber.orElse (Weight row) 0)%float;
             Group.size := None |}
    | None =>
        if inherited name then groups
        else
          set groups name
            {| Group.name := name;
               Group.value := (0 + Value row)%float;
               Group.weight := (0 + JsNumber.orElse (Weight row) 0)%float;
               Group.size := None |}
    end.

Module CommodityStats.
Record t : Type := { top10 : list Group.t; all : list Group.t }.
End CommodityStats.

Definition commodityStats (currentYearData : list TradeRecord) : completion CommodityStats.t :=
  groups <- foldM addCommodity [] currentYearData ;;
  let sorted := sort (fun a b => (Group.value b - Group.value a)%float) (values groups) in
  Normal {| CommodityStats.top10 := firstn 10 sorted;
            CommodityStats.all :=
              map (fun item => {| Group.name := Group.name item;
                                  Group.value := Group.value item;
                                  Group.weight := Group.weight item;
                                  Group.size := Some (Group.value item) |})
                  (firstn 30 sorted) |}.

(** The property key of a region: a label is its own key; a built-in is
    converted to its text (V8's is shown; every engine's text starts with
    [function], so it is neither an array index nor an inherited name). *)
Definition regionKey (r : region) : string :=
  match r with
  | Label s => s
  | Inherited m =>
      if String.eqb m "__proto__" then "[object Object]"
      else ("function " ++ (if String.eqb m "constructor" then "Object" else m)
              ++ "() { [native code] }")%string
  end.

(** One rollup ([partners] or [regions]) updated for one record: the
    entry is created when the key is absent, then the two tests on the flow
    add the value.  With an inherited key no entry is created and the
    additions go to the built-in. *)
Definition bump {N : Type} (o : obj (Rollup.t N)) (k : string) (name : N) (row : TradeRecord)
  : completion (obj (Rollup.t N)) :=
  match lookup k o with
  | Some e =>
      ei <- addFlow row (Rollup.exports e) (Rollup.imports e) ;;
      Normal (set o k {| Rollup.name := Rollup.name e; Rollup.exports := fst ei;
                         Rollup.imports := snd ei |})
  | None =>
      ei <- addFlow row 0%float 0%float ;;
      Normal (if inherited k then o
              else set o k {| Rollup.name := name; Rollup.exports := fst ei;
                              Rollup.imports := snd ei |})
  end.

Definition addGeo (st : obj (Rollup.t value) * obj (Rollup.t region)) (row : TradeRecord)
  : completion (obj (Rollup.t value) * obj (Rollup.t region)) :=
  pk <- ToString (Partner row) ;;
  partners <- bump (fst st) pk (Partner row) row ;;
  regions <- bump (snd st) (regionKey (Region row)) (Region row) row ;;
  Normal (partners, regions).

Module GeoStats.
Record t : Type := { partners : list (Rollup.t value); regions : list (Rollup.t region) }.
End GeoStats.

Definition byVolume {N : Type} (a b : Rollup.t N) : float :=
  ((Rollup.exports b + Rollup.imports b) - (Rollup.exports a + Rollup.imports a))%float.

Definition geoStats (currentYearData : list TradeRecord) : completion GeoStats.t :=
  st <- foldM addGeo ([], []) currentYearData ;;
  Normal {| GeoStats.partners := firstn 10 (sort byVolume (values (fst st)));
            GeoStats.regions := sort byVolume (values (snd st)) |}.

(** SameValueZero on numbers, the equality a [Set] uses. *)
Definition sameValueZero (x y : float) : bool :=
  PrimFloat.eqb x y || (is_nan x && is_nan y).

(** [set.add(x)] on the values of a [Set] in insertion order; -0 is stored
    as +0. *)
Definition setAdd (s : list float) (x : float) : list float :=
  let x' := if PrimFloat.eqb x 0 then 0%float else x in
  if existsb (sameValueZero x') s then s else s ++ [x'].

(** [[...new Set(list)]] *)
Definition setOf (l : list float) : list float := fold_left setAdd l [].

(** [availableYears] *)
Definition availableYears (tradeData : list TradeRecord) : list float :=
  sort (fun a b => (b - a)%float) (setOf (map Year tradeData)).

(** The effect that picks a year: the selected year after it has run. *)
Definition selectDefaultYear (availableYears : list float) (selectedYear : value) : value :=
  match availableYears with
  | y :: _ => if truthy selectedYear then selectedYear else VNum y
  | [] => selectedYear
  end.

(** [field && field.toLowerCase().includes(term)], as a truth value: only
    a text has [toLowerCase]. *)
Definition mentionsTerm (field : value) (term : string) : completion bool :=
  if truthy field then
    match field with
    | VStr s => Normal (JsString.includes (JsString.toLowerCase s) term)
    | _ => TypeError
    end
  else Normal false.

(** [filteredGridData]: the filter runs over all the records of the year,
    then the first 100 matches are kept. *)
Definition filteredGridData (currentYearData : list TradeRecord) (searchTerm : string)
  : completion (list TradeRecord) :=
  let term := JsString.toLowerCase searchTerm in
  rows <- filterM (fun row =>
                     p <- mentionsTerm (Partner row) term ;;
                     if p then Normal true else mentionsTerm (Commodity row) term)
                  currentYearData ;;
  Normal (firstn 100 rows).

(** The colour class of the Net Balance card, which prints the same net:
    [overviewStats.net >= 0 ? 'text-emerald-600' : 'text-red-500']. *)
Definition netBalanceClass (overviewStats : Stats.t) : string :=
  if PrimFloat.leb 0 (Stats.net overviewStats) then "text-emerald-600" else "text-red-500".

End Static.

(** ** The pre-computed build: [my-dashboard-app/src/App.jsx] *)

Module Fetched.
Import Js.

(** [currentYearStats.kpi] and one element of [currentYearStats.partners],
    as the pre-computed payload provides them. *)
Module Kpi.
Record t : Type := { exports : float; imports : float; net : float }.
End Kpi.

Module Stats.
Record t : Type := { waterfall : list Bar.t; concentrationRisk : float; kpi : Kpi.t }.
End Stats.

Definition waterfall (kpi : Kpi.t) : list Bar.t :=
  [ {| Bar.name := "Exports"; Bar.value := Kpi.exports kpi; Bar.fill := COLORS.export |};
    {| Bar.name := "Imports"; Bar.value := (- Kpi.imports kpi)%float;
       Bar.fill := COLORS.import |};
    {| Bar.name := "Net"; Bar.value := Kpi.net kpi;
       Bar.fill := if PrimFloat.ltb 0 (Kpi.net kpi) then COLORS.export else COLORS.import |} ].

Definition byVolume {N : Type} (a b : Rollup.t N) : float :=
  ((Rollup.exports b + Rollup.imports b) - (Rollup.exports a + Rollup.imports a))%float.

(** [overviewStats] for a year that has statistics ([currentYearStats]
    is not null). *)
Definition overviewStats {N : Type} (kpi : Kpi.t) (partners : list (Rollup.t N)) : Stats.t :=
  let sortedPartners := sort byVolume partners in
  let top3Sum :=
    fold_left (fun sum p => (sum + Rollup.exports p + Rollup.imports p)%float)
              (firstn 3 sortedPartners) 0%float in
  let totalVol := (Kpi.exports kpi + Kpi.imports kpi)%float in
  let concentrationRisk :=
    if PrimFloat.ltb 0 totalVol then (top3Sum / totalVol * 100)%float else 0%float in
  {| Stats.waterfall := waterfall kpi;
     Stats.concentrationRisk := concentrationRisk;
     Stats.kpi := kpi |}.

(** [forecastData], as a function of [dashboardData.trends] ([None] when
    the payload or its [trends] is missing).  With an empty [trends] the
    read of [history[history.length - 1].year] is a TypeError. *)
Definition forecastData (trends : option (list Point.t)) : completion (list Point.t) :=
  match trends with
  | None => Normal []
  | Some history =>
      match history with
      | [] => TypeError
      | p :: r => Normal (Forecast.project history (List.last r p))
      end
  end.

(** [code && (code.includes(a) || code.includes(b))] *)
Definition mentions (code : value) (a b : string) : completion bool :=
  if truthy code then
    x <- includes code a ;;
    if x then Normal true else includes code b
  else Normal false.

Definition entryFor (years : obj Indicator.t) (y : float) : Indicator.t :=
  match lookup (JsNumber.toString y) years with
  | Some e => e
  | None => {| Indicator.Year := y; Indicator.GDP := 0; Indicator.Inflation := 0 |}
  end.

(** The callback of [wbData.forEach]. *)
Definition mergeIndicator (years : obj Indicator.t) (row : value)
  : completion (obj Indicator.t) :=
  yv1 <- get row "Year" ;;
  yv2 <- get row "year_of_trade" ;;
  y <- parseInt (or yv1 yv2) ;;
  if negb (JsNumber.toBoolean y) then Normal years
  else
    let e := entryFor years y in
    c1 <- get row "Indicator_Code" ;;
    c2 <- get row "indicator_code" ;;
    let code := or c1 c2 in
    v1 <- get row "Indicator_Value" ;;
    v2 <- get row "indicator_value" ;;
    val <- parseFloat (or v1 v2) ;;
    isGdp <- mentions code "GDP" "NY.GDP" ;;
    let e1 := if isGdp
              then {| Indicator.Year := Indicator.Year e; Indicator.GDP := val;
                      Indicator.Inflation := Indicator.Inflation e |}
              else e in
    isCpi <- mentions code "CPI" "FP.CPI" ;;
    let e2 := if isCpi
              then {| Indicator.Year := Indicator.Year e1; Indicator.GDP := Indicator.GDP e1;
                      Indicator.Inflation := val |}
              else e1 in
    Normal (set years (JsNumber.toString y) e2).

(** [formattedWB], as a function of the fetched [wbData].  Only an array
    has [forEach]; [wbData.length] is falsy for an empty array or text, for
    a number, a boolean, and an object without a truthy [length]. *)
Definition formattedWB (wbData : value) : completion (list Indicator.t) :=
  match wbData with
  | VUndefined | VNull => TypeError
  | VArr [] => Normal []
  | VArr rows =>
      years <- foldM mergeIndicator [] rows ;;
      Normal (sort (fun a b => (Indicator.Year a - Indicator.Year b)%float) (values years))
  | VStr s => if String.eqb s EmptyString then Normal [] else TypeError
  | VObj ps =>
      match lookup "length" ps with
      | Some l => if truthy l then TypeError else Normal []
      | None => Normal []
      end
  | VNum _ | VBool _ => Normal []
  end.

(** The colour class of the Net Balance card:
    [overviewStats.kpi.net >= 0 ? 'text-emerald-600' : 'text-red-500']. *)
Definition netBalanceClass (overviewStats : Stats.t) : string :=
  if PrimFloat.leb 0 (Kpi.net (Stats.kpi overviewStats))
  then "text-emerald-600" else "text-red-500".

End Fetched.

(** ** The terms the statements below are written in *)

Module Terms.
Import Js Static.

(** The pure test a [filter] callback computes when it does not throw. *)
Definition holds {A : Type} (p : A -> completion bool) (a : A) : bool :=
  match p a with
  | Normal true => true
  | _ => false
  end.

(** The rows the two filters of [tradeData] keep, as a pure test. *)
Definition kept (d : TradeRecord) : bool :=
  PrimFloat.ltb 0 (Year d)
  && match Commodity d with
     | VStr s => negb (JsString.includes (JsString.toLowerCase s) "all commodities")
     | _ => false
     end.

(** A value that is not an array or an object. *)
Definition primitive (v : value) : bool :=
  match v with
  | VArr _ | VObj _ => false
  | _ => true
  end.

(** A text, or nothing. *)
Definition textOrMissing (v : value) : bool :=
  match v with
  | VStr _ | VUndefined | VNull => true
  | _ => false
  end.

Definition field (ps : list (string * value)) (name : string) : value :=
  match lookup name ps with
  | Some v => v
  | None => VUndefined
  end.

(** A row as the payload documents it: an object whose fields are texts,
    numbers, booleans or null, the two commodity fields being texts when
    present. *)
Definition wellShaped (row : value) : bool :=
  match row with
  | VObj ps =>
      forallb (fun kv => primitive (snd kv)) ps
      && textOrMissing (field ps "Traded_Commodities")
      && textOrMissing (field ps "commodity_description")
  | _ => false
  end.

(** The number [safeParseFloat] makes of a text: commas removed, trimmed,
    parsed, and 0 for a NaN. *)
Definition parseCleaned (s : string) : float :=
  let num := JsNumber.parseFloat (JsString.trim (JsString.removeCommas s)) in
  if is_nan num then 0%float else num.

(** The projected point for a year, from the two independent fits. *)
Definition projected (history : list Point.t) (year : float) : Point.t :=
  {| Point.year := year;
     Point.exports :=
       (Line.slope (Forecast.calculateLinearRegression history Exports) * year
        + Line.intercept (Forecast.calculateLinearRegression history Exports))%float;
     Point.imports :=
       (Line.slope (Forecast.calculateLinearRegression history Imports) * year
        + Line.intercept (Forecast.calculateLinearRegression history Imports))%float;
     Point.isForecast := Some true |}.

(** Whether the flow of a record contains a word, where the test returns. *)
Definition flowHas (word : string) (row : TradeRecord) : bool :=
  match includes (Flow row) word with
  | Normal b => b
  | TypeError => false
  end.

(** [reduce((a, b) => a + b, start)] over the values of some records. *)
Definition sumValues (start : float) (rows : list TradeRecord) : float :=
  fold_left PrimFloat.add (map Value rows) start.

(** A bucket after one record: the value is added when the flow contains
    the bucket's word. *)
Definition added (word : string) (bucket : float) (row : TradeRecord) : float :=
  if flowHas word row then (bucket + Value row)%float else bucket.

(** A history entry after one record, and the entry a new year starts with. *)
Definition pointAfter (old : Point.t) (row : TradeRecord) : Point.t :=
  {| Point.year := Point.year old;
     Point.exports := added "Export" (Point.exports old) row;
     Point.imports := added "Import" (Point.imports old) row;
     Point.isForecast := Point.isForecast old |}.

Definition freshPoint (year : float) : Point.t :=
  {| Point.year := year; Point.exports := 0; Point.imports := 0; Point.isForecast := None |}.

(** A rollup entry after one record, and the entry a new name starts with. *)
Definition rollupAfter {N : Type} (old : Rollup.t N) (row : TradeRecord) : Rollup.t N :=
  {| Rollup.name := Rollup.name old;
     Rollup.exports := added "Export" (Rollup.exports old) row;
     Rollup.imports := added "Import" (Rollup.imports old) row |}.

Definition freshRollup {N : Type} (name : N) : Rollup.t N :=
  {| Rollup.name := name; Rollup.exports := 0; Rollup.imports := 0 |}.

(** What one record does to the entry of key [k] in a rollup: the entry is
    updated, or created and updated; with a key inherited from
    [Object.prototype] the rollup is left as it was. *)
Definition entryUpdated {N : Type} (o o' : obj (Rollup.t N)) (k : string) (name : N)
           (row : TradeRecord) : Prop :=
  match lookup k o with
  | Some old => lookup k o' = Some (rollupAfter old row)
  | None =>
      if inherited k then o' = o
      else lookup k o' = Some (rollupAfter (freshRollup name) row)
  end.

(** An indicator entry after one row: a field is overwritten with the row's
    value when the row's code selects it, and is left as it was otherwise. *)
Definition written (old : Indicator.t) (gdp cpi : bool) (val : float) : Indicator.t :=
  {| Indicator.Year := Indicator.Year old;
     Indicator.GDP := if gdp then val else Indicator.GDP old;
     Indicator.Inflation := if cpi then val else Indicator.Inflation old |}.


(** A record whose flow, partner and commodity are texts. *)
Definition textRecord (d : TradeRecord) : bool :=
  match Flow d, Partner d, Commodity d with
  | VStr _, VStr _, VStr _ => true
  | _, _, _ => false
  end.

(** A row whose fields are texts, numbers, booleans or null, the flow,
    partner and commodity fields being texts when present. *)
Definition cleanRow (row : value) : bool :=
  match row with
  | VObj ps =>
      forallb (fun kv => primitive (snd kv)) ps
      && forallb (fun name => textOrMissing (field ps name))
           [ "Flow_Description"; "flow_description";
             "Partner_Country"; "partner_country_name";
             "Traded_Commodities"; "commodity_description" ]
  | _ => false
  end.

(** A field contains a search term, letter case aside: the field is a
    non-empty text, and the lower-cased term is a contiguous part of the
    lower-cased text. *)
Definition fieldContains (term : string) (field : value) : Prop :=
  exists s pre post,
    field = VStr s /\ s <> EmptyString
    /\ JsString.toLowerCase s = (pre ++ JsString.toLowerCase term ++ post)%string.

(** A record matches a search term: its partner or its commodity contains
    the term. *)
Definition matchesTerm (term : string) (row : TradeRecord) : Prop :=
  fieldContains term (Partner row) \/ fieldContains term (Commodity row).

(** A payload the Normalizer is written for: anything that is not an
    array, or an array of clean rows. *)
Definition cleanPayload (raw : value) : bool :=
  match raw with
  | VArr rows => forallb cleanRow rows
  | _ => true
  end.

(** An object used as a map whose entries each carry their own key: the
    keys are distinct, and [key] reads an entry's key back from the entry. *)
Definition keyed {A : Type} (key : A -> completion string) (o : obj A) : Prop :=
  NoDup (map fst o) /\ forall k a, In (k, a) o -> key a = Normal k.

(** A commodity group without its [size] property. *)
Definition unsized (g : Group.t) : Group.t :=
  {| Group.name := Group.name g; Group.value := Group.value g;
     Group.weight := Group.weight g; Group.size := None |}.

(** A number that is neither NaN nor an infinity. *)
Definition finite (x : float) : bool :=
  match Prim2SF x with
  | S754_finite _ _ _ | S754_zero _ => true
  | _ => false
  end.

(** A projected point that repeats the exports and imports of [p]. *)
Definition repeated (p : Point.t) (year : float) : Point.t :=
  {| Point.year := year; Point.exports := Point.exports p;
     Point.imports := Point.imports p; Point.isForecast := Some true |}.

(** The length limits [truncateText] is called with: 10 in the treemap,
    12 and 18 on the chart axes, and the default 15. *)
Definition limits : list (float * nat) :=
  [ (10%float, 10%nat); (12%float, 12%nat); (15%float, 15%nat); (18%float, 18%nat) ].

(** Whether the commodity of a record cleans to the name [k]. *)
Definition named (k : string) (row : TradeRecord) : bool :=
  match cleanName (Commodity row) with
  | Normal n => String.eqb n k
  | TypeError => false
  end.

(** [weight += row.Weight || 0] over some records, from 0. *)
Definition sumWeights (rows : list TradeRecord) : float :=
  fold_left (fun acc row => (acc + JsNumber.orElse (Weight row) 0)%float) rows 0%float.

(** The sum of the values of the records whose flow contains a word,
    added in the order of the records starting from 0. *)
Definition flowSum (word : string) (rows : list TradeRecord) : float :=
  sumValues 0 (filter (flowHas word) rows).

(** Whether a record belongs to the history entry, the partner entry or
    the region entry of key [k]. *)
Definition yearKey (k : string) (row : TradeRecord) : bool :=
  String.eqb (JsNumber.toString (Year row)) k.

Definition partnerKey (k : string) (row : TradeRecord) : bool :=
  match ToString (Partner row) with
  | Normal s => String.eqb s k
  | TypeError => false
  end.

Definition regionIs (k : string) (row : TradeRecord) : bool :=
  String.eqb (regionKey (Region row)) k.

(** What the entries of a rollup hold after the records [done]: each
    entry the two flow sums of the records of its key, and no record without
    an entry unless its key is one the rollup skips. *)
Definition summed {E : Type} (ex im : E -> float) (test : string -> TradeRecord -> bool)
           (skipped : string -> bool) (o : obj E) (done : list TradeRecord) : Prop :=
  (forall k e, lookup k o = Some e ->
               ex e = flowSum "Export" (filter (test k) done)
               /\ im e = flowSum "Import" (filter (test k) done))
  /\ (forall d k, In d done -> test k d = true -> lookup k o = None -> skipped k = true).

End Terms.

(** ** Sample payloads *)

Module Sample.
Import Js Static.

(** Three rows of [uncomtrade_data.json]: a trade line, a line without a
    usable year, and an aggregate line. *)
Definition mixedRows : value :=
  VArr [ VObj [ ("Year", VNum 2020); ("Flow_Description", VStr "Export");
                ("Partner_Country", VStr "Italy");
                ("Traded_Commodities", VStr "12 - Oil; crude");
                ("Trade_Value", VStr "1,000,000") ];
         VObj [ ("Year", VStr "n/a"); ("Flow_Description", VStr "Import");
                ("Partner_Country", VStr "China");
                ("Traded_Commodities", VStr "Electronics");
                ("Trade_Value", VNum 500000) ];
         VObj [ ("year_of_trade", VNum 2020); ("flow_description", VStr "Import");
                ("partner_country_name", VStr "China");
                ("commodity_description", VStr "TOTAL - All Commodities");
                ("Trade_Value", VNum 900000) ] ].

(** The record of the first of them. *)
Definition oilRecord : TradeRecord :=
  {| Year := 2020; Flow := VStr "Export"; Partner := VStr "Italy";
     Region := Label "Europe"; Commodity := VStr "12 - Oil; crude";
     Value := 1000000; Weight := 0 |}.

(** A row whose commodity is a numeric code, not a text. *)
Definition numericCommodityRows : value :=
  VArr [ VObj [ ("Year", VNum 2020); ("Flow_Description", VStr "Export");
                ("Partner_Country", VStr "Italy");
                ("Traded_Commodities", VNum 27);
                ("Trade_Value", VNum 100) ] ].

(** A record whose flow text contains both words. *)
Definition transitRecord : TradeRecord :=
  {| Year := 2020; Flow := VStr "Import/Export"; Partner := VStr "Italy";
     Region := Label "Europe"; Commodity := VStr "Oil"; Value := 7; Weight := 0 |}.

(** Two rows of one year; the second has no flow description. *)
Definition unknownFlowRows : value :=
  VArr [ VObj [ ("Year", VNum 2020); ("Flow_Description", VStr "Export");
                ("Partner_Country", VStr "Italy");
                ("Traded_Commodities", VStr "Oil");
                ("Trade_Value", VNum 1) ];
         VObj [ ("Year", VNum 2020);
                ("Partner_Country", VStr "China");
                ("Traded_Commodities", VStr "Electronics");
                ("Trade_Value", VNum 100) ] ].

(** Their records. *)
Definition unknownFlowRecords : list TradeRecord :=
  [ {| Year := 2020; Flow := VStr "Export"; Partner := VStr "Italy";
       Region := Label "Europe"; Commodity := VStr "Oil"; Value := 1; Weight := 0 |};
    {| Year := 2020; Flow := VStr "Unknown"; Partner := VStr "China";
       Region := Label "Asia"; Commodity := VStr "Electronics"; Value := 100; Weight := 0 |} ].

(** Four records of one partner, each flow either [Export] or [Import]. *)
#[warnings="-inexact-float"]
Definition onePartnerRecords : list TradeRecord :=
  map (fun fv => {| Year := 2020; Flow := VStr (fst fv); Partner := VStr "Italy";
                    Region := Label "Europe"; Commodity := VStr "Oil";
                    Value := snd fv; Weight := 0 |})
      [ ("Export"%string, 4.2%float); ("Export"%string, 1.9%float);
        ("Import"%string, 1.2%float); ("Import"%string, 9.0%float) ].

(** The two indicator rows of the example for 2021. *)
Definition gdpRow : value :=
  VObj [ ("Year", VNum 2021); ("Indicator_Code", VStr "NY.GDP.MKTP.KD.ZG");
         ("Indicator_Value", VStr "4.5") ].

Definition cpiRow : value :=
  VObj [ ("Year", VNum 2021); ("Indicator_Code", VStr "FP.CPI.TOTL.ZG");
         ("Indicator_Value", VStr "6.2") ].

(** The record they merge into: [{ Year: 2021, GDP: 4.5, Inflation: 6.2 }]
    (6.2 is the binary64 value nearest to it). *)
#[warnings="-inexact-float"]
Definition merged2021 : Indicator.t :=
  {| Indicator.Year := 2021; Indicator.GDP := 4.5; Indicator.Inflation := 6.2 |}.

(** A row for another World Bank series, GDP per capita. *)
Definition perCapitaRow : value :=
  VObj [ ("Year", VNum 2021); ("Indicator_Code", VStr "NY.GDP.PCAP.CD");
         ("Indicator_Value", VStr "3500") ].

(** A history of two years. *)
Definition twoYears : list Point.t :=
  [ {| Point.year := 2019; Point.exports := 100; Point.imports := 50;
       Point.isForecast := None |};
    {| Point.year := 2020; Point.exports := 200; Point.imports := 80;
       Point.isForecast := None |} ].

(** The commodity rollup of [oilRecord] alone. *)
Definition oilStats : CommodityStats.t :=
  {| CommodityStats.top10 :=
       [ {| Group.name := "Oil"; Group.value := 1000000; Group.weight := 0;
            Group.size := None |} ];
     CommodityStats.all :=
       [ {| Group.name := "Oil"; Group.value := 1000000; Group.weight := 0;
            Group.size := Some 1000000%float |} ] |}.

(** The history and the partner and region rollups of [oilRecord] alone. *)
Definition oilHistory : list Point.t :=
  [ {| Point.year := 2020; Point.exports := 1000000; Point.imports := 0;
       Point.isForecast := None |} ].

Definition oilGeoStats : GeoStats.t :=
  {| GeoStats.partners :=
       [ {| Rollup.name := VStr "Italy"; Rollup.exports := 1000000; Rollup.imports := 0 |} ];
     GeoStats.regions :=
       [ {| Rollup.name := Label "Europe"; Rollup.exports := 1000000;
            Rollup.imports := 0 |} ] |}.

(** Two records of one year and one partner, one for each flow. *)
Definition bothFlows : list TradeRecord :=
  [ {| Year := 2020; Flow := VStr "Export"; Partner := VStr "Italy";
       Region := Label "Europe"; Commodity := VStr "Oil"; Value := 5; Weight := 0 |};
    {| Year := 2020; Flow := VStr "Import"; Partner := VStr "Italy";
       Region := Label "Europe"; Commodity := VStr "Steel"; Value := 3; Weight := 0 |} ].

Definition bothFlowsHistory : list Point.t :=
  [ {| Point.year := 2020; Point.exports := 5; Point.imports := 3;
       Point.isForecast := None |} ].

Definition bothFlowsGeoStats : GeoStats.t :=
  {| GeoStats.partners :=
       [ {| Rollup.name := VStr "Italy"; Rollup.exports := 5; Rollup.imports := 3 |} ];
     GeoStats.regions :=
       [ {| Rollup.name := Label "Europe"; Rollup.exports := 5; Rollup.imports := 3 |} ] |}.

(** A year whose exports and imports are equal. *)
Definition balancedRows : value :=
  VArr [ VObj [ ("Year", VNum 2020); ("Flow_Description", VStr "Export");
                ("Partner_Country", VStr "Italy");
                ("Traded_Commodities", VStr "Oil");
                ("Trade_Value", VNum 5) ];
         VObj [ ("Year", VNum 2020); ("Flow_Description", VStr "Import");
                ("Partner_Country", VStr "China");
                ("Traded_Commodities", VStr "Electronics");
                ("Trade_Value", VNum 5) ] ].

Definition balancedRecords : list TradeRecord :=
  [ {| Year := 2020; Flow := VStr "Export"; Partner := VStr "Italy";
       Region := Label "Europe"; Commodity := VStr "Oil"; Value := 5; Weight := 0 |};
    {| Year := 2020; Flow := VStr "Import"; Partner := VStr "China";
       Region := Label "Asia"; Commodity := VStr "Electronics"; Value := 5; Weight := 0 |} ].

(** A row whose trade value is an object with a property named
    [toString]: [{"Trade_Value": {"toString": 1}}]. *)
Definition shadowedValueRows : value :=
  VArr [ VObj [ ("Year", VNum 2020); ("Flow_Description", VStr "Export");
                ("Partner_Country", VStr "Italy");
                ("Traded_Commodities", VStr "Oil");
                ("Trade_Value", VObj [ ("toString", VNum 1) ]) ] ].

End Sample.


(** * Properties *)

(** ** Numbers *)

Section NumberFacts.
Local Open Scope float_scope.

Lemma SFsub_add_opp (a b : spec_float) : SF64sub a b = SF64add a (SFopp b).
Proof.
  unfold SF64sub, SF64add.
  destruct a as [sa | sa | | sa ma ea], b as [sb | sb | | sb mb eb]; simpl;
    try reflexivity; destruct sa, sb; reflexivity.
Qed.

(** Subtracting is adding the negation, for every pair of numbers. *)
Lemma sub_add_opp (x y : float) : x - y = x + - y.
Proof.
  apply Prim2SF_inj.
  now rewrite sub_spec, add_spec, opp_spec, SFsub_add_opp.
Qed.

(** There is one NaN. *)
Lemma is_nan_eq (x : float) : is_nan x = true -> x = nan.
Proof.
  intros H. rewrite <- (SF2Prim_Prim2SF x). unfold Prim2SF. now rewrite H.
Qed.

Lemma ltb_0_not_leb (y : float) : (0 <? y) = true -> (y <=? 0) = false.
Proof.
  rewrite ltb_spec, leb_spec. unfold SFltb, SFleb.
  change (Prim2SF 0) with (S754_zero false).
  destruct (Prim2SF y) as [s | s | | s m e]; simpl; try discriminate;
    destruct s; simpl; try discriminate; reflexivity.
Qed.

End NumberFacts.

(** ** Strings *)

Section StringFacts.
Import JsString.

Lemma toLowerCase_app (a b : string) :
  toLowerCase (a ++ b) = (toLowerCase a ++ toLowerCase b)%string.
Proof.
  induction a as [|c a IH]; simpl; [reflexivity|]. now rewrite IH.
Qed.

Lemma startsWith_app (p r : string) : startsWith (p ++ r) p = true.
Proof.
  induction p as [|c p IH]; simpl; [reflexivity|].
  now rewrite Ascii.eqb_refl, IH.
Qed.

Lemma includes_startsWith (s p : string) : startsWith s p = true -> includes s p = true.
Proof.
  destruct s; simpl; intros ->; reflexivity.
Qed.

Lemma includes_app (pre v post : string) : includes (pre ++ v ++ post) v = true.
Proof.
  induction pre as [|c pre IH]; simpl.
  - apply includes_startsWith, startsWith_app.
  - rewrite IH. apply orb_true_r.
Qed.

(** A text whose lower-casing does not include [target] contains no
    occurrence of [target] in any letter case. *)
Lemma no_case_variant (s target : string) :
  includes (toLowerCase s) target = false ->
  forall pre v post, toLowerCase v = target -> s <> (pre ++ v ++ post)%string.
Proof.
  intros H pre v post Hv ->.
  rewrite !toLowerCase_app, Hv, includes_app in H. discriminate.
Qed.

End StringFacts.

(** ** Exceptions and loops *)

Lemma bind_Normal {A B : Type} (c : Js.completion A) (k : A -> Js.completion B) (b : B) :
  Js.bind c k = Js.Normal b -> exists a, c = Js.Normal a /\ k a = Js.Normal b.
Proof.
  destruct c as [a|]; simpl; [eauto | discriminate].
Qed.

Lemma Normal_inj {A : Type} (a b : A) : Js.Normal a = Js.Normal b -> a = b.
Proof.
  now intros [= ->].
Qed.

Section CompletionFacts.
Import Js Terms.
Context {A B : Type}.

Lemma mapM_In (f : A -> completion B) (l : list A) (l' : list B) :
  mapM f l = Normal l' ->
  forall b, In b l' -> exists a, In a l /\ f a = Normal b.
Proof.
  revert l'. induction l as [|a l IH]; simpl; intros l' H b Hb.
  - injection H as <-. destruct Hb.
  - apply bind_Normal in H as (b0 & Hb0 & H).
    destruct (mapM f l) as [bs|] eqn:E; simpl in H; [|discriminate].
    injection H as <-. destruct Hb as [<- | Hb].
    + exists a. auto.
    + destruct (IH bs eq_refl b Hb) as (a' & Ha' & Hf). exists a'. auto.
Qed.

Lemma filterM_filter (p : A -> completion bool) (l l' : list A) :
  filterM p l = Normal l' -> l' = filter (holds p) l.
Proof.
  revert l'. induction l as [|a l IH]; simpl; intros l' H.
  - now injection H as <-.
  - unfold holds at 1. destruct (p a) as [keep|]; simpl in H; [|discriminate].
    destruct (filterM p l) as [rs|]; simpl in H; [|discriminate].
    injection H as <-. rewrite (IH rs eq_refl). now destruct keep.
Qed.

End CompletionFacts.

(** Inverts a chain of [x <- c ;; k] that ends in [Normal]. *)
Ltac invert_bind H :=
  repeat
    (let a := fresh "a" in
     let E := fresh "E" in
     apply bind_Normal in H as (a & E & H)).

(** ** The Record Normalizer *)

Section Normalizer.
Import Js Static Terms.

(** When [tradeData] returns, it returns the normalised rows that pass
    the two filters, in their order. *)
Lemma tradeData_filter (rows : list value) (recs : list TradeRecord) :
  tradeData (VArr rows) = Normal recs ->
  exists ds, mapM toRecord rows = Normal ds /\ recs = filter kept ds.
Proof.
  unfold tradeData. intros H.
  apply bind_Normal in H as (ds & Hds & H).
  exists ds. split; [exact Hds|].
  apply filterM_filter in H. subst recs.
  clear Hds. induction ds as [|d ds IH]; simpl; [reflexivity|].
  unfold kept at 1. destruct (PrimFloat.ltb 0 (Year d)); simpl; [|exact IH].
  unfold holds at 1, isAllCommodities.
  destruct (Commodity d); simpl; try exact IH.
  destruct (JsString.includes _ _); simpl; [exact IH | f_equal; exact IH].
Qed.

(** Every record of the output is the record of one row of the payload. *)
Lemma tradeData_from_rows (rows : list value) (recs : list TradeRecord) (d : TradeRecord) :
  tradeData (VArr rows) = Normal recs -> In d recs ->
  exists row, In row rows /\ toRecord row = Normal d.
Proof.
  intros H Hd. apply tradeData_filter in H as (ds & Hds & ->).
  apply filter_In in Hd as [Hd _]. exact (mapM_In _ _ _ Hds d Hd).
Qed.

Lemma field_primitive (ps : list (string * value)) (name : string) :
  forallb (fun kv => primitive (snd kv)) ps = true -> primitive (field ps name) = true.
Proof.
  unfold field. induction ps as [|[k v] ps IH]; simpl; [reflexivity|].
  intros H. apply andb_true_iff in H as [Hv Hps].
  destruct (String.eqb name k); [exact Hv | exact (IH Hps)].
Qed.

Lemma or_primitive (a b : value) :
  primitive a = true -> primitive b = true -> primitive (or a b) = true.
Proof.
  unfold or. now destruct (truthy a).
Qed.

Lemma ToString_primitive (v : value) :
  primitive v = true -> exists s, ToString v = Normal s.
Proof.
  destruct v; simpl; try discriminate; eauto.
Qed.

Lemma safeParseFloat_primitive (v : value) :
  primitive v = true -> exists x, safeParseFloat v = Normal x.
Proof.
  intros H. unfold safeParseFloat.
  destruct (ToString_primitive v H) as (s & Hs).
  destruct v; try discriminate; eauto;
    match goal with |- context [truthy ?v] => destruct (truthy v) end;
    rewrite ?Hs; simpl; eauto.
Qed.

(** A well-shaped row has a record, and its commodity is a text. *)
Lemma toRecord_wellShaped (row : value) :
  wellShaped row = true ->
  exists d, toRecord row = Normal d /\ exists s, Commodity d = VStr s.
Proof.
  destruct row as [| | | | | |ps]; try discriminate. simpl.
  intros H. apply andb_true_iff in H as [H Hc2]. apply andb_true_iff in H as [Hp Hc1].
  unfold toRecord, either, get. fold (field ps "Year"). fold (field ps "year_of_trade").
  fold (field ps "Flow_Description"). fold (field ps "flow_description").
  fold (field ps "Partner_Country"). fold (field ps "partner_country_name").
  fold (field ps "Traded_Commodities"). fold (field ps "commodity_description").
  fold (field ps "Trade_Value"). fold (field ps "WeightofTradedGoods").
  cbn [bind].
  assert (P : forall n, primitive (field ps n) = true) by (intros n; now apply field_primitive).
  destruct (ToString_primitive (or (field ps "Year") (field ps "year_of_trade")))
    as (ys & Hys); [now apply or_primitive|].
  unfold parseInt. rewrite Hys. cbn [bind].
  unfold getRegionFromCountry.
  destruct (ToString_primitive
              (or (or (field ps "Partner_Country") (field ps "partner_country_name"))
                  (VStr "Unknown"))) as (pks & Hpks);
    [repeat apply or_primitive; auto|].
  rewrite Hpks.
  destruct (safeParseFloat_primitive (field ps "Trade_Value") (P _)) as (tv & Htv).
  destruct (safeParseFloat_primitive (field ps "WeightofTradedGoods") (P _)) as (tw & Htw).
  rewrite Htv, Htw.
  assert (Hc : exists s,
             or (or (field ps "Traded_Commodities") (field ps "commodity_description"))
                (VStr "Unknown") = VStr s).
  { unfold or.
    destruct (field ps "Traded_Commodities") as [| | | |[|c1 s1]| |]; try discriminate;
      destruct (field ps "commodity_description") as [| | | |[|c2 s2]| |];
      try discriminate; simpl; eauto. }
  destruct (negb (truthy _)); cbn [bind]; eexists; (split; [reflexivity | exact Hc]).
Qed.

(** On an array of well-shaped rows the normalisation returns. *)
Lemma tradeData_total_on_well_shaped (rows : list value) :
  forallb wellShaped rows = true -> exists recs, tradeData (VArr rows) = Normal recs.
Proof.
  intros H. unfold tradeData.
  assert (Hds : exists ds, mapM toRecord rows = Normal ds
                           /\ Forall (fun d => exists s, Commodity d = VStr s) ds).
  { induction rows as [|row rows IH]; simpl; [eauto|].
    simpl in H. apply andb_true_iff in H as [Hrow Hrows].
    destruct (toRecord_wellShaped row Hrow) as (d & Hd & Hs).
    destruct (IH Hrows) as (ds & Hds & Hall).
    exists (d :: ds). rewrite Hd, Hds. split; [reflexivity | now constructor]. }
  destruct Hds as (ds & -> & Hall). cbn [bind].
  assert (Hf : Forall (fun d => exists s, Commodity d = VStr s)
                      (filter (fun d => PrimFloat.ltb 0 (Year d)) ds)).
  { apply Forall_forall. intros d Hd. apply filter_In in Hd as [Hd _].
    rewrite Forall_forall in Hall. now apply Hall. }
  induction Hf as [|d l (s & Hs) _ (recs & IH)]; simpl; [eauto|].
  unfold isAllCommodities at 1. rewrite Hs. cbn [bind]. rewrite IH. cbn [bind]. eauto.
Qed.

(** Anything that is not an array normalises to the empty sequence. *)
Lemma tradeData_not_array (raw : value) :
  (forall rows, raw <> VArr rows) -> tradeData raw = Normal [].
Proof.
  intros H. destruct raw; try reflexivity. now destruct (H items).
Qed.

(** The commodity of a normalised row is the raw text of the row (or the
    default), as it is. *)
Lemma toRecord_Commodity (row : value) (d : TradeRecord) :
  toRecord row = Normal d ->
  exists c, either row "Traded_Commodities" "commodity_description" = Normal c
            /\ Commodity d = or c (VStr "Unknown").
Proof.
  unfold toRecord. intros H. invert_bind H.
  injection H as <-. simpl. eauto.
Qed.

End Normalizer.

(** ** Claims about the Record Normalizer *)

Section NormalizerClaims.
Import Js Static Terms.
Local Open Scope float_scope.

(** C6: whenever the normalizer returns, its output contains no record with
    [year <= 0] (every record has [Year > 0], so filtering on [Year > 0]
    keeps the length), and no record whose commodity text contains
    "all commodities" in any letter case. *)
Theorem tradeData_excludes_invalid_rows (raw : value) (recs : list TradeRecord) :
  tradeData raw = Normal recs ->
  Forall (fun d =>
            (0 <? Year d) = true /\ (Year d <=? 0) = false /\
            exists s, Commodity d = VStr s /\
              JsString.includes (JsString.toLowerCase s) "all commodities" = false /\
              forall pre v post, JsString.toLowerCase v = "all commodities" ->
                                 s <> (pre ++ v ++ post)%string) recs
  /\ List.length recs = List.length (filter (fun r => 0 <? Year r) recs).
Proof.
  intros H.
  assert (Hk : Forall (fun d => kept d = true) recs).
  { destruct raw; try (injection H as <-; constructor).
    apply tradeData_filter in H as (ds & _ & ->).
    apply Forall_forall. intros d Hd. now apply filter_In in Hd. }
  split.
  - eapply Forall_impl; [|exact Hk]. intros d Hd. unfold kept in Hd.
    apply andb_true_iff in Hd as [Hy Hc].
    split; [exact Hy|]. split; [now apply ltb_0_not_leb|].
    destruct (Commodity d) as [| | | |s| |]; try discriminate.
    exists s. apply negb_true_iff in Hc.
    split; [reflexivity|]. split; [exact Hc|]. now apply no_case_variant.
  - f_equal. symmetry. apply forallb_filter_id. apply forallb_forall.
    intros d Hd. rewrite Forall_forall in Hk. specialize (Hk d Hd).
    unfold kept in Hk. now apply andb_true_iff in Hk as [Hy _].
Qed.

(** The aggregate line and the line without a year are dropped, the trade
    line is kept. *)
Lemma tradeData_excludes_invalid_rows_witness :
  tradeData Sample.mixedRows = Normal [Sample.oilRecord]
  /\ Forall (fun d =>
            (0 <? Year d) = true /\ (Year d <=? 0) = false /\
            exists s, Commodity d = VStr s /\
              JsString.includes (JsString.toLowerCase s) "all commodities" = false /\
              forall pre v post, JsString.toLowerCase v = "all commodities" ->
                                 s <> (pre ++ v ++ post)%string) [Sample.oilRecord]
  /\ List.length [Sample.oilRecord]
     = List.length (filter (fun r => 0 <? Year r) [Sample.oilRecord]).
Proof.
  split; [vm_compute; reflexivity|].
  apply (tradeData_excludes_invalid_rows Sample.mixedRows).
  vm_compute; reflexivity.
Defined.

(** C3: the normalizer is not total.  A row whose commodity is a number
    passes the year filter and then fails in the commodity filter, which
    calls [toLowerCase] on it: the whole normalisation throws. *)
Theorem tradeData_throws_on_numeric_commodity :
  tradeData Sample.numericCommodityRows = TypeError.
Proof.
  vm_compute. reflexivity.
Qed.

End NormalizerClaims.

(** ** Claims about the numeric coercion *)

Section CoercionClaims.
Import Js Static Terms.
Local Open Scope float_scope.

Lemma parseCleaned_not_NaN (s : string) : is_nan (parseCleaned s) = false.
Proof.
  unfold parseCleaned.
  destruct (is_nan (JsNumber.parseFloat _)) eqn:E; [reflexivity | exact E].
Qed.

Lemma safeParseFloat_cases (val : value) :
  (exists n, val = VNum n /\ safeParseFloat val = Normal n)
  \/ ((forall n, val <> VNum n)
      /\ safeParseFloat val =
         if truthy val then s <- ToString val ;; Normal (parseCleaned s) else Normal 0).
Proof.
  destruct val as [| | b | x | s | items | ps];
    try (right; split; [discriminate|];
         unfold safeParseFloat;
         match goal with |- context [truthy ?v] => destruct (truthy v) end; reflexivity).
  left. exists x. split; reflexivity.
Qed.

(** What holds of the coercion: for every input other than the native
    number NaN (which a JSON payload cannot hold) a returned result is never
    NaN.  A native number passes through as it is; a falsy input that is not
    a number gives 0; a text has its commas removed, is trimmed and parsed,
    and a NaN from the parser becomes 0.  Nothing is returned exactly when
    the conversion to text throws. *)
Theorem safeParseFloat_never_NaN (val : value) :
  val <> VNum nan ->
  match safeParseFloat val with
  | Normal x => is_nan x = false
  | TypeError => ToString val = TypeError
  end
  /\ (forall n, val = VNum n -> safeParseFloat val = Normal n)
  /\ ((forall n, val <> VNum n) -> truthy val = false -> safeParseFloat val = Normal 0)
  /\ (forall s, val = VStr s ->
        safeParseFloat val =
        Normal (let num := JsNumber.parseFloat (JsString.trim (JsString.removeCommas s)) in
                if is_nan num then 0 else num)).
Proof.
  intros Hnan.
  destruct (safeParseFloat_cases val) as [(n & -> & E) | (Hn & E)]; rewrite E.
  - repeat split.
    + destruct (is_nan n) eqn:En; [|reflexivity].
      apply is_nan_eq in En. now subst n.
    + now intros m [= ->].
    + intros H. now destruct (H n).
    + discriminate.
  - repeat split.
    + destruct (truthy val); [|reflexivity].
      destruct (ToString val) as [t|]; simpl; [apply parseCleaned_not_NaN | reflexivity].
    + intros n ->. now destruct (Hn n).
    + now intros _ ->.
    + intros s ->. destruct s as [|c s]; [vm_compute; reflexivity | reflexivity].
Qed.

(** A text with thousands separators. *)
Lemma safeParseFloat_never_NaN_witness :
  safeParseFloat (VStr "1,000,000") = Normal 1000000
  /\ match safeParseFloat (VStr "1,000,000") with
     | Normal x => is_nan x = false
     | TypeError => ToString (VStr "1,000,000") = TypeError
     end.
Proof.
  split; [vm_compute; reflexivity|].
  apply (safeParseFloat_never_NaN (VStr "1,000,000")). discriminate.
Defined.

(** The coercion throws exactly when the conversion of its input to text
    throws. *)
Lemma safeParseFloat_throws_iff (val : value) :
  safeParseFloat val = TypeError <-> ToString val = TypeError.
Proof.
  destruct (safeParseFloat_cases val) as [(n & -> & E) | (Hn & E)]; rewrite E.
  - split; discriminate.
  - destruct (truthy val) eqn:Et.
    + destruct (ToString val); simpl; split; auto; discriminate.
    + split; [discriminate|]. intros H.
      destruct val as [| | [|] | x | [|c t] | items | ps]; try discriminate H;
        discriminate Et.
Qed.

(** C4: the coercion does not give a number for every input.  A field that
    holds an object with a property named [toString] (or an array with such
    an object in it) is truthy and not a number, so [String(val)] is
    evaluated; the property shadows [Object.prototype.toString] and is not
    callable, the conversion to a primitive fails, and a TypeError leaves
    the coercion and the whole normalisation. *)
Theorem safeParseFloat_throws_on_shadowed_toString :
  safeParseFloat (VObj [ ("toString", VNum 1) ]) = TypeError
  /\ safeParseFloat (VArr [ VObj [ ("toString", VNum 1) ] ]) = TypeError
  /\ get (VObj [ ("Trade_Value", VObj [ ("toString", VNum 1) ]) ]) "Trade_Value"
     = Normal (VObj [ ("toString", VNum 1) ])
  /\ tradeData Sample.shadowedValueRows = TypeError.
Proof.
  repeat split.
Qed.

End CoercionClaims.

(** ** Plain objects and sorting *)

Section ContainerFacts.
Import Js.
Context {A : Type}.

Lemma lookup_set_eq (o : obj A) (k : string) (v : A) : lookup k (set o k v) = Some v.
Proof.
  induction o as [|[k' v'] o IH]; simpl.
  - now rewrite String.eqb_refl.
  - destruct (String.eqb k k') eqn:E; simpl.
    + now rewrite String.eqb_refl.
    + now rewrite E.
Qed.

Lemma lookup_set_neq (o : obj A) (k k' : string) (v : A) :
  k' <> k -> lookup k' (set o k v) = lookup k' o.
Proof.
  intros Hne. apply String.eqb_neq in Hne.
  induction o as [|[k0 v0] o IH]; simpl.
  - now rewrite Hne.
  - destruct (String.eqb k k0) eqn:E; simpl.
    + apply String.eqb_eq in E. subst k0. now rewrite Hne.
    + destruct (String.eqb k' k0); [reflexivity | exact IH].
Qed.

Lemma set_In (o : obj A) (k : string) (v : A) (kv : string * A) :
  In kv (set o k v) -> kv = (k, v) \/ In kv o.
Proof.
  induction o as [|[k' v'] o IH]; simpl.
  - intros [<- | []]. now left.
  - destruct (String.eqb k k'); simpl.
    + intros [<- | H]; auto.
    + intros [<- | H]; auto. destruct (IH H); auto.
Qed.

Lemma insertIndexed_In (n : Z) (a : A) (l : list (Z * A)) (x : Z * A) :
  In x (insertIndexed n a l) -> x = (n, a) \/ In x l.
Proof.
  induction l as [|[m b] l IH]; simpl.
  - intros [<- | []]. now left.
  - destruct (n <? m); simpl.
    + intros [<- | H]; auto.
    + intros [<- | H]; auto. destruct (IH H); auto.
Qed.

(** Every value listed by [Object.values] is the value of a property. *)
Lemma values_In (o : obj A) (a : A) : In a (values o) -> exists k, In (k, a) o.
Proof.
  unfold values. intros H. apply in_app_or in H as [H | H].
  - apply in_map_iff in H as ([n a'] & Ha & H). simpl in Ha. subst a'.
    assert (G : forall (l : obj A) acc,
               In (n, a) (fold_left
                  (fun acc kv => match arrayIndex (fst kv) with
                                 | Some n => insertIndexed n (snd kv) acc
                                 | None => acc
                                 end) l acc) ->
               In (n, a) acc \/ exists k, In (k, a) l).
    { induction l as [|[k v] l IH]; simpl; intros acc Hin; [now left|].
      destruct (IH _ Hin) as [Hacc | (k' & Hk')].
      - destruct (arrayIndex k); [|now left].
        apply insertIndexed_In in Hacc as [[= _ ->] | Hacc]; [|now left].
        right. exists k. now left.
      - right. exists k'. now right. }
    destruct (G _ _ H) as [[] | Hk]. exact Hk.
  - apply in_map_iff in H as ([k a'] & Ha & H). simpl in Ha. subst a'.
    apply filter_In in H as [H _]. now exists k.
Qed.

Lemma insert_In (compare : A -> A -> float) (a : A) (l : list A) (x : A) :
  In x (insert compare a l) <-> x = a \/ In x l.
Proof.
  induction l as [|b l IH]; simpl.
  - intuition.
  - destruct (PrimFloat.ltb 0 (compare a b)); simpl; rewrite ?IH; intuition.
Qed.

(** Sorting keeps the elements. *)
Lemma sort_In (compare : A -> A -> float) (l : list A) (x : A) :
  In x (sort compare l) <-> In x l.
Proof.
  unfold sort. induction l as [|a l IH]; simpl; [reflexivity|].
  rewrite insert_In, IH. intuition.
Qed.

Lemma firstn_In (n : nat) (l : list A) (x : A) : In x (firstn n l) -> In x l.
Proof.
  intros H. rewrite <- (firstn_skipn n l). apply in_or_app. now left.
Qed.

End ContainerFacts.

(** ** Claims about the waterfall *)

Section WaterfallClaims.
Local Open Scope float_scope.

(** The [waterfall] of the object [overviewStats] returns is built from the
    totals it returns, in both builds. *)
Lemma overviewStats_waterfall (cy td : list Static.TradeRecord) (st : Static.Stats.t) :
  Static.overviewStats cy td = Js.Normal st ->
  Static.Stats.waterfall st
  = Static.waterfall (Static.Stats.exports st) (Static.Stats.imports st)
  /\ Static.Stats.net st = Static.Stats.exports st - Static.Stats.imports st.
Proof.
  unfold Static.overviewStats. intros H. invert_bind H.
  apply Normal_inj in H. subst st. split; reflexivity.
Qed.

Lemma fetched_overviewStats_waterfall {N : Type} (kpi : Fetched.Kpi.t)
      (partners : list (Rollup.t N)) :
  Fetched.Stats.waterfall (Fetched.overviewStats kpi partners) = Fetched.waterfall kpi.
Proof.
  reflexivity.
Qed.

(** What holds of the waterfall: it has exactly three entries; the second
    entry's value is the negation of the import total; the third entry's
    value is [exports - imports] in the static build, which is
    [entry1.value + entry2.value], and [kpi.net] in the pre-computed build,
    which is that sum whenever [kpi.net] is [kpi.exports - kpi.imports]; the
    third entry has the export colour exactly when net is greater than 0,
    and the import colour otherwise. *)
Theorem waterfall_three_entries (exports imports net : float) :
  (exists b1 b2 b3,
      Static.waterfall exports imports = [b1; b2; b3]
      /\ Bar.value b1 = exports
      /\ Bar.value b2 = - imports
      /\ Bar.value b3 = exports - imports
      /\ Bar.value b3 = Bar.value b1 + Bar.value b2
      /\ (Bar.fill b3 = COLORS.export <-> (0 <? exports - imports) = true)
      /\ (Bar.fill b3 = COLORS.import <-> (0 <? exports - imports) = false))
  /\ (let kpi := {| Fetched.Kpi.exports := exports; Fetched.Kpi.imports := imports;
                    Fetched.Kpi.net := net |} in
      exists b1 b2 b3,
        Fetched.waterfall kpi = [b1; b2; b3]
        /\ Bar.value b1 = exports
        /\ Bar.value b2 = - imports
        /\ Bar.value b3 = net
        /\ (net = exports - imports -> Bar.value b3 = Bar.value b1 + Bar.value b2)
        /\ (Bar.fill b3 = COLORS.export <-> (0 <? net) = true)
        /\ (Bar.fill b3 = COLORS.import <-> (0 <? net) = false)).
Proof.
  split.
  - do 3 eexists. split; [reflexivity|]. simpl.
    repeat split; try apply sub_add_opp;
      destruct (0 <? exports - imports); auto; discriminate.
  - do 3 eexists. split; [reflexivity|]. simpl.
    repeat split; try (intros ->; apply sub_add_opp);
      destruct (0 <? net); auto; discriminate.
Qed.

(** The totals of the end-to-end scenario, with their net. *)
Lemma waterfall_three_entries_witness :
  exists b1 b2 b3,
    Fetched.waterfall {| Fetched.Kpi.exports := 1000000; Fetched.Kpi.imports := 500000;
                         Fetched.Kpi.net := 500000 |} = [b1; b2; b3]
    /\ Bar.value b3 = Bar.value b1 + Bar.value b2.
Proof.
  destruct (proj2 (waterfall_three_entries 1000000 500000 500000))
    as (b1 & b2 & b3 & E & _ & _ & _ & H & _).
  exists b1, b2, b3. split; [exact E|]. apply H. vm_compute. reflexivity.
Defined.

(** C2: a net of exactly 0 is not negative, and the Net bar has the
    import colour.  With exports of 5 and imports of 5 the net is 0; the
    bar tests [net > 0] and falls to [COLORS.import], while the Net Balance
    card of the same component tests [net >= 0] and shows the same net in
    the positive colour.  Both builds do this. *)
Theorem waterfall_zero_net_has_import_colour :
  Static.tradeData Sample.balancedRows = Js.Normal Sample.balancedRecords
  /\ Static.currentYearData (Js.VNum 2020) Sample.balancedRecords
     = Js.Normal Sample.balancedRecords
  /\ (exists st,
        Static.overviewStats Sample.balancedRecords Sample.balancedRecords = Js.Normal st
        /\ Static.Stats.exports st = 5 /\ Static.Stats.imports st = 5
        /\ Static.Stats.net st = 0
        /\ (0 <=? Static.Stats.net st) = true /\ (Static.Stats.net st <? 0) = false
        /\ Static.Stats.waterfall st
           = [ {| Bar.name := "Exports"; Bar.value := 5; Bar.fill := COLORS.export |};
               {| Bar.name := "Imports"; Bar.value := -5; Bar.fill := COLORS.import |};
               {| Bar.name := "Net"; Bar.value := 0; Bar.fill := COLORS.import |} ]
        /\ Static.netBalanceClass st = "text-emerald-600"%string)
  /\ (let st := Fetched.overviewStats
                  {| Fetched.Kpi.exports := 5; Fetched.Kpi.imports := 5;
                     Fetched.Kpi.net := 0 |}
                  (@nil (Rollup.t Js.value)) in
      Fetched.Stats.waterfall st
      = [ {| Bar.name := "Exports"; Bar.value := 5; Bar.fill := COLORS.export |};
          {| Bar.name := "Imports"; Bar.value := -5; Bar.fill := COLORS.import |};
          {| Bar.name := "Net"; Bar.value := 0; Bar.fill := COLORS.import |} ]
      /\ Fetched.netBalanceClass st = "text-emerald-600"%string)
  /\ COLORS.import <> COLORS.export.
Proof.
  split; [vm_compute; reflexivity|].
  split; [vm_compute; reflexivity|].
  split.
  - eexists. split; [vm_compute; reflexivity|]. repeat split.
  - split; [|discriminate]. split; reflexivity.
Qed.

(** In the pre-computed build the value of the Net bar is the [net] of the
    payload, whatever the two totals are: with exports 10, imports 5 and a
    net of 7 the third value is 7 and the first two sum to 5. *)
Remark fetched_net_bar_is_the_payload_net :
  exists b1 b2 b3,
    Fetched.waterfall {| Fetched.Kpi.exports := 10; Fetched.Kpi.imports := 5;
                         Fetched.Kpi.net := 7 |} = [b1; b2; b3]
    /\ Bar.value b3 = 7 /\ Bar.value b1 + Bar.value b2 = 5.
Proof.
  do 3 eexists. repeat split.
Qed.

End WaterfallClaims.

(** ** Claims about the Linear Forecaster *)

Section ForecastClaims.
Import Js Forecast Terms.
Local Open Scope float_scope.

(** C7: with fewer than two points the fit is the flat line: slope 0, and
    intercept the metric of the only point, or 0 for an empty history. *)
Theorem calculateLinearRegression_degenerate (data : list Point.t) (key : metric) :
  (List.length data < 2)%nat ->
  calculateLinearRegression data key =
    {| Line.slope := 0;
       Line.intercept := match data with
                         | [] => 0
                         | p :: _ => metricOf key p
                         end |}.
Proof.
  destruct data as [|p [|q r]]; simpl; intros H; try reflexivity; lia.
Qed.

(** A history of length 1: [{ slope: 0, intercept: history[0].exports }]. *)
Lemma calculateLinearRegression_degenerate_witness :
  calculateLinearRegression
    [ {| Point.year := 2020; Point.exports := 1000000; Point.imports := 500000;
         Point.isForecast := None |} ] Exports
  = {| Line.slope := 0; Line.intercept := 1000000 |}.
Proof.
  apply (calculateLinearRegression_degenerate
           [ {| Point.year := 2020; Point.exports := 1000000; Point.imports := 500000;
                Point.isForecast := None |} ] Exports).
  simpl. lia.
Defined.

Lemma last_cons {A : Type} (p : A) (r : list A) (d : A) : List.last (p :: r) d = List.last r p.
Proof.
  revert p d. induction r as [|q r IH]; intros p d; [reflexivity|].
  change (List.last (p :: q :: r) d) with (List.last (q :: r) d).
  now rewrite (IH q d), (IH q p).
Qed.

(** C8: for a history of at least one point, both builds return the
    history followed by exactly two points marked [isForecast], for the
    years after the last historical year, each metric being
    [slope * year + intercept] of its own fit. *)
Theorem forecastData_two_points (history : list Point.t) (d : Point.t) :
  (1 <= List.length history)%nat ->
  let lastYear := Point.year (List.last history d) in
  Static.forecastData history
    = history ++ [projected history (lastYear + 1); projected history (lastYear + 2)]
  /\ Fetched.forecastData (Some history)
    = Normal (history ++ [projected history (lastYear + 1); projected history (lastYear + 2)])
  /\ List.length (Static.forecastData history) = (List.length history + 2)%nat.
Proof.
  destruct history as [|p r]; simpl; [lia|]. intros _.
  rewrite <- (last_cons p r d).
  assert (E : project (p :: r) (List.last (p :: r) d)
              = (p :: r) ++ [projected (p :: r) (Point.year (List.last (p :: r) d) + 1);
                            projected (p :: r) (Point.year (List.last (p :: r) d) + 2)])
    by reflexivity.
  rewrite E. repeat split. f_equal. rewrite length_app. simpl. lia.
Qed.

(** Two years, 100 and 200 of exports, 50 and 80 of imports: the fits have
    slopes 100 and 30. *)
Lemma forecastData_two_points_witness :
  Static.forecastData Sample.twoYears
  = Sample.twoYears ++
    [ {| Point.year := 2021; Point.exports := 300; Point.imports := 110;
         Point.isForecast := Some true |};
      {| Point.year := 2022; Point.exports := 400; Point.imports := 140;
         Point.isForecast := Some true |} ]
  /\ List.length (Static.forecastData Sample.twoYears) = 4%nat.
Proof.
  split; [vm_compute; reflexivity|].
  apply (forecastData_two_points Sample.twoYears
           {| Point.year := 0; Point.exports := 0; Point.imports := 0;
              Point.isForecast := None |}).
  simpl. lia.
Defined.

End ForecastClaims.

(** ** Claims about the flow classification *)

Section FlowClaims.
Import Js Static Terms.
Local Open Scope float_scope.

Lemma includes_TypeError (v : value) (a b : string) :
  includes v a = TypeError -> includes v b = TypeError.
Proof.
  destruct v; simpl; intros H; try reflexivity; discriminate.
Qed.

(** The two tests are independent: each adds the value on its own. *)
Lemma addFlow_buckets (row : TradeRecord) (e i : float) :
  match addFlow row e i with
  | Normal ei => ei = (added "Export" e row, added "Import" i row)
  | TypeError => includes (Flow row) "Export" = TypeError
  end.
Proof.
  unfold addFlow, added, flowHas.
  destruct (includes (Flow row) "Export") as [a|] eqn:Ea; simpl; [|reflexivity].
  destruct (includes (Flow row) "Import") as [b|] eqn:Eb; simpl; [reflexivity|].
  now rewrite (includes_TypeError _ _ "Export" Eb) in Ea.
Qed.

Lemma totals_from (rows : list TradeRecord) (e i : float) :
  match foldM (fun acc row => addFlow row (fst acc) (snd acc)) (e, i) rows with
  | Normal ei =>
      ei = (sumValues e (filter (flowHas "Export") rows),
            sumValues i (filter (flowHas "Import") rows))
  | TypeError => exists row, In row rows /\ includes (Flow row) "Export" = TypeError
  end.
Proof.
  revert e i. induction rows as [|row rows IH]; intros e i; simpl; [reflexivity|].
  pose proof (addFlow_buckets row e i) as H.
  destruct (addFlow row e i) as [ei|]; simpl.
  - subst ei. simpl. specialize (IH (added "Export" e row) (added "Import" i row)).
    destruct (foldM _ _ rows) as [ei|].
    + subst ei. unfold sumValues, added.
      f_equal; [destruct (flowHas "Export" row) | destruct (flowHas "Import" row)];
        reflexivity.
    + destruct IH as (r & Hr & E). exists r. auto.
  - exists row. auto.
Qed.

(** The history entry of the record's year after one record. *)
Lemma addHistory_entry (historyMap historyMap' : obj Point.t) (row : TradeRecord) :
  addHistory historyMap row = Normal historyMap' ->
  lookup (JsNumber.toString (Year row)) historyMap'
  = Some (pointAfter match lookup (JsNumber.toString (Year row)) historyMap with
                     | Some old => old
                     | None => freshPoint (Year row)
                     end row)
  /\ forall k, k <> JsNumber.toString (Year row) -> lookup k historyMap' = lookup k historyMap.
Proof.
  unfold addHistory, freshPoint. intros H.
  set (k := JsNumber.toString (Year row)) in *.
  set (old := match lookup k historyMap with Some e => e | None => _ end) in *.
  pose proof (addFlow_buckets row (Point.exports old) (Point.imports old)) as Hb.
  destruct (addFlow row (Point.exports old) (Point.imports old)) as [ei|];
    simpl in H; [|discriminate].
  apply Normal_inj in H. subst historyMap' ei. split.
  - apply lookup_set_eq.
  - intros k' Hk'. now apply lookup_set_neq.
Qed.

(** An entry of the partner or region rollup after one record. *)
Lemma bump_entry {N : Type} (o o' : obj (Rollup.t N)) (k : string) (name : N)
      (row : TradeRecord) :
  bump o k name row = Normal o' ->
  entryUpdated o o' k name row
  /\ forall k', k' <> k -> lookup k' o' = lookup k' o.
Proof.
  unfold bump, entryUpdated. intros H. destruct (lookup k o) as [old|].
  - pose proof (addFlow_buckets row (Rollup.exports old) (Rollup.imports old)) as Hb.
    destruct (addFlow row (Rollup.exports old) (Rollup.imports old)) as [ei|];
      simpl in H; [|discriminate].
    apply Normal_inj in H. subst o' ei. split.
    + apply lookup_set_eq.
    + intros k' Hk'. now apply lookup_set_neq.
  - pose proof (addFlow_buckets row 0 0) as Hb.
    destruct (addFlow row 0 0) as [ei|]; simpl in H; [|discriminate].
    apply Normal_inj in H. subst o' ei.
    destruct (inherited k); split; try reflexivity.
    + apply lookup_set_eq.
    + intros k' Hk'. now apply lookup_set_neq.
Qed.

(** C5, as the code has it: the flow is tested twice, once for [Export]
    and once for [Import], and each test on its own adds the record's value
    to its bucket.  So the exports total of the year is the sum over the
    records whose flow contains [Export], the imports total the sum over
    those whose flow contains [Import], and a record whose flow contains both
    words is in both.  The same two tests update the entry of the record's
    year in the history and the entries of its partner and region in the
    rollups. *)
Theorem flow_buckets_are_independent :
  (forall row e i,
      match addFlow row e i with
      | Normal ei => ei = (added "Export" e row, added "Import" i row)
      | TypeError => includes (Flow row) "Export" = TypeError
      end)
  /\ (forall rows,
      match totals rows with
      | Normal ei =>
          ei = (sumValues 0 (filter (flowHas "Export") rows),
                sumValues 0 (filter (flowHas "Import") rows))
      | TypeError => exists row, In row rows /\ includes (Flow row) "Export" = TypeError
      end)
  /\ (forall historyMap historyMap' row,
      addHistory historyMap row = Normal historyMap' ->
      lookup (JsNumber.toString (Year row)) historyMap'
      = Some (pointAfter match lookup (JsNumber.toString (Year row)) historyMap with
                         | Some old => old
                         | None => freshPoint (Year row)
                         end row))
  /\ (forall partners regions partners' regions' row,
      addGeo (partners, regions) row = Normal (partners', regions') ->
      exists pk,
        ToString (Partner row) = Normal pk
        /\ entryUpdated partners partners' pk (Partner row) row
        /\ entryUpdated regions regions' (regionKey (Region row)) (Region row) row).
Proof.
  split; [exact addFlow_buckets|].
  split; [intros rows; apply totals_from|].
  split; [intros h h' row H; apply (addHistory_entry h h' row H)|].
  intros partners regions partners' regions' row H. unfold addGeo in H. simpl in H.
  apply bind_Normal in H as (pk & Hpk & H).
  apply bind_Normal in H as (p' & Hp & H).
  apply bind_Normal in H as (r' & Hr & H).
  apply Normal_inj in H. injection H as -> ->.
  exists pk. split; [exact Hpk|]. split.
  - now apply bump_entry in Hp as [Hp _].
  - now apply bump_entry in Hr as [Hr _].
Qed.

(** A record of exports for a year already in the history: its value goes
    to the exports of that year and the imports stay. *)
Lemma flow_buckets_are_independent_witness :
  lookup "2020"%string
    [("2020"%string,
      {| Point.year := 2020; Point.exports := 1000005; Point.imports := 3;
         Point.isForecast := None |})]
  = Some (pointAfter {| Point.year := 2020; Point.exports := 5; Point.imports := 3;
                        Point.isForecast := None |} Sample.oilRecord).
Proof.
  apply (proj1 (proj2 (proj2 flow_buckets_are_independent))
           [("2020"%string,
             {| Point.year := 2020; Point.exports := 5; Point.imports := 3;
                Point.isForecast := None |})]
           _ Sample.oilRecord).
  vm_compute. reflexivity.
Defined.

End FlowClaims.

Section AggregationClaims.
Import Js Static Terms.
Local Open Scope float_scope.

(** C5 as stated fails on a flow text that contains both words: the value
    7 of the record is added to the exports total and to the imports total. *)
Lemma value_added_to_both_buckets :
  includes (Flow Sample.transitRecord) "Export" = Normal true
  /\ includes (Flow Sample.transitRecord) "Import" = Normal true
  /\ totals [Sample.transitRecord] = Normal (7, 7).
Proof.
  repeat split.
Qed.

(** When the exports and imports of the year do not sum to more than 0, the
    concentration risk is exactly 0. *)
Lemma concentrationRisk_zero_volume (cy td : list TradeRecord) (st : Stats.t) :
  overviewStats cy td = Normal st ->
  (0 <? Stats.exports st + Stats.imports st) = false ->
  Stats.concentrationRisk st = Some 0.
Proof.
  unfold overviewStats. intros H. invert_bind H. injection H as <-. simpl.
  now intros ->.
Qed.

(** Rounding alone can take the quotient a step above 100: the partner
    total adds the four values in order, the volume adds the exports and the
    imports first. *)
Remark concentrationRisk_rounding :
  exists st,
    overviewStats Sample.onePartnerRecords Sample.onePartnerRecords = Normal st
    /\ Stats.concentrationRisk st = Some 0x1.9000000000002p+6
    /\ (100 <? 0x1.9000000000002p+6) = true.
Proof.
  eexists. split; [vm_compute; reflexivity|]. split; reflexivity.
Qed.

(** C1: the concentration risk is not bounded by 100.  The partner totals
    sum the value of every record of the year, the total volume only the
    values of the records whose flow contains [Export] or [Import]; a record
    without a flow description (flow [Unknown]) is in the first and not in
    the second.  Here the values are 1 and 100, the top-3 sum is 101, the
    volume is 1 and the risk is 10100. *)
Theorem concentrationRisk_exceeds_100 :
  tradeData Sample.unknownFlowRows = Normal Sample.unknownFlowRecords
  /\ Forall (fun r => (0 <=? Value r) = true) Sample.unknownFlowRecords
  /\ currentYearData (VNum 2020) Sample.unknownFlowRecords
     = Normal Sample.unknownFlowRecords
  /\ exists st,
      overviewStats Sample.unknownFlowRecords Sample.unknownFlowRecords = Normal st
      /\ Stats.exports st = 1 /\ Stats.imports st = 0
      /\ Stats.concentrationRisk st = Some 10100
      /\ (100 <? 10100) = true.
Proof.
  split; [vm_compute; reflexivity|].
  split; [repeat constructor|].
  split; [vm_compute; reflexivity|].
  eexists. split; [vm_compute; reflexivity|]. repeat split.
Qed.

End AggregationClaims.

(** ** Claims about the commodity text *)

Section CommodityClaims.
Import Js Static Terms.
Local Open Scope float_scope.

Lemma lookup_In {A : Type} (k : string) (o : obj A) (v : A) :
  lookup k o = Some v -> In (k, v) o.
Proof.
  induction o as [|[k' v'] o IH]; simpl; [discriminate|].
  destruct (String.eqb k k') eqn:E.
  - apply String.eqb_eq in E. subst k'. intros [= ->]. now left.
  - intros H. right. now apply IH.
Qed.

(** Every group is stored under its own name, and that name is the cleaned
    commodity text of a record. *)
Lemma addCommodity_names (R : string -> Prop) (rows : list TradeRecord) :
  (forall row k, In row rows -> cleanName (Commodity row) = Normal k -> R k) ->
  forall groups groups',
    (forall k g, In (k, g) groups -> Group.name g = k /\ R k) ->
    foldM addCommodity groups rows = Normal groups' ->
    forall k g, In (k, g) groups' -> Group.name g = k /\ R k.
Proof.
  induction rows as [|row rows IH]; simpl; intros HR groups groups' Hinv H.
  - now injection H as <-.
  - apply bind_Normal in H as (g1 & Hstep & H).
    apply (IH (fun r k Hr => HR r k (or_intror Hr)) g1 groups'); [|exact H].
    clear IH H. unfold addCommodity in Hstep.
    apply bind_Normal in Hstep as (name & Hname & Hstep).
    injection Hstep as <-. intros k g Hin.
    destruct (lookup name groups) as [old|] eqn:El.
    + apply set_In in Hin as [[= -> ->] | Hin]; [|now apply Hinv].
      simpl. apply lookup_In in El. now apply Hinv in El.
    + destruct (inherited name); [now apply Hinv|].
      apply set_In in Hin as [[= -> ->] | Hin]; [|now apply Hinv].
      simpl. split; [reflexivity|]. apply (HR row); [now left | exact Hname].
Qed.

(** C10, as the code has it: the record built by the Normalizer carries the
    commodity text of the row as it is (or ["Unknown"]); the leading numeric
    code and the segments after the separator are stripped later, in the
    commodity rollup, where every group is named by the cleaned text of one
    of the year's records. *)
Theorem commodity_is_cleaned_in_the_rollup :
  (forall row d,
      toRecord row = Normal d ->
      exists c, either row "Traded_Commodities" "commodity_description" = Normal c
                /\ Commodity d = or c (VStr "Unknown"))
  /\ (forall currentYearData stats,
      commodityStats currentYearData = Normal stats ->
      forall g,
        In g (CommodityStats.top10 stats) \/ In g (CommodityStats.all stats) ->
        exists row s,
          In row currentYearData /\ Commodity row = VStr s
          /\ Group.name g = JsString.stripCodePrefix (JsString.beforeSemicolon s)).
Proof.
  split; [exact toRecord_Commodity|].
  intros cy stats H g Hg. unfold commodityStats in H.
  apply bind_Normal in H as (groups & Hfold & H). apply Normal_inj in H. subst stats.
  cbn [CommodityStats.top10 CommodityStats.all] in Hg.
  set (R := fun k => exists row s, In row cy /\ Commodity row = VStr s
                     /\ k = JsString.stripCodePrefix (JsString.beforeSemicolon s)).
  assert (Hnames : forall k e, In (k, e) groups -> Group.name e = k /\ R k).
  { apply (addCommodity_names R cy) with (groups := []); [| intros k e [] | exact Hfold].
    intros row k Hrow Hk. unfold cleanName in Hk.
    destruct (Commodity row) as [| | | |s| |] eqn:Ec; try discriminate.
    injection Hk as <-. now exists row, s. }
  assert (Hsorted : forall e,
             In e (sort (fun a b => Group.value b - Group.value a) (values groups)) ->
             R (Group.name e)).
  { intros e He. apply sort_In in He. apply values_In in He as (k & Hk).
    destruct (Hnames k e Hk) as [-> HR]. exact HR. }
  destruct Hg as [Hg | Hg].
  - apply firstn_In in Hg. exact (Hsorted g Hg).
  - apply in_map_iff in Hg as (e & <- & He). simpl.
    apply firstn_In in He. exact (Hsorted e He).
Qed.

(** C10 as stated fails: the record built from a row keeps the code prefix
    and the segment after the separator; the cleaned text is [Oil]. *)
Lemma tradeData_keeps_raw_commodity :
  tradeData Sample.mixedRows = Normal [Sample.oilRecord]
  /\ Commodity Sample.oilRecord = VStr "12 - Oil; crude"
  /\ cleanName (Commodity Sample.oilRecord) = Normal "Oil"
  /\ Commodity Sample.oilRecord <> VStr "Oil".
Proof.
  split; [vm_compute; reflexivity|]. repeat split. discriminate.
Qed.

(** The rollup of the sample record has one group, named [Oil]. *)
Lemma commodity_is_cleaned_in_the_rollup_witness :
  (exists c, either (VObj [("Traded_Commodities", VStr "12 - Oil; crude")])
                    "Traded_Commodities" "commodity_description" = Normal c
             /\ Commodity {| Year := 0; Flow := VStr "Unknown"; Partner := VStr "Unknown";
                             Region := Label "International";
                             Commodity := VStr "12 - Oil; crude";
                             Value := 0; Weight := 0 |} = or c (VStr "Unknown"))
  /\ exists stats,
      commodityStats [Sample.oilRecord] = Normal stats
      /\ map Group.name (CommodityStats.top10 stats) = ["Oil"%string].
Proof.
  split.
  - apply (proj1 commodity_is_cleaned_in_the_rollup
             (VObj [("Traded_Commodities", VStr "12 - Oil; crude")])).
    vm_compute. reflexivity.
  - eexists. split; vm_compute; reflexivity.
Defined.

End CommodityClaims.

(** ** Claims about the indicator merge *)

Section IndicatorClaims.
Import Js Terms.
Local Open Scope float_scope.

Lemma strictEqStr_true (code : value) (s : string) :
  strictEqStr code s = true <-> code = VStr s.
Proof.
  destruct code; simpl; try (split; [discriminate | intros [=]]).
  rewrite String.eqb_eq. split; [now intros -> | now intros [= ->]].
Qed.

Lemma isGdpCode_exact (code : value) :
  Static.isGdpCode code = true <->
  code = VStr "NY.GDP.MKTP.KD.ZG" \/ code = VStr "WB_WDI_NY_GDP_MKTP_KD_ZG".
Proof.
  unfold Static.isGdpCode. now rewrite orb_true_iff, !strictEqStr_true.
Qed.

Lemma isCpiCode_exact (code : value) :
  Static.isCpiCode code = true <->
  code = VStr "FP.CPI.TOTL.ZG" \/ code = VStr "WB_WDI_FP_CPI_TOTL_ZG".
Proof.
  unfold Static.isCpiCode. now rewrite orb_true_iff, !strictEqStr_true.
Qed.

(** One row in the static build. *)
Lemma static_mergeIndicator_step (years years' : obj Indicator.t) (row : value) :
  Static.mergeIndicator years row = Normal years' ->
  exists yv y,
    Static.either row "Year" "year_of_trade" = Normal yv /\ parseInt yv = Normal y
    /\ if JsNumber.toBoolean y then
         exists code iv val,
           Static.either row "Indicator_Code" "indicator_code" = Normal code
           /\ get row "Indicator_Value" = Normal iv
           /\ Static.safeParseFloat iv = Normal val
           /\ lookup (JsNumber.toString y) years'
              = Some (written (Static.entryFor years y)
                              (Static.isGdpCode code) (Static.isCpiCode code) val)
           /\ forall k, k <> JsNumber.toString y -> lookup k years' = lookup k years
       else years' = years.
Proof.
  unfold Static.mergeIndicator. intros H.
  apply bind_Normal in H as (yv & Hyv & H).
  apply bind_Normal in H as (y & Hy & H).
  exists yv, y. split; [exact Hyv|]. split; [exact Hy|].
  destruct (JsNumber.toBoolean y); simpl in H.
  - apply bind_Normal in H as (code & Hcode & H).
    apply bind_Normal in H as (iv & Hiv & H).
    apply bind_Normal in H as (val & Hval & H).
    apply Normal_inj in H. subst years'.
    exists code, iv, val. repeat split; try assumption.
    + rewrite lookup_set_eq. f_equal. unfold written.
      destruct (Static.isGdpCode code), (Static.isCpiCode code);
        destruct (Static.entryFor years y); reflexivity.
    + intros k Hk. now apply lookup_set_neq.
  - now apply Normal_inj in H.
Qed.

(** One row in the pre-computed build. *)
Lemma fetched_mergeIndicator_step (years years' : obj Indicator.t) (row : value) :
  Fetched.mergeIndicator years row = Normal years' ->
  exists yv1 yv2 y,
    get row "Year" = Normal yv1 /\ get row "year_of_trade" = Normal yv2
    /\ parseInt (or yv1 yv2) = Normal y
    /\ if JsNumber.toBoolean y then
         exists c1 c2 v1 v2 val gdp cpi,
           get row "Indicator_Code" = Normal c1 /\ get row "indicator_code" = Normal c2
           /\ get row "Indicator_Value" = Normal v1 /\ get row "indicator_value" = Normal v2
           /\ parseFloat (or v1 v2) = Normal val
           /\ Fetched.mentions (or c1 c2) "GDP" "NY.GDP" = Normal gdp
           /\ Fetched.mentions (or c1 c2) "CPI" "FP.CPI" = Normal cpi
           /\ lookup (JsNumber.toString y) years'
              = Some (written (Fetched.entryFor years y) gdp cpi val)
           /\ forall k, k <> JsNumber.toString y -> lookup k years' = lookup k years
       else years' = years.
Proof.
  unfold Fetched.mergeIndicator. intros H.
  apply bind_Normal in H as (yv1 & Hyv1 & H).
  apply bind_Normal in H as (yv2 & Hyv2 & H).
  apply bind_Normal in H as (y & Hy & H).
  exists yv1, yv2, y. repeat (split; [assumption|]).
  destruct (JsNumber.toBoolean y); simpl in H.
  - apply bind_Normal in H as (c1 & Hc1 & H).
    apply bind_Normal in H as (c2 & Hc2 & H).
    apply bind_Normal in H as (v1 & Hv1 & H).
    apply bind_Normal in H as (v2 & Hv2 & H).
    apply bind_Normal in H as (val & Hval & H).
    apply bind_Normal in H as (gdp & Hgdp & H).
    apply bind_Normal in H as (cpi & Hcpi & H).
    apply Normal_inj in H. subst years'.
    exists c1, c2, v1, v2, val, gdp, cpi. repeat split; try assumption.
    + rewrite lookup_set_eq. f_equal. unfold written.
      destruct gdp, cpi; destruct (Fetched.entryFor years y); reflexivity.
    + intros k Hk. now apply lookup_set_neq.
  - now apply Normal_inj in H.
Qed.

(** On a text the pre-computed build searches for a substring. *)
Lemma mentions_text (s a b : string) :
  Fetched.mentions (VStr s) a b
  = Normal (negb (String.eqb s EmptyString) && (JsString.includes s a || JsString.includes s b)).
Proof.
  unfold Fetched.mentions. simpl.
  destruct (String.eqb s EmptyString); simpl; [reflexivity|].
  now destruct (JsString.includes s a).
Qed.

(** C9, as the code has it.  In the static build a row's value is written
    into the GDP field exactly when the row's code is one of the two GDP
    spellings, and into the inflation field exactly when it is one of the two
    CPI spellings; with any other code both fields of the year's entry stay
    as they were.  In the pre-computed build the code is not compared but
    searched: the value is written into the GDP field when the code contains
    [GDP], and into the inflation field when it contains [CPI].  In both
    builds the two example rows for 2021 merge into the one record
    [{ Year: 2021, GDP: 4.5, Inflation: 6.2 }]. *)
Theorem indicator_fields_follow_the_code :
  (forall years years' row,
      Static.mergeIndicator years row = Normal years' ->
      exists yv y,
        Static.either row "Year" "year_of_trade" = Normal yv /\ parseInt yv = Normal y
        /\ if JsNumber.toBoolean y then
             exists code iv val,
               Static.either row "Indicator_Code" "indicator_code" = Normal code
               /\ get row "Indicator_Value" = Normal iv
               /\ Static.safeParseFloat iv = Normal val
               /\ lookup (JsNumber.toString y) years'
                  = Some (written (Static.entryFor years y)
                                  (Static.isGdpCode code) (Static.isCpiCode code) val)
               /\ forall k, k <> JsNumber.toString y -> lookup k years' = lookup k years
           else years' = years)
  /\ (forall code,
        (Static.isGdpCode code = true <->
         code = VStr "NY.GDP.MKTP.KD.ZG" \/ code = VStr "WB_WDI_NY_GDP_MKTP_KD_ZG")
        /\ (Static.isCpiCode code = true <->
            code = VStr "FP.CPI.TOTL.ZG" \/ code = VStr "WB_WDI_FP_CPI_TOTL_ZG"))
  /\ Static.wbData (VArr [Sample.gdpRow; Sample.cpiRow]) = Normal [Sample.merged2021]
  /\ (forall years years' row,
        Fetched.mergeIndicator years row = Normal years' ->
        exists yv1 yv2 y,
          get row "Year" = Normal yv1 /\ get row "year_of_trade" = Normal yv2
          /\ parseInt (or yv1 yv2) = Normal y
          /\ if JsNumber.toBoolean y then
               exists c1 c2 v1 v2 val gdp cpi,
                 get row "Indicator_Code" = Normal c1 /\ get row "indicator_code" = Normal c2
                 /\ get row "Indicator_Value" = Normal v1
                 /\ get row "indicator_value" = Normal v2
                 /\ parseFloat (or v1 v2) = Normal val
                 /\ Fetched.mentions (or c1 c2) "GDP" "NY.GDP" = Normal gdp
                 /\ Fetched.mentions (or c1 c2) "CPI" "FP.CPI" = Normal cpi
                 /\ lookup (JsNumber.toString y) years'
                    = Some (written (Fetched.entryFor years y) gdp cpi val)
                 /\ forall k, k <> JsNumber.toString y -> lookup k years' = lookup k years
             else years' = years)
  /\ (forall s a b,
        Fetched.mentions (VStr s) a b
        = Normal (negb (String.eqb s EmptyString)
                  && (JsString.includes s a || JsString.includes s b)))
  /\ Fetched.formattedWB (VArr [Sample.gdpRow; Sample.cpiRow]) = Normal [Sample.merged2021].
Proof.
  split; [intros years years' row; apply static_mergeIndicator_step|].
  split; [intros code; split; [apply isGdpCode_exact | apply isCpiCode_exact]|].
  split; [vm_compute; reflexivity|].
  split; [intros years years' row; apply fetched_mergeIndicator_step|].
  split; [exact mentions_text|].
  vm_compute; reflexivity.
Qed.

(** The first example row, merged into an empty map in the static build. *)
Lemma indicator_fields_follow_the_code_witness :
  exists yv y,
    Static.either Sample.gdpRow "Year" "year_of_trade" = Normal yv
    /\ parseInt yv = Normal y
    /\ if JsNumber.toBoolean y then
         exists code iv val,
           Static.either Sample.gdpRow "Indicator_Code" "indicator_code" = Normal code
           /\ get Sample.gdpRow "Indicator_Value" = Normal iv
           /\ Static.safeParseFloat iv = Normal val
           /\ lookup (JsNumber.toString y)
                     [("2021"%string,
                       {| Indicator.Year := 2021; Indicator.GDP := 4.5;
                          Indicator.Inflation := 0 |})]
              = Some (written (Static.entryFor [] y)
                              (Static.isGdpCode code) (Static.isCpiCode code) val)
           /\ forall k, k <> JsNumber.toString y ->
                        lookup k [("2021"%string,
                                   {| Indicator.Year := 2021; Indicator.GDP := 4.5;
                                      Indicator.Inflation := 0 |})]
                        = lookup k []
       else [("2021"%string,
              {| Indicator.Year := 2021; Indicator.GDP := 4.5; Indicator.Inflation := 0 |})]
            = [].
Proof.
  apply (proj1 indicator_fields_follow_the_code [] _ Sample.gdpRow).
  vm_compute. reflexivity.
Defined.

(** C9 as stated fails in the pre-computed build: the code of the GDP per
    capita series is neither spelling of the GDP growth code, and the row's
    value is written into the GDP field; the static build leaves it at 0. *)
Lemma formattedWB_writes_on_a_partial_match :
  Static.isGdpCode (VStr "NY.GDP.PCAP.CD") = false
  /\ Fetched.formattedWB (VArr [Sample.perCapitaRow])
     = Normal [ {| Indicator.Year := 2021; Indicator.GDP := 3500;
                   Indicator.Inflation := 0 |} ]
  /\ Static.wbData (VArr [Sample.perCapitaRow])
     = Normal [ {| Indicator.Year := 2021; Indicator.GDP := 0;
                   Indicator.Inflation := 0 |} ].
Proof.
  repeat split; vm_compute; reflexivity.
Qed.

End IndicatorClaims.

(** * Further properties of the code *)

(** ** The Region Classifier and the records of the Normalizer *)

Section RecordProperties.
Import Js Static Terms.
Local Open Scope float_scope.




Lemma or_truthy (a : value) (s : string) :
  s <> EmptyString -> truthy (or a (VStr s)) = true.
Proof.
  intros Hs. unfold or. destruct (truthy a) eqn:E; [exact E|].
  simpl. apply negb_true_iff. now apply String.eqb_neq.
Qed.

Lemma orElse_zero_not_NaN (y : float) : is_nan (JsNumber.orElse y 0) = false.
Proof.
  unfold JsNumber.orElse, JsNumber.toBoolean.
  destruct (PrimFloat.eqb y 0); simpl; [reflexivity|].
  destruct (is_nan y) eqn:E; simpl; [reflexivity | exact E].
Qed.

Lemma safeParseFloat_not_NaN (v : value) (x : float) :
  safeParseFloat v = Normal x -> v <> VNum nan -> is_nan x = false.
Proof.
  intros H Hv.
  destruct (safeParseFloat_cases v) as [(n & -> & E) | (_ & E)]; rewrite E in H.
  - apply Normal_inj in H. subst x. destruct (is_nan n) eqn:En; [|reflexivity].
    apply is_nan_eq in En. now subst n.
  - destruct (truthy v).
    + apply bind_Normal in H as (t & _ & H). apply Normal_inj in H. subst x.
      apply parseCleaned_not_NaN.
    + apply Normal_inj in H. now subst x.
Qed.

(** Every record the Normalizer builds has a flow, a partner and a
    commodity (none is missing or empty), a year that is not NaN, the region
    its partner classifies to, and a value and a weight that are not NaN
    unless the row carries the number NaN there. *)
Theorem toRecord_fields_present (row : value) (d : TradeRecord) :
  toRecord row = Normal d ->
  truthy (Flow d) = true /\ truthy (Partner d) = true /\ truthy (Commodity d) = true
  /\ is_nan (Year d) = false
  /\ getRegionFromCountry (Partner d) = Normal (Region d)
  /\ (get row "Trade_Value" <> Normal (VNum nan) -> is_nan (Value d) = false)
  /\ (get row "WeightofTradedGoods" <> Normal (VNum nan) -> is_nan (Weight d) = false).
Proof.
  unfold toRecord. intros H.
  apply bind_Normal in H as (year & _ & H).
  apply bind_Normal in H as (f & _ & H).
  apply bind_Normal in H as (p & _ & H).
  apply bind_Normal in H as (c & _ & H).
  apply bind_Normal in H as (y & _ & H).
  apply bind_Normal in H as (r & Hr & H).
  apply bind_Normal in H as (tv & Htv & H).
  apply bind_Normal in H as (v & Hv & H).
  apply bind_Normal in H as (tw & Htw & H).
  apply bind_Normal in H as (w & Hw & H).
  apply Normal_inj in H. subst d. cbn [Flow Partner Commodity Year Region Value Weight].
  repeat split; try (apply or_truthy; discriminate).
  - apply orElse_zero_not_NaN.
  - exact Hr.
  - intros Hn. apply (safeParseFloat_not_NaN tv v Hv). intros ->. now rewrite Htv in Hn.
  - intros Hn. apply (safeParseFloat_not_NaN tw w Hw). intros ->. now rewrite Htw in Hn.
Qed.

Lemma toRecord_fields_present_witness :
  truthy (Flow Sample.oilRecord) = true /\ truthy (Partner Sample.oilRecord) = true
  /\ truthy (Commodity Sample.oilRecord) = true
  /\ is_nan (Year Sample.oilRecord) = false
  /\ getRegionFromCountry (Partner Sample.oilRecord) = Normal (Region Sample.oilRecord).
Proof.
  destruct (toRecord_fields_present
              (VObj [ ("Year", VNum 2020); ("Flow_Description", VStr "Export");
                      ("Partner_Country", VStr "Italy");
                      ("Traded_Commodities", VStr "12 - Oil; crude");
                      ("Trade_Value", VStr "1,000,000") ])
              Sample.oilRecord) as (H1 & H2 & H3 & H4 & H5 & _).
  - vm_compute. reflexivity.
  - repeat split; assumption.
Defined.

End RecordProperties.

(** ** The whole derivation on a clean payload *)

Section LoopFacts.
Import Js.
Context {A S : Type}.

Lemma mapM_length {B : Type} (f : A -> completion B) (l : list A) (l' : list B) :
  mapM f l = Normal l' -> List.length l' = List.length l.
Proof.
  revert l'. induction l as [|a l IH]; simpl; intros l' H.
  - apply Normal_inj in H. now subst l'.
  - apply bind_Normal in H as (b & _ & H). apply bind_Normal in H as (bs & Hbs & H).
    apply Normal_inj in H. subst l'. simpl. f_equal. now apply IH.
Qed.

Lemma foldM_total (P : A -> Prop) (step : S -> A -> completion S) :
  (forall s a, P a -> exists s', step s a = Normal s') ->
  forall l s, Forall P l -> exists r, foldM step s l = Normal r.
Proof.
  intros Hstep l. induction l as [|a l IH]; simpl; intros s Hl; [eauto|].
  inversion Hl as [|? ? Ha Hl']; subst.
  destruct (Hstep s a Ha) as (s' & ->). cbn [bind]. now apply IH.
Qed.

Lemma filterM_total (P : A -> Prop) (p : A -> completion bool) :
  (forall a, P a -> exists b, p a = Normal b) ->
  forall l, Forall P l -> exists r, filterM p l = Normal r.
Proof.
  intros Hp l. induction l as [|a l IH]; simpl; intros Hl; [eauto|].
  inversion Hl as [|? ? Ha Hl']; subst.
  destruct (Hp a Ha) as (b & ->). cbn [bind].
  destruct (IH Hl') as (r & ->). cbn [bind]. eauto.
Qed.

Lemma filterM_Forall (P : A -> Prop) (p : A -> completion bool) (l l' : list A) :
  filterM p l = Normal l' -> Forall P l -> Forall P l'.
Proof.
  intros H Hl. apply filterM_filter in H. subst l'.
  rewrite Forall_forall in *. intros a Ha. apply filter_In in Ha as [Ha _]. auto.
Qed.

Lemma filterM_each (p : A -> completion bool) (l l' : list A) (a : A) :
  filterM p l = Normal l' -> In a l -> exists b, p a = Normal b.
Proof.
  revert l'. induction l as [|x l IH]; simpl; intros l' H Ha; [destruct Ha|].
  apply bind_Normal in H as (b & Hb & H). apply bind_Normal in H as (rs & Hrs & _).
  destruct Ha as [<- | Ha]; [eauto | exact (IH rs Hrs Ha)].
Qed.

End LoopFacts.

Section CleanPayload.
Import Js Static Terms.

Lemma textRecord_inv (d : TradeRecord) :
  textRecord d = true ->
  exists f p c, Flow d = VStr f /\ Partner d = VStr p /\ Commodity d = VStr c.
Proof.
  unfold textRecord.
  destruct (Flow d); try discriminate; destruct (Partner d); try discriminate;
    destruct (Commodity d); try discriminate; intros _; repeat eexists.
Qed.

Lemma or_text (a b : value) (s : string) :
  textOrMissing a = true -> textOrMissing b = true ->
  exists t, or (or a b) (VStr s) = VStr t.
Proof.
  unfold or.
  destruct a as [| | | |[|c1 s1]| |]; try discriminate;
    destruct b as [| | | |[|c2 s2]| |]; try discriminate; simpl; eauto.
Qed.

Lemma cleanRow_wellShaped (row : value) : cleanRow row = true -> wellShaped row = true.
Proof.
  destruct row as [| | | | | |ps]; try discriminate. simpl.
  intros H. apply andb_true_iff in H as [Hp H]. rewrite Hp.
  repeat (apply andb_true_iff in H as [? H]).
  repeat (apply andb_true_iff; split); assumption.
Qed.

(** A clean row has a record, whose flow, partner and commodity are texts. *)
Lemma toRecord_cleanRow (row : value) :
  cleanRow row = true -> exists d, toRecord row = Normal d /\ textRecord d = true.
Proof.
  intros H. destruct (toRecord_wellShaped row (cleanRow_wellShaped row H)) as (d & Hd & _).
  exists d. split; [exact Hd|].
  destruct row as [| | | | | |ps]; try discriminate. simpl in H.
  apply andb_true_iff in H as [_ H].
  repeat (apply andb_true_iff in H as [? H]).
  unfold toRecord, either, get in Hd. cbn [bind] in Hd.
  fold (field ps "Flow_Description") in Hd. fold (field ps "flow_description") in Hd.
  fold (field ps "Partner_Country") in Hd. fold (field ps "partner_country_name") in Hd.
  fold (field ps "Traded_Commodities") in Hd. fold (field ps "commodity_description") in Hd.
  apply bind_Normal in Hd as (y & _ & Hd).
  apply bind_Normal in Hd as (r & _ & Hd).
  apply bind_Normal in Hd as (v & _ & Hd).
  apply bind_Normal in Hd as (w & _ & Hd).
  apply Normal_inj in Hd. subst d. unfold textRecord. cbn [Flow Partner Commodity].
  destruct (or_text (field ps "Flow_Description") (field ps "flow_description") "Unknown"
              ltac:(assumption) ltac:(assumption)) as (f & ->).
  destruct (or_text (field ps "Partner_Country") (field ps "partner_country_name") "Unknown"
              ltac:(assumption) ltac:(assumption)) as (p & ->).
  destruct (or_text (field ps "Traded_Commodities") (field ps "commodity_description")
              "Unknown" ltac:(assumption) ltac:(assumption)) as (c & ->).
  reflexivity.
Qed.

Lemma mapM_toRecord_clean (rows : list value) :
  forallb cleanRow rows = true ->
  exists ds, mapM toRecord rows = Normal ds /\ Forall (fun d => textRecord d = true) ds.
Proof.
  induction rows as [|row rows IH]; simpl; intros H; [eauto|].
  apply andb_true_iff in H as [Hrow Hrows].
  destruct (toRecord_cleanRow row Hrow) as (d & -> & Hd).
  destruct (IH Hrows) as (ds & -> & Hds). cbn [bind]. eauto.
Qed.

Lemma tradeData_clean (raw : value) :
  cleanPayload raw = true ->
  exists td, tradeData raw = Normal td /\ Forall (fun d => textRecord d = true) td.
Proof.
  destruct raw as [| | | | |rows|]; try (exists []; split; [reflexivity | constructor]).
  simpl. intros H. destruct (mapM_toRecord_clean rows H) as (ds & -> & Hds). cbn [bind].
  assert (Hf : Forall (fun d => textRecord d = true)
                      (filter (fun d => PrimFloat.ltb 0 (Year d)) ds)).
  { rewrite Forall_forall in *. intros d Hd. apply filter_In in Hd as [Hd _]. auto. }
  destruct (filterM_total (fun d => textRecord d = true)
              (fun d => b <- isAllCommodities d ;; Normal (negb b)))
    with (l := filter (fun d => PrimFloat.ltb 0 (Year d)) ds)
    as (td & Htd); [|exact Hf|].
  - intros d Hd. apply textRecord_inv in Hd as (f & p & c & _ & _ & Hc).
    unfold isAllCommodities. rewrite Hc. cbn [bind]. eauto.
  - exists td. split; [exact Htd|]. exact (filterM_Forall _ _ _ _ Htd Hf).
Qed.

Lemma addFlow_text (row : TradeRecord) (e i : float) :
  textRecord row = true -> exists ei, addFlow row e i = Normal ei.
Proof.
  intros H. apply textRecord_inv in H as (f & p & c & Hf & _ & _).
  unfold addFlow. rewrite Hf. cbn [includes bind]. eauto.
Qed.

Lemma bump_text {N : Type} (o : obj (Rollup.t N)) (k : string) (name : N)
      (row : TradeRecord) :
  textRecord row = true -> exists o', bump o k name row = Normal o'.
Proof.
  intros H. unfold bump. destruct (lookup k o) as [e|].
  - destruct (addFlow_text row (Rollup.exports e) (Rollup.imports e) H) as (ei & ->).
    cbn [bind]. eauto.
  - destruct (addFlow_text row 0%float 0%float H) as (ei & ->). cbn [bind]. eauto.
Qed.

(** Runs the loop of the goal over the list that [HF] speaks of, leaving
    the proof that one step returns. *)
Ltac run_loop P HF :=
  match goal with
  | |- context [Js.foldM ?step ?init ?rows] =>
      let r := fresh "r" in
      let E := fresh "E" in
      destruct (foldM_total P step) with (l := rows) (s := init) as (r & E);
      [ | exact HF | rewrite E; cbn [Js.bind] ]
  | |- context [Js.filterM ?test ?rows] =>
      let r := fresh "r" in
      let E := fresh "E" in
      destruct (filterM_total P test) with (l := rows) as (r & E);
      [ | exact HF | rewrite E; cbn [Js.bind] ]
  end.

Lemma overviewStats_clean (cy td : list TradeRecord) :
  Forall (fun d => textRecord d = true) cy -> Forall (fun d => textRecord d = true) td ->
  exists st, overviewStats cy td = Normal st.
Proof.
  intros Hcy Htd. unfold overviewStats, totals, partnerTotals, history.
  run_loop (fun d => textRecord d = true) Hcy.
  { intros s a Ha. now apply addFlow_text. }
  run_loop (fun d => textRecord d = true) Hcy.
  { intros s a Ha. apply textRecord_inv in Ha as (f & p & c & _ & Hp & _).
    unfold addPartnerTotal. rewrite Hp. cbn [ToString bind]. eauto. }
  run_loop (fun d => textRecord d = true) Htd.
  { intros s a Ha. unfold addHistory.
    match goal with |- context [addFlow a ?e ?i] =>
      destruct (addFlow_text a e i Ha) as (ei' & ->) end.
    cbn [bind]. eauto. }
  eauto.
Qed.

Lemma currentYearData_clean (selectedYear : value) (td : list TradeRecord) :
  primitive selectedYear = true -> Forall (fun d => textRecord d = true) td ->
  exists cy, currentYearData selectedYear td = Normal cy
             /\ Forall (fun d => textRecord d = true) cy.
Proof.
  intros Hyear Ftd. unfold currentYearData. destruct (negb (truthy selectedYear)).
  - exists []. split; [reflexivity | constructor].
  - destruct (ToString_primitive selectedYear Hyear) as (ys & Hys).
    destruct (filterM_total (fun _ => True)
                (fun row => y <- parseInt selectedYear ;;
                            Normal (PrimFloat.eqb (Year row) y))) with (l := td)
      as (cy & Hcy).
    + intros a _. unfold parseInt. rewrite Hys. cbn [bind]. eauto.
    + apply Forall_forall. auto.
    + exists cy. split; [exact Hcy|]. exact (filterM_Forall _ _ _ _ Hcy Ftd).
Qed.

Lemma commodityStats_clean (cy : list TradeRecord) :
  Forall (fun d => textRecord d = true) cy -> exists cs, commodityStats cy = Normal cs.
Proof.
  intros Fcy. unfold commodityStats.
  run_loop (fun d => textRecord d = true) Fcy; [|eauto].
  intros s a Ha. apply textRecord_inv in Ha as (f & p & c & _ & _ & Hc).
  unfold addCommodity, cleanName. rewrite Hc. cbn [bind]. eauto.
Qed.

Lemma geoStats_clean (cy : list TradeRecord) :
  Forall (fun d => textRecord d = true) cy -> exists gs, geoStats cy = Normal gs.
Proof.
  intros Fcy. unfold geoStats.
  run_loop (fun d => textRecord d = true) Fcy; [|eauto].
  intros s a Ha. unfold addGeo.
  destruct (textRecord_inv a Ha) as (f & p & c & _ & Hp & _).
  rewrite Hp. cbn [ToString bind]. rewrite <- Hp.
  destruct (bump_text (fst s) p (Partner a) a Ha) as (o1 & ->). cbn [bind].
  destruct (bump_text (snd s) (regionKey (Region a)) (Region a) a Ha) as (o2 & ->).
  cbn [bind]. eauto.
Qed.

Lemma filteredGridData_clean (cy : list TradeRecord) (searchTerm : string) :
  Forall (fun d => textRecord d = true) cy ->
  exists grid, filteredGridData cy searchTerm = Normal grid.
Proof.
  intros Fcy. unfold filteredGridData.
  run_loop (fun d => textRecord d = true) Fcy; [|eauto].
  intros a Ha. apply textRecord_inv in Ha as (f & p & c & _ & Hp & Hc).
  rewrite Hp, Hc. unfold mentionsTerm.
  destruct (truthy (VStr p)); cbn [bind].
  - destruct (JsString.includes _ _); [eauto|].
    destruct (truthy (VStr c)); eauto.
  - destruct (truthy (VStr c)); eauto.
Qed.

(** On a payload that is not an array, or whose rows are objects with
    text, number, boolean or null fields and texts (or nothing) for flow,
    partner and commodity, and with a selected year that is a text or a
    number, no step of the derivation throws: the normalisation, the
    records of the year, the overview, the commodity and partner rollups
    and the search all return. *)
Theorem dashboard_returns_on_clean_payload
        (raw selectedYear : value) (searchTerm : string) :
  cleanPayload raw = true -> primitive selectedYear = true ->
  exists td cy st cs gs grid,
    tradeData raw = Normal td
    /\ currentYearData selectedYear td = Normal cy
    /\ overviewStats cy td = Normal st
    /\ commodityStats cy = Normal cs
    /\ geoStats cy = Normal gs
    /\ filteredGridData cy searchTerm = Normal grid.
Proof.
  intros Hraw Hyear.
  destruct (tradeData_clean raw Hraw) as (td & Htd & Ftd).
  destruct (currentYearData_clean selectedYear td Hyear Ftd) as (cy & Hcy & Fcy).
  destruct (overviewStats_clean cy td Fcy Ftd) as (st & Hst).
  destruct (commodityStats_clean cy Fcy) as (cs & Hcs).
  destruct (geoStats_clean cy Fcy) as (gs & Hgs).
  destruct (filteredGridData_clean cy searchTerm Fcy) as (grid & Hgrid).
  exists td, cy, st, cs, gs, grid. auto 10.
Qed.

Lemma dashboard_returns_on_clean_payload_witness :
  exists td cy st cs gs grid,
    tradeData Sample.mixedRows = Normal td
    /\ currentYearData (VNum 2020) td = Normal cy
    /\ overviewStats cy td = Normal st
    /\ commodityStats cy = Normal cs
    /\ geoStats cy = Normal gs
    /\ filteredGridData cy "oil" = Normal grid.
Proof.
  apply (dashboard_returns_on_clean_payload Sample.mixedRows (VNum 2020) "oil");
    reflexivity.
Defined.

(** When the Normalizer returns, it has one record for each row at most:
    the rows' records, in the rows' order, without those the two filters
    drop. *)
Theorem tradeData_in_row_order (rows : list value) (recs : list TradeRecord) :
  tradeData (VArr rows) = Normal recs ->
  (List.length recs <= List.length rows)%nat
  /\ exists ds, mapM toRecord rows = Normal ds
                /\ List.length ds = List.length rows
                /\ recs = filter kept ds.
Proof.
  intros H. apply tradeData_filter in H as (ds & Hds & ->).
  pose proof (mapM_length _ _ _ Hds) as Hlen. split.
  - rewrite <- Hlen. apply filter_length_le.
  - exists ds. auto.
Qed.

Lemma tradeData_in_row_order_witness :
  (List.length [Sample.oilRecord] <= 3)%nat
  /\ exists ds, mapM toRecord
                  match Sample.mixedRows with VArr rows => rows | _ => [] end = Normal ds
                /\ List.length ds = 3%nat
                /\ [Sample.oilRecord] = filter kept ds.
Proof.
  apply (tradeData_in_row_order
           match Sample.mixedRows with VArr rows => rows | _ => [] end
           [Sample.oilRecord]).
  vm_compute. reflexivity.
Defined.

End CleanPayload.

(** ** The search of the data grid *)

Section SearchProperties.
Import Js Static Terms.

Lemma startsWith_prefix (s p : string) :
  JsString.startsWith s p = true -> exists r, s = (p ++ r)%string.
Proof.
  revert s. induction p as [|a p IH]; intros s H; [now exists s|].
  destruct s as [|b s]; [discriminate|]. simpl in H.
  apply andb_true_iff in H as [Hab H]. apply Ascii.eqb_eq in Hab. subst b.
  destruct (IH s H) as (r & ->). now exists r.
Qed.

(** [includes] finds a contiguous part, and nothing else. *)
Lemma includes_part (s t : string) :
  JsString.includes s t = true -> exists pre post, s = (pre ++ t ++ post)%string.
Proof.
  induction s as [|c s IH]; cbn [JsString.includes]; intros H.
  - rewrite orb_false_r in H. apply startsWith_prefix in H as (r & ->).
    now exists EmptyString, r.
  - apply orb_true_iff in H as [H | H].
    + apply startsWith_prefix in H as (r & ->). now exists EmptyString, r.
    + destruct (IH H) as (pre & post & ->). now exists (String c pre), post.
Qed.

(** The test the filter makes on one field is the containment the search
    is about. *)
Lemma mentionsTerm_fieldContains (term : string) (field : value) :
  mentionsTerm field (JsString.toLowerCase term) = Normal true
  <-> fieldContains term field.
Proof.
  unfold mentionsTerm, fieldContains. split.
  - destruct (truthy field) eqn:Et; [|discriminate].
    destruct field as [| | | |s| |]; try discriminate.
    intros H. apply Normal_inj in H. apply includes_part in H as (pre & post & H).
    exists s, pre, post. split; [reflexivity|]. split; [|exact H].
    intros ->. discriminate Et.
  - intros (s & pre & post & -> & Hs & Hl). cbn [truthy].
    apply String.eqb_neq in Hs. rewrite Hs. cbn [negb]. rewrite Hl.
    now rewrite includes_app.
Qed.

Lemma filteredGridData_filter (cy grid : list TradeRecord) (term : string) :
  filteredGridData cy term = Normal grid ->
  exists test : TradeRecord -> completion bool,
    (forall row, test row
                 = (p <- mentionsTerm (Partner row) (JsString.toLowerCase term) ;;
                    if p then Normal true
                    else mentionsTerm (Commodity row) (JsString.toLowerCase term)))
    /\ grid = firstn 100 (filter (holds test) cy)
    /\ forall d, In d cy -> exists b, test d = Normal b.
Proof.
  unfold filteredGridData. intros H. apply bind_Normal in H as (rows & Hrows & H).
  apply Normal_inj in H. subst grid. eexists. split; [intros row; reflexivity|].
  split; [now rewrite (filterM_filter _ _ _ Hrows)|].
  intros d Hd. exact (filterM_each _ _ _ d Hrows Hd).
Qed.

(** On a record the filter's callback returns for, the callback keeps the
    record exactly when the record matches the term. *)
Lemma holds_matchesTerm (term : string) (test : TradeRecord -> completion bool)
      (d : TradeRecord) (b : bool) :
  test d = (p <- mentionsTerm (Partner d) (JsString.toLowerCase term) ;;
            if p then Normal true
            else mentionsTerm (Commodity d) (JsString.toLowerCase term)) ->
  test d = Normal b ->
  (holds test d = true <-> matchesTerm term d).
Proof.
  intros Htest Hb. unfold holds, matchesTerm. rewrite Hb. rewrite Htest in Hb.
  apply bind_Normal in Hb as (p & Hp & Hb).
  rewrite <- !mentionsTerm_fieldContains, Hp. destruct p.
  - apply Normal_inj in Hb. subst b. split; auto.
  - rewrite Hb. destruct b; split; auto; try discriminate.
    intros [H | H]; discriminate H.
Qed.

(** The grid shows at most 100 records: the first 100, in their order, of
    the records of the year whose partner or commodity is a non-empty text
    that contains the search term, letter case aside; every record shown is
    such a record of the year. *)
Theorem filteredGridData_first_100_matches
        (cy grid : list TradeRecord) (term : string) :
  filteredGridData cy term = Normal grid ->
  exists keep : TradeRecord -> bool,
    (forall d, In d cy -> (keep d = true <-> matchesTerm term d))
    /\ grid = firstn 100 (filter keep cy)
    /\ (List.length grid <= 100)%nat
    /\ (forall d, In d grid -> In d cy /\ matchesTerm term d).
Proof.
  intros H. apply filteredGridData_filter in H as (test & Htest & -> & Hret).
  assert (Hkeep : forall d, In d cy -> (holds test d = true <-> matchesTerm term d)).
  { intros d Hd. destruct (Hret d Hd) as (b & Hb).
    exact (holds_matchesTerm term test d b (Htest d) Hb). }
  exists (holds test). split; [exact Hkeep|]. split; [reflexivity|]. split.
  - rewrite length_firstn. apply Nat.le_min_l.
  - intros d Hd. apply firstn_In, filter_In in Hd as [Hd Hk].
    split; [exact Hd | now apply Hkeep].
Qed.

Lemma filteredGridData_first_100_matches_witness :
  exists keep : TradeRecord -> bool,
    (forall d, In d Sample.unknownFlowRecords -> (keep d = true <-> matchesTerm "CHIN" d))
    /\ [ {| Year := 2020; Flow := VStr "Unknown"; Partner := VStr "China";
            Region := Label "Asia"; Commodity := VStr "Electronics"; Value := 100;
            Weight := 0 |} ]
       = firstn 100 (filter keep Sample.unknownFlowRecords)
    /\ (1 <= 100)%nat
    /\ (forall d,
          In d [ {| Year := 2020; Flow := VStr "Unknown"; Partner := VStr "China";
                    Region := Label "Asia"; Commodity := VStr "Electronics";
                    Value := 100; Weight := 0 |} ] ->
          In d Sample.unknownFlowRecords /\ matchesTerm "CHIN" d).
Proof.
  apply (filteredGridData_first_100_matches Sample.unknownFlowRecords
           [ {| Year := 2020; Flow := VStr "Unknown"; Partner := VStr "China";
                Region := Label "Asia"; Commodity := VStr "Electronics"; Value := 100;
                Weight := 0 |} ] "CHIN").
  vm_compute. reflexivity.
Defined.

Lemma app_not_empty (pre v post : string) :
  v <> EmptyString -> (pre ++ v ++ post)%string <> EmptyString.
Proof.
  intros Hv. destruct pre; [|discriminate]. destruct v; [now destruct Hv | discriminate].
Qed.

(** The search ignores letter case, in the term and in the record: among
    at most 100 records, a record whose partner or commodity contains some
    spelling of the (non-empty) term is shown. *)
Theorem filteredGridData_ignores_case
        (cy grid : list TradeRecord) (term : string) (d : TradeRecord)
        (pre v post : string) :
  filteredGridData cy term = Normal grid ->
  (List.length cy <= 100)%nat ->
  In d cy ->
  Partner d = VStr (pre ++ v ++ post) \/ Commodity d = VStr (pre ++ v ++ post) ->
  v <> EmptyString ->
  JsString.toLowerCase v = JsString.toLowerCase term ->
  In d grid.
Proof.
  intros H Hlen Hd Hf Hv Hl.
  apply filteredGridData_filter in H as (test & Htest & -> & Hret).
  rewrite firstn_all2
    by (etransitivity; [apply filter_length_le | exact Hlen]).
  apply filter_In. split; [exact Hd|].
  destruct (Hret d Hd) as (b & Hb).
  apply (holds_matchesTerm term test d b (Htest d) Hb).
  assert (Hc : fieldContains term (VStr (pre ++ v ++ post))).
  { exists (pre ++ v ++ post)%string, (JsString.toLowerCase pre), (JsString.toLowerCase post).
    split; [reflexivity|]. split; [now apply app_not_empty|].
    now rewrite !toLowerCase_app, Hl. }
  destruct Hf as [Hp | Hc']; [left; now rewrite Hp | right; now rewrite Hc'].
Qed.

Lemma filteredGridData_ignores_case_witness : In Sample.oilRecord [Sample.oilRecord].
Proof.
  apply (filteredGridData_ignores_case [Sample.oilRecord] [Sample.oilRecord] "OIL"
           Sample.oilRecord "12 - " "Oil" "; crude").
  - vm_compute. reflexivity.
  - simpl. lia.
  - simpl. auto.
  - right. reflexivity.
  - discriminate.
  - reflexivity.
Defined.

Lemma includes_empty (s : string) : JsString.includes s EmptyString = true.
Proof.
  now destruct s.
Qed.

(** With an empty search box, the grid shows the first 100 records of the
    year, whenever their partners are non-empty texts (as the Normalizer
    makes them from text fields). *)
Theorem filteredGridData_empty_term (cy : list TradeRecord) :
  (forall d, In d cy -> exists s, Partner d = VStr s /\ s <> EmptyString) ->
  filteredGridData cy EmptyString = Normal (firstn 100 cy).
Proof.
  intros H. unfold filteredGridData. cbn [JsString.toLowerCase].
  assert (E : filterM (fun row =>
                         p <- mentionsTerm (Partner row) EmptyString ;;
                         if p then Normal true
                         else mentionsTerm (Commodity row) EmptyString) cy = Normal cy).
  { induction cy as [|d cy IH]; [reflexivity|]. cbn [filterM].
    destruct (H d (or_introl eq_refl)) as (s & Hs & Hne). rewrite Hs.
    unfold mentionsTerm at 1. cbn [truthy].
    apply String.eqb_neq in Hne. rewrite Hne. cbn [negb].
    rewrite includes_empty. cbn [bind].
    rewrite IH; [reflexivity|]. intros d' Hd'. apply H. now right. }
  rewrite E. reflexivity.
Qed.

Lemma filteredGridData_empty_term_witness :
  filteredGridData Sample.unknownFlowRecords EmptyString
  = Normal (firstn 100 Sample.unknownFlowRecords).
Proof.
  apply (filteredGridData_empty_term Sample.unknownFlowRecords).
  intros d [<- | [<- | []]]; eexists; (split; [reflexivity | discriminate]).
Defined.

End SearchProperties.

(** ** Objects used as maps: one entry per key *)

Section ObjectFacts.
Import Js Terms.
Context {A : Type}.

Lemma insertIndexed_Permutation (n : Z) (a : A) (l : list (Z * A)) :
  Permutation (insertIndexed n a l) ((n, a) :: l).
Proof.
  induction l as [|[m b] l IH]; simpl; [reflexivity|].
  destruct (n <? m); [reflexivity|].
  etransitivity; [apply perm_skip, IH | apply perm_swap].
Qed.

Lemma values_Permutation_from (o : obj A) (acc : list (Z * A)) :
  Permutation
    (map snd (fold_left (fun acc kv => match arrayIndex (fst kv) with
                                       | Some n => insertIndexed n (snd kv) acc
                                       | None => acc
                                       end) o acc)
     ++ map snd (filter (fun kv => match arrayIndex (fst kv) with
                                   | Some _ => false
                                   | None => true
                                   end) o))
    (map snd acc ++ map snd o).
Proof.
  revert acc. induction o as [|kv o IH]; intros acc; [reflexivity|].
  cbn [fold_left filter map]. destruct (arrayIndex (fst kv)) as [n|].
  - etransitivity; [apply IH|].
    etransitivity;
      [apply Permutation_app_tail, Permutation_map, insertIndexed_Permutation|].
    cbn [map snd]. apply Permutation_middle.
  - cbn [map]. etransitivity; [symmetry; apply Permutation_middle|].
    etransitivity; [apply perm_skip, IH|]. apply Permutation_middle.
Qed.

(** [Object.values] lists every entry once. *)
Lemma values_Permutation (o : obj A) : Permutation (values o) (map snd o).
Proof.
  exact (values_Permutation_from o []).
Qed.

Lemma insert_Permutation (compare : A -> A -> float) (a : A) (l : list A) :
  Permutation (insert compare a l) (a :: l).
Proof.
  induction l as [|b l IH]; simpl; [reflexivity|].
  destruct (PrimFloat.ltb 0 (compare a b)); [|reflexivity].
  etransitivity; [apply perm_skip, IH | apply perm_swap].
Qed.

(** [sort] rearranges, whatever the comparator. *)
Lemma sort_Permutation (compare : A -> A -> float) (l : list A) :
  Permutation (sort compare l) l.
Proof.
  induction l as [|a l IH]; simpl; [reflexivity|].
  etransitivity; [apply insert_Permutation | apply perm_skip, IH].
Qed.

Lemma set_keys_In (o : obj A) (k : string) (v : A) (x : string) :
  In x (map fst (set o k v)) -> x = k \/ In x (map fst o).
Proof.
  intros H. apply in_map_iff in H as ([k' v'] & Hx & H). simpl in Hx. subst k'.
  apply set_In in H as [H | H].
  - left. congruence.
  - right. apply in_map_iff. exists (x, v'). auto.
Qed.

Lemma set_keys_NoDup (o : obj A) (k : string) (v : A) :
  NoDup (map fst o) -> NoDup (map fst (set o k v)).
Proof.
  induction o as [|[k' v'] o IH]; simpl; intros H.
  - constructor; [intros [] | constructor].
  - inversion H as [|? ? Hn Hr]; subst. destruct (String.eqb k k') eqn:E.
    + apply String.eqb_eq in E. subst k'. simpl. now constructor.
    + simpl. constructor; [|now apply IH]. intros Hin.
      apply set_keys_In in Hin as [-> | Hin]; [|contradiction].
      now rewrite String.eqb_refl in E.
Qed.

Lemma keyed_empty (key : A -> completion string) : keyed key [].
Proof.
  split; [constructor | intros k a []].
Qed.

Lemma keyed_set (key : A -> completion string) (o : obj A) (k : string) (v : A) :
  keyed key o -> key v = Normal k -> keyed key (set o k v).
Proof.
  intros [Hn Hk] Hv. split; [now apply set_keys_NoDup|].
  intros k' a H. apply set_In in H as [H | H]; [|now apply Hk].
  injection H as -> ->. exact Hv.
Qed.

Lemma NoDup_map_injective {X Y : Type} (f : X -> Y) (l : list X) :
  (forall x y, f x = f y -> x = y) -> NoDup l -> NoDup (map f l).
Proof.
  intros Hf Hl. induction Hl as [|x l Hx Hl IH]; simpl; constructor; [|exact IH].
  intros H. apply in_map_iff in H as (y & Hy & Hin). apply Hf in Hy. now subst y.
Qed.

Lemma NoDup_map_outer {X Y Z : Type} (f : X -> Y) (g : Y -> Z) (l : list X) :
  NoDup (map (fun x => g (f x)) l) -> NoDup (map f l).
Proof.
  intros H. rewrite <- (map_map f g) in H. exact (NoDup_map_inv g _ H).
Qed.

Lemma NoDup_firstn {X : Type} (n : nat) (l : list X) : NoDup l -> NoDup (firstn n l).
Proof.
  revert l. induction n as [|n IH]; intros l Hl; [constructor|].
  destruct Hl as [|x l Hx Hl]; [constructor|]. simpl. constructor; [|now apply IH].
  intros H. apply Hx. exact (firstn_In _ _ _ H).
Qed.

(** The values of a keyed object have distinct keys. *)
Lemma keyed_values (key : A -> completion string) (o : obj A) :
  keyed key o -> NoDup (map key (values o)).
Proof.
  intros [Hn Hk].
  apply (Permutation_NoDup (l := map key (map snd o)));
    [symmetry; apply Permutation_map, values_Permutation|].
  replace (map key (map snd o)) with (map Normal (map fst o)).
  - apply NoDup_map_injective; [apply Normal_inj | exact Hn].
  - rewrite !map_map. apply map_ext_in. intros [k a] H. simpl. symmetry. now apply Hk.
Qed.

Lemma values_In_iff (o : obj A) (a : A) : In a (values o) <-> In a (map snd o).
Proof.
  split; apply Permutation_in; [|symmetry]; apply values_Permutation.
Qed.

Lemma sort_In_iff (compare : A -> A -> float) (l : list A) (a : A) :
  In a (sort compare l) <-> In a l.
Proof.
  split; apply Permutation_in; [|symmetry]; apply sort_Permutation.
Qed.

(** A loop keeps what each of its steps keeps; [done] is the part of the
    list that has been visited. *)
Lemma foldM_invariant {X S : Type} (I : S -> list X -> Prop)
      (step : S -> X -> completion S) :
  (forall s a s' done, I s done -> step s a = Normal s' -> I s' (done ++ [a])) ->
  forall l s done r, I s done -> foldM step s l = Normal r -> I r (done ++ l).
Proof.
  intros Hstep l. induction l as [|a l IH]; simpl; intros s done r Hs H.
  - apply Normal_inj in H. subst r. now rewrite app_nil_r.
  - apply bind_Normal in H as (s' & Hs' & H).
    replace (done ++ a :: l) with ((done ++ [a]) ++ l)
      by (rewrite <- app_assoc; reflexivity).
    eapply IH; [|exact H]. eapply Hstep; eauto.
Qed.

End ObjectFacts.

(** ** The commodity rollup *)

Section CommodityProperties.
Import Js Static Terms.

Lemma addCommodity_keyed (groups groups' : obj Group.t) (row : TradeRecord) :
  addCommodity groups row = Normal groups' ->
  keyed (fun g => Normal (Group.name g)) groups
  /\ (forall k g, In (k, g) groups -> Group.size g = None) ->
  keyed (fun g => Normal (Group.name g)) groups'
  /\ (forall k g, In (k, g) groups' -> Group.size g = None).
Proof.
  unfold addCommodity. intros H [Hk Hs].
  apply bind_Normal in H as (name & _ & H). apply Normal_inj in H. subst groups'.
  destruct (lookup name groups) as [old|] eqn:El.
  - apply lookup_In in El. split.
    + apply keyed_set; [exact Hk|]. cbn [Group.name]. exact (proj2 Hk _ _ El).
    + intros k g Hin. apply set_In in Hin as [Hin | Hin]; [|now apply (Hs k)].
      injection Hin as -> ->. reflexivity.
  - destruct (inherited name); [now split|]. split.
    + apply keyed_set; [exact Hk | reflexivity].
    + intros k g Hin. apply set_In in Hin as [Hin | Hin]; [|now apply (Hs k)].
      injection Hin as -> ->. reflexivity.
Qed.

Lemma groups_keyed (cy : list TradeRecord) (groups : obj Group.t) :
  foldM addCommodity [] cy = Normal groups ->
  keyed (fun g => Normal (Group.name g)) groups
  /\ (forall k g, In (k, g) groups -> Group.size g = None).
Proof.
  intros H.
  apply (foldM_invariant
           (fun groups (_ : list TradeRecord) =>
              keyed (fun g => Normal (Group.name g)) groups
              /\ (forall k g, In (k, g) groups -> Group.size g = None))
           addCommodity) with (l := cy) (s := []) (done := []); [| |exact H].
  - intros s a s' _ Hs Hstep. exact (addCommodity_keyed s s' a Hstep Hs).
  - split; [apply keyed_empty | intros k g []].
Qed.

(** No commodity appears twice in the rollup: the groups of [all], and
    those of [top10], have distinct names. *)
Theorem commodityStats_one_group_per_name
        (cy : list TradeRecord) (cs : CommodityStats.t) :
  commodityStats cy = Normal cs ->
  NoDup (map Group.name (CommodityStats.top10 cs))
  /\ NoDup (map Group.name (CommodityStats.all cs)).
Proof.
  unfold commodityStats. intros H. apply bind_Normal in H as (groups & Hg & H).
  apply Normal_inj in H. subst cs. cbn [CommodityStats.top10 CommodityStats.all].
  apply groups_keyed in Hg as [Hk _].
  assert (Hs : NoDup (map Group.name
                        (sort (fun a b => (Group.value b - Group.value a)%float)
                              (values groups)))).
  { apply (Permutation_NoDup (l := map Group.name (values groups)));
      [symmetry; apply Permutation_map, sort_Permutation|].
    apply (NoDup_map_outer Group.name Normal). now apply keyed_values. }
  split.
  - rewrite <- firstn_map. now apply NoDup_firstn.
  - rewrite map_map. cbn [Group.name]. rewrite <- firstn_map. now apply NoDup_firstn.
Qed.

Lemma commodityStats_one_group_per_name_witness :
  NoDup (map Group.name (CommodityStats.top10 Sample.oilStats))
  /\ NoDup (map Group.name (CommodityStats.all Sample.oilStats)).
Proof.
  apply (commodityStats_one_group_per_name [Sample.oilRecord] Sample.oilStats).
  vm_compute. reflexivity.
Defined.

Lemma unsized_id (g : Group.t) : Group.size g = None -> unsized g = g.
Proof.
  destruct g as [n v w sz]. simpl. now intros ->.
Qed.

(** [top10] has at most 10 groups and [all] at most 30; [top10] is the
    first ten groups of [all], without the [size] property; and in [all]
    the size of every group is its value. *)
Theorem commodityStats_top10_of_all (cy : list TradeRecord) (cs : CommodityStats.t) :
  commodityStats cy = Normal cs ->
  (List.length (CommodityStats.top10 cs) <= 10)%nat
  /\ (List.length (CommodityStats.all cs) <= 30)%nat
  /\ CommodityStats.top10 cs = map unsized (firstn 10 (CommodityStats.all cs))
  /\ (forall g, In g (CommodityStats.all cs) -> Group.size g = Some (Group.value g)).
Proof.
  unfold commodityStats. intros H. apply bind_Normal in H as (groups & Hg & H).
  apply Normal_inj in H. subst cs. cbn [CommodityStats.top10 CommodityStats.all].
  apply groups_keyed in Hg as [_ Hs].
  set (sorted := sort (fun a b => (Group.value b - Group.value a)%float) (values groups)).
  split; [rewrite length_firstn; apply Nat.le_min_l|].
  split; [rewrite length_map, length_firstn; apply Nat.le_min_l|].
  split.
  - rewrite firstn_map, firstn_firstn, map_map. cbn [Nat.min].
    rewrite <- (map_id (firstn 10 sorted)) at 1.
    apply map_ext_in. intros g Hin. unfold unsized. cbn [Group.name Group.value Group.weight].
    apply firstn_In, sort_In_iff, values_In_iff, in_map_iff in Hin as ([k g'] & Hg' & Hin).
    simpl in Hg'. subst g'. symmetry. exact (unsized_id g (Hs k g Hin)).
  - intros g Hin. apply in_map_iff in Hin as (g0 & <- & _). reflexivity.
Qed.

Lemma commodityStats_top10_of_all_witness :
  (List.length (CommodityStats.top10 Sample.oilStats) <= 10)%nat
  /\ (List.length (CommodityStats.all Sample.oilStats) <= 30)%nat
  /\ CommodityStats.top10 Sample.oilStats
     = map unsized (firstn 10 (CommodityStats.all Sample.oilStats))
  /\ (forall g, In g (CommodityStats.all Sample.oilStats) ->
                Group.size g = Some (Group.value g)).
Proof.
  apply (commodityStats_top10_of_all [Sample.oilRecord] Sample.oilStats).
  vm_compute. reflexivity.
Defined.

Lemma In_lookup {A : Type} (o : obj A) (k : string) (a : A) :
  NoDup (map fst o) -> In (k, a) o -> lookup k o = Some a.
Proof.
  induction o as [|[k' a'] o IH]; simpl; intros Hn H; [destruct H|].
  destruct H as [H | H].
  - injection H as -> ->. now rewrite String.eqb_refl.
  - inversion Hn as [|? ? Hk Hn']; subst. destruct (String.eqb k k') eqn:E.
    + apply String.eqb_eq in E. subst k'. destruct Hk.
      apply in_map_iff. now exists (k, a).
    + now apply IH.
Qed.

Lemma sumValues_snoc (rows : list TradeRecord) (row : TradeRecord) :
  sumValues 0 (rows ++ [row]) = (sumValues 0 rows + Value row)%float.
Proof.
  unfold sumValues. now rewrite map_app, fold_left_app.
Qed.

Lemma sumWeights_snoc (rows : list TradeRecord) (row : TradeRecord) :
  sumWeights (rows ++ [row]) = (sumWeights rows + JsNumber.orElse (Weight row) 0)%float.
Proof.
  unfold sumWeights. now rewrite fold_left_app.
Qed.

Lemma filter_snoc {X : Type} (f : X -> bool) (l : list X) (x : X) :
  filter f (l ++ [x]) = filter f l ++ (if f x then [x] else []).
Proof.
  rewrite filter_app. simpl. now destruct (f x).
Qed.

Lemma addCommodity_sums (groups groups' : obj Group.t) (row : TradeRecord)
      (done : list TradeRecord) :
  addCommodity groups row = Normal groups' ->
  (forall k g, lookup k groups = Some g ->
               Group.value g = sumValues 0 (filter (named k) done)
               /\ Group.weight g = sumWeights (filter (named k) done))
  /\ (forall d k, In d done -> cleanName (Commodity d) = Normal k ->
                  lookup k groups = None -> inherited k = true) ->
  (forall k g, lookup k groups' = Some g ->
               Group.value g = sumValues 0 (filter (named k) (done ++ [row]))
               /\ Group.weight g = sumWeights (filter (named k) (done ++ [row])))
  /\ (forall d k, In d (done ++ [row]) -> cleanName (Commodity d) = Normal k ->
                  lookup k groups' = None -> inherited k = true).
Proof.
  unfold addCommodity. intros H [Hsum Hseen].
  apply bind_Normal in H as (n & Hn & H). apply Normal_inj in H.
  assert (Hrow : forall k, named k row = String.eqb n k)
    by (intros k; unfold named; now rewrite Hn).
  assert (Hold : forall k, k <> n ->
                           filter (named k) (done ++ [row]) = filter (named k) done).
  { intros k Hk. rewrite filter_snoc, Hrow.
    assert (E : String.eqb n k = false) by (apply String.eqb_neq; congruence).
    rewrite E. apply app_nil_r. }
  assert (Hnew : filter (named n) (done ++ [row]) = filter (named n) done ++ [row])
    by (now rewrite filter_snoc, Hrow, String.eqb_refl).
  assert (Hset : forall v,
             groups' = set groups n v ->
             (Group.value v = sumValues 0 (filter (named n) (done ++ [row]))
              /\ Group.weight v = sumWeights (filter (named n) (done ++ [row]))) ->
             (forall k g, lookup k groups' = Some g ->
                          Group.value g = sumValues 0 (filter (named k) (done ++ [row]))
                          /\ Group.weight g = sumWeights (filter (named k) (done ++ [row])))
             /\ (forall d k, In d (done ++ [row]) -> cleanName (Commodity d) = Normal k ->
                             lookup k groups' = None -> inherited k = true)).
  { intros v -> Hv. split.
    - intros k g Hl. destruct (String.eqb k n) eqn:E.
      + apply String.eqb_eq in E. subst k. rewrite lookup_set_eq in Hl.
        injection Hl as <-. exact Hv.
      + apply String.eqb_neq in E. rewrite lookup_set_neq in Hl by exact E.
        rewrite (Hold k E). now apply Hsum.
    - intros d k Hd Hk Hl. destruct (String.eqb k n) eqn:E.
      + apply String.eqb_eq in E. subst k. rewrite lookup_set_eq in Hl. discriminate.
      + apply String.eqb_neq in E. rewrite lookup_set_neq in Hl by exact E.
        apply in_app_or in Hd as [Hd | [<- | []]]; [now apply (Hseen d k)|].
        rewrite Hn in Hk. apply Normal_inj in Hk. now destruct E. }
  destruct (lookup n groups) as [old|] eqn:El.
  - apply (Hset _ (eq_sym H)). cbn [Group.value Group.weight].
    rewrite Hnew, sumValues_snoc, sumWeights_snoc.
    destruct (Hsum n old El) as [-> ->]. split; reflexivity.
  - destruct (inherited n) eqn:Ei.
    + subst groups'. split.
      * intros k g Hl. destruct (String.eqb k n) eqn:E.
        -- apply String.eqb_eq in E. subst k. congruence.
        -- apply String.eqb_neq in E. rewrite (Hold k E). now apply Hsum.
      * intros d k Hd Hk Hl. apply in_app_or in Hd as [Hd | [<- | []]];
          [now apply (Hseen d k)|].
        rewrite Hn in Hk. apply Normal_inj in Hk. now subst k.
    + apply (Hset _ (eq_sym H)). cbn [Group.value Group.weight].
      rewrite Hnew, sumValues_snoc, sumWeights_snoc.
      assert (Hnone : filter (named n) done = []).
      { destruct (filter (named n) done) as [|d l] eqn:Ef; [reflexivity|].
        assert (Hd : In d (filter (named n) done)) by (rewrite Ef; now left).
        apply filter_In in Hd as [Hd Hname]. unfold named in Hname.
        destruct (cleanName (Commodity d)) as [m|] eqn:Em; [|discriminate].
        apply String.eqb_eq in Hname. subst m.
        rewrite (Hseen d n Hd Em El) in Ei. discriminate. }
      rewrite Hnone. split; reflexivity.
Qed.

(** The value of every commodity group is the sum of the values of the
    year's records of that commodity, added in the order of the records
    starting from 0, and its weight is the sum of their weights, a missing
    (or zero, or NaN) weight counting as 0. *)
Theorem commodityStats_group_sums (cy : list TradeRecord) (cs : CommodityStats.t) :
  commodityStats cy = Normal cs ->
  forall g, In g (CommodityStats.top10 cs) \/ In g (CommodityStats.all cs) ->
            Group.value g = sumValues 0 (filter (named (Group.name g)) cy)
            /\ Group.weight g = sumWeights (filter (named (Group.name g)) cy).
Proof.
  unfold commodityStats. intros H. apply bind_Normal in H as (groups & Hg & H).
  apply Normal_inj in H. subst cs. cbn [CommodityStats.top10 CommodityStats.all].
  pose proof (groups_keyed cy groups Hg) as [[Hn Hk] _].
  apply (foldM_invariant
           (fun groups done =>
              (forall k g, lookup k groups = Some g ->
                           Group.value g = sumValues 0 (filter (named k) done)
                           /\ Group.weight g = sumWeights (filter (named k) done))
              /\ (forall d k, In d done -> cleanName (Commodity d) = Normal k ->
                              lookup k groups = None -> inherited k = true))
           addCommodity) with (done := []) in Hg.
  - cbn [app] in Hg. destruct Hg as [Hsum _].
    assert (Hsorted : forall g,
               In g (sort (fun a b => (Group.value b - Group.value a)%float)
                          (values groups)) ->
               Group.value g = sumValues 0 (filter (named (Group.name g)) cy)
               /\ Group.weight g = sumWeights (filter (named (Group.name g)) cy)).
    { intros g Hin.
      apply sort_In_iff, values_In_iff, in_map_iff in Hin as ([k g'] & Hg' & Hin).
      simpl in Hg'. subst g'. pose proof (Hk k g Hin) as Q. apply Normal_inj in Q.
      rewrite Q. apply Hsum. now apply In_lookup. }
    intros g [Hin | Hin].
    + apply Hsorted. exact (firstn_In _ _ _ Hin).
    + apply in_map_iff in Hin as (g0 & <- & Hin). cbn [Group.name Group.value Group.weight].
      apply Hsorted. exact (firstn_In _ _ _ Hin).
  - intros s a s' done Hs Hstep. exact (addCommodity_sums s s' a done Hstep Hs).
  - split; [intros k g Hl; discriminate | intros d k []].
Qed.

Lemma commodityStats_group_sums_witness :
  Group.value {| Group.name := "Oil"; Group.value := 1000000; Group.weight := 0;
                 Group.size := None |}
  = sumValues 0 (filter (named "Oil") [Sample.oilRecord])
  /\ Group.weight {| Group.name := "Oil"; Group.value := 1000000; Group.weight := 0;
                     Group.size := None |}
     = sumWeights (filter (named "Oil") [Sample.oilRecord]).
Proof.
  apply (commodityStats_group_sums [Sample.oilRecord] Sample.oilStats
           ltac:(vm_compute; reflexivity)
           {| Group.name := "Oil"; Group.value := 1000000; Group.weight := 0;
              Group.size := None |}).
  left. left. reflexivity.
Defined.

End CommodityProperties.

(** ** The yearly history and the partner and region rollups *)

Section RollupProperties.
Import Js Static Terms.

Lemma addHistory_invariant (o o' : obj Point.t) (row : TradeRecord)
      (done : list TradeRecord) :
  addHistory o row = Normal o' ->
  keyed (fun p => Normal (JsNumber.toString (Point.year p))) o
  /\ (forall k p, In (k, p) o ->
                  Point.isForecast p = None
                  /\ exists d, In d done /\ Point.year p = Year d)
  /\ (forall d, In d done -> exists p, lookup (JsNumber.toString (Year d)) o = Some p) ->
  keyed (fun p => Normal (JsNumber.toString (Point.year p))) o'
  /\ (forall k p, In (k, p) o' ->
                  Point.isForecast p = None
                  /\ exists d, In d (done ++ [row]) /\ Point.year p = Year d)
  /\ (forall d, In d (done ++ [row]) ->
                exists p, lookup (JsNumber.toString (Year d)) o' = Some p).
Proof.
  unfold addHistory. cbv zeta. intros H (Hk & Hp & Hd).
  apply bind_Normal in H as (ei & _ & H). apply Normal_inj in H. subst o'.
  remember (match lookup (JsNumber.toString (Year row)) o with
            | Some e => e
            | None => {| Point.year := Year row; Point.exports := 0; Point.imports := 0;
                         Point.isForecast := None |}
            end) as e eqn:He.
  assert (Q : JsNumber.toString (Point.year e) = JsNumber.toString (Year row)
              /\ Point.isForecast e = None
              /\ exists d, In d (done ++ [row]) /\ Point.year e = Year d).
  { subst e. destruct (lookup (JsNumber.toString (Year row)) o) as [old|] eqn:El.
    - apply lookup_In in El. split.
      + pose proof (proj2 Hk _ _ El) as Q. now apply Normal_inj in Q.
      + destruct (Hp _ _ El) as (F & d & Hin & Hy). split; [exact F|].
        exists d. split; [apply in_or_app; now left | exact Hy].
    - cbn. split; [reflexivity|]. split; [reflexivity|].
      exists row. split; [apply in_or_app; right; now left | reflexivity]. }
  destruct Q as (Q1 & Q2 & Q3). clear He.
  split; [|split].
  - apply keyed_set; [exact Hk|]. cbn [Point.year]. now rewrite Q1.
  - intros k' p Hin. apply set_In in Hin as [Hin | Hin].
    + injection Hin as -> ->. cbn [Point.isForecast Point.year]. split; assumption.
    + destruct (Hp _ _ Hin) as (F & d & Hd' & Hy). split; [exact F|].
      exists d. split; [apply in_or_app; now left | exact Hy].
  - intros d Hin. apply in_app_or in Hin as [Hin | [<- | []]].
    + destruct (String.eqb (JsNumber.toString (Year d)) (JsNumber.toString (Year row)))
        eqn:E.
      * apply String.eqb_eq in E. rewrite E, lookup_set_eq. eauto.
      * apply String.eqb_neq in E. rewrite lookup_set_neq by exact E. now apply Hd.
    + rewrite lookup_set_eq. eauto.
Qed.

Lemma historyMap_invariant (td : list TradeRecord) (o : obj Point.t) :
  foldM addHistory [] td = Normal o ->
  keyed (fun p => Normal (JsNumber.toString (Point.year p))) o
  /\ (forall k p, In (k, p) o ->
                  Point.isForecast p = None /\ exists d, In d td /\ Point.year p = Year d)
  /\ (forall d, In d td -> exists p, lookup (JsNumber.toString (Year d)) o = Some p).
Proof.
  intros Ho.
  apply (foldM_invariant
           (fun o done =>
              keyed (fun p => Normal (JsNumber.toString (Point.year p))) o
              /\ (forall k p, In (k, p) o ->
                              Point.isForecast p = None
                              /\ exists d, In d done /\ Point.year p = Year d)
              /\ (forall d, In d done ->
                            exists p, lookup (JsNumber.toString (Year d)) o = Some p))
           addHistory) with (l := td) (s := []) (done := []); [| |exact Ho].
  - intros s a s' done Hs Hstep. exact (addHistory_invariant s s' a done Hstep Hs).
  - split; [apply keyed_empty|]. split; [intros k p [] | intros d []].
Qed.

(** The history has one point per year of the data: no year appears
    twice, every point is a historical one (no [isForecast]) for the year
    of some record, and every record's year has its point. *)
Theorem history_one_point_per_year (td : list TradeRecord) (h : list Point.t) :
  history td = Normal h ->
  NoDup (map Point.year h)
  /\ (forall p, In p h ->
                Point.isForecast p = None /\ exists d, In d td /\ Point.year p = Year d)
  /\ (forall d, In d td ->
                exists p, In p h
                          /\ JsNumber.toString (Point.year p) = JsNumber.toString (Year d)).
Proof.
  unfold history. intros H. apply bind_Normal in H as (o & Ho & H).
  apply Normal_inj in H. subst h.
  destruct (historyMap_invariant td o Ho) as (Hk & Hp & Hd). split; [|split].
  - apply (Permutation_NoDup (l := map Point.year (values o)));
      [symmetry; apply Permutation_map, sort_Permutation|].
    apply (NoDup_map_outer Point.year (fun y => Normal (JsNumber.toString y))).
    now apply keyed_values.
  - intros p Hin.
    apply sort_In_iff, values_In_iff, in_map_iff in Hin as ([k p'] & Hp' & Hin).
    simpl in Hp'. subst p'. exact (Hp k p Hin).
  - intros d Hin. destruct (Hd d Hin) as (p & Hl). apply lookup_In in Hl.
    exists p. split.
    + apply sort_In_iff, values_In_iff, in_map_iff.
      now exists (JsNumber.toString (Year d), p).
    + pose proof (proj2 Hk _ _ Hl) as Q. now apply Normal_inj in Q.
Qed.

Lemma history_one_point_per_year_witness :
  NoDup (map Point.year Sample.oilHistory)
  /\ (forall p, In p Sample.oilHistory ->
                Point.isForecast p = None
                /\ exists d, In d [Sample.oilRecord] /\ Point.year p = Year d)
  /\ (forall d, In d [Sample.oilRecord] ->
                exists p, In p Sample.oilHistory
                          /\ JsNumber.toString (Point.year p) = JsNumber.toString (Year d)).
Proof.
  apply (history_one_point_per_year [Sample.oilRecord] Sample.oilHistory).
  vm_compute. reflexivity.
Defined.

Lemma bump_invariant {N : Type} (key : N -> completion string) (R : N -> Prop)
      (o o' : obj (Rollup.t N)) (k : string) (name : N) (row : TradeRecord) :
  bump o k name row = Normal o' -> key name = Normal k -> R name ->
  keyed (fun e => key (Rollup.name e)) o
  /\ (forall k e, In (k, e) o -> R (Rollup.name e)) ->
  keyed (fun e => key (Rollup.name e)) o'
  /\ (forall k e, In (k, e) o' -> R (Rollup.name e)).
Proof.
  unfold bump. intros H Hkey HR [Hk HRo]. destruct (lookup k o) as [old|] eqn:El.
  - apply bind_Normal in H as (ei & _ & H). apply Normal_inj in H. subst o'.
    apply lookup_In in El. split.
    + apply keyed_set; [exact Hk|]. cbn [Rollup.name]. exact (proj2 Hk _ _ El).
    + intros k' e Hin. apply set_In in Hin as [Hin | Hin]; [|now apply (HRo k')].
      injection Hin as -> ->. cbn [Rollup.name]. exact (HRo _ _ El).
  - apply bind_Normal in H as (ei & _ & H). apply Normal_inj in H. subst o'.
    destruct (inherited k); [now split|]. split.
    + apply keyed_set; [exact Hk | exact Hkey].
    + intros k' e Hin. apply set_In in Hin as [Hin | Hin]; [|now apply (HRo k')].
      injection Hin as -> ->. exact HR.
Qed.

Lemma geo_invariant (cy : list TradeRecord)
      (st : obj (Rollup.t value) * obj (Rollup.t region)) :
  foldM addGeo ([], []) cy = Normal st ->
  (keyed (fun e => ToString (Rollup.name e)) (fst st)
   /\ (forall k e, In (k, e) (fst st) -> exists d, In d cy /\ Rollup.name e = Partner d))
  /\ (keyed (fun e => Normal (regionKey (Rollup.name e))) (snd st)
      /\ (forall k e, In (k, e) (snd st) -> exists d, In d cy /\ Rollup.name e = Region d)).
Proof.
  intros Hst.
  apply (foldM_invariant
           (fun st done =>
              (keyed (fun e => ToString (Rollup.name e)) (fst st)
               /\ (forall k e, In (k, e) (fst st) ->
                               exists d, In d done /\ Rollup.name e = Partner d))
              /\ (keyed (fun e => Normal (regionKey (Rollup.name e))) (snd st)
                  /\ (forall k e, In (k, e) (snd st) ->
                                  exists d, In d done /\ Rollup.name e = Region d)))
           addGeo) with (l := cy) (s := ([], [])) (done := []); [| |exact Hst].
  - intros s a s' done [[Hkp Hp] [Hkr Hr]] Hstep. unfold addGeo in Hstep.
    apply bind_Normal in Hstep as (pk & Hpk & Hstep).
    apply bind_Normal in Hstep as (partners & Hpartners & Hstep).
    apply bind_Normal in Hstep as (regions & Hregions & Hstep).
    apply Normal_inj in Hstep. subst s'. cbn [fst snd].
    assert (Hlast : In a (done ++ [a])) by (apply in_or_app; right; now left).
    split.
    + apply (bump_invariant ToString
               (fun n => exists d, In d (done ++ [a]) /\ n = Partner d)
               _ _ _ _ _ Hpartners Hpk); [now exists a|].
      split; [exact Hkp|]. intros k e Hin. destruct (Hp k e Hin) as (d & Hd & Hn).
      exists d. split; [apply in_or_app; now left | exact Hn].
    + apply (bump_invariant (fun r => Normal (regionKey r))
               (fun n => exists d, In d (done ++ [a]) /\ n = Region d)
               _ _ _ _ _ Hregions eq_refl); [now exists a|].
      split; [exact Hkr|]. intros k e Hin. destruct (Hr k e Hin) as (d & Hd & Hn).
      exists d. split; [apply in_or_app; now left | exact Hn].
  - cbn [fst snd]. split; (split; [apply keyed_empty | intros k e []]).
Qed.

(** The partner rollup has at most ten entries; no partner and no region
    appears twice; and every entry is named by the partner, or the region,
    of a record of the year. *)
Theorem geoStats_one_entry_per_name (cy : list TradeRecord) (gs : GeoStats.t) :
  geoStats cy = Normal gs ->
  (List.length (GeoStats.partners gs) <= 10)%nat
  /\ NoDup (map Rollup.name (GeoStats.partners gs))
  /\ NoDup (map Rollup.name (GeoStats.regions gs))
  /\ (forall e, In e (GeoStats.partners gs) ->
                exists d, In d cy /\ Rollup.name e = Partner d)
  /\ (forall e, In e (GeoStats.regions gs) ->
                exists d, In d cy /\ Rollup.name e = Region d).
Proof.
  unfold geoStats. intros H. apply bind_Normal in H as (st & Hst & H).
  apply Normal_inj in H. subst gs. cbn [GeoStats.partners GeoStats.regions].
  destruct (geo_invariant cy st Hst) as [[Hkp Hp] [Hkr Hr]].
  split; [rewrite length_firstn; apply Nat.le_min_l|].
  split; [|split; [|split]].
  - rewrite <- firstn_map. apply NoDup_firstn.
    apply (Permutation_NoDup (l := map Rollup.name (values (fst st))));
      [symmetry; apply Permutation_map, sort_Permutation|].
    apply (NoDup_map_outer Rollup.name ToString). now apply keyed_values.
  - apply (Permutation_NoDup (l := map Rollup.name (values (snd st))));
      [symmetry; apply Permutation_map, sort_Permutation|].
    apply (NoDup_map_outer Rollup.name (fun r => Normal (regionKey r))).
    now apply keyed_values.
  - intros e Hin.
    apply firstn_In, sort_In_iff, values_In_iff, in_map_iff in Hin as ([k e'] & He' & Hin).
    simpl in He'. subst e'. exact (Hp k e Hin).
  - intros e Hin.
    apply sort_In_iff, values_In_iff, in_map_iff in Hin as ([k e'] & He' & Hin).
    simpl in He'. subst e'. exact (Hr k e Hin).
Qed.

Lemma geoStats_one_entry_per_name_witness :
  (List.length (GeoStats.partners Sample.oilGeoStats) <= 10)%nat
  /\ NoDup (map Rollup.name (GeoStats.partners Sample.oilGeoStats))
  /\ NoDup (map Rollup.name (GeoStats.regions Sample.oilGeoStats))
  /\ (forall e, In e (GeoStats.partners Sample.oilGeoStats) ->
                exists d, In d [Sample.oilRecord] /\ Rollup.name e = Partner d)
  /\ (forall e, In e (GeoStats.regions Sample.oilGeoStats) ->
                exists d, In d [Sample.oilRecord] /\ Rollup.name e = Region d).
Proof.
  apply (geoStats_one_entry_per_name [Sample.oilRecord] Sample.oilGeoStats).
  vm_compute. reflexivity.
Defined.

Lemma added_flowSum (word : string) (rows : list TradeRecord) (row : TradeRecord) :
  added word (flowSum word rows) row = flowSum word (rows ++ [row]).
Proof.
  unfold added, flowSum. rewrite filter_snoc.
  destruct (flowHas word row); [now rewrite sumValues_snoc | now rewrite app_nil_r].
Qed.

(** One record keeps the sums of a rollup: the entry of the record's key
    is updated (or created and updated) and the others are left alone. *)
Lemma summed_step {E : Type} (ex im : E -> float) (after : E -> TradeRecord -> E)
      (test : string -> TradeRecord -> bool) (skipped : string -> bool) (fresh : E)
      (o o' : obj E) (k : string) (row : TradeRecord) (done : list TradeRecord) :
  (forall e, ex (after e row) = added "Export" (ex e) row
             /\ im (after e row) = added "Import" (im e) row) ->
  ex fresh = 0%float -> im fresh = 0%float ->
  (forall k', test k' row = String.eqb k k') ->
  (lookup k o' = Some (after match lookup k o with Some old => old | None => fresh end row)
   /\ (lookup k o = None -> skipped k = false))
  \/ (lookup k o = None /\ skipped k = true /\ o' = o) ->
  (forall k', k' <> k -> lookup k' o' = lookup k' o) ->
  summed ex im test skipped o done -> summed ex im test skipped o' (done ++ [row]).
Proof.
  intros Hafter Hex Him Hrow Hupd Hother [Hsum Hseen].
  assert (Hold : forall k', k' <> k ->
                            filter (test k') (done ++ [row]) = filter (test k') done).
  { intros k' Hk'. rewrite filter_snoc, Hrow.
    assert (Q : String.eqb k k' = false) by (apply String.eqb_neq; congruence).
    rewrite Q. apply app_nil_r. }
  assert (Hnew : filter (test k) (done ++ [row]) = filter (test k) done ++ [row])
    by (now rewrite filter_snoc, Hrow, String.eqb_refl).
  split.
  - intros k' e Hl. destruct (String.eqb k' k) eqn:Ek.
    + apply String.eqb_eq in Ek. subst k'.
      destruct Hupd as [[Hupd Hcreated] | (Hnone & _ & ->)]; [|congruence].
      rewrite Hupd in Hl. injection Hl as <-. rewrite Hnew, <- !added_flowSum.
      destruct (Hafter match lookup k o with Some old => old | None => fresh end)
        as [-> ->].
      destruct (lookup k o) as [old|] eqn:El.
      * destruct (Hsum k old El) as [-> ->]. split; reflexivity.
      * assert (Hnone : filter (test k) done = []).
        { destruct (filter (test k) done) as [|d l] eqn:Ef; [reflexivity|].
          assert (Hd : In d (filter (test k) done)) by (rewrite Ef; now left).
          apply filter_In in Hd as [Hd Ht].
          rewrite (Hseen d k Hd Ht El) in Hcreated. now specialize (Hcreated eq_refl). }
        rewrite Hnone, Hex, Him. split; reflexivity.
    + apply String.eqb_neq in Ek. rewrite (Hother k' Ek) in Hl. rewrite (Hold k' Ek).
      now apply Hsum.
  - intros d k' Hd Ht Hl. destruct (String.eqb k' k) eqn:Ek.
    + apply String.eqb_eq in Ek. subst k'.
      destruct Hupd as [[Hupd _] | (_ & Hi & _)]; [congruence | exact Hi].
    + apply String.eqb_neq in Ek. rewrite (Hother k' Ek) in Hl.
      apply in_app_or in Hd as [Hd | [<- | []]]; [now apply (Hseen d k')|].
      rewrite Hrow in Ht. apply String.eqb_eq in Ht. now destruct Ek.
Qed.

Lemma summed_empty {E : Type} (ex im : E -> float) (test : string -> TradeRecord -> bool)
      (skipped : string -> bool) :
  summed ex im test skipped [] [].
Proof.
  split; [intros k e Hl; discriminate | intros d k []].
Qed.

Lemma addHistory_summed (o o' : obj Point.t) (row : TradeRecord)
      (done : list TradeRecord) :
  addHistory o row = Normal o' ->
  summed Point.exports Point.imports yearKey (fun _ => false) o done ->
  summed Point.exports Point.imports yearKey (fun _ => false) o' (done ++ [row]).
Proof.
  intros H. apply addHistory_entry in H as [Hnew Hother].
  apply (summed_step Point.exports Point.imports pointAfter yearKey (fun _ => false)
           (freshPoint (Year row)) o o' (JsNumber.toString (Year row)) row done);
    try reflexivity; [now split | | exact Hother].
  left. split; [exact Hnew | reflexivity].
Qed.

(** Every point of the history holds the totals of its year: its exports
    are the sum of the values of the records of that year whose flow
    contains [Export], added in the order of the records starting from 0,
    and its imports the same for [Import]. *)
Theorem history_point_sums (td : list TradeRecord) (h : list Point.t) :
  history td = Normal h ->
  forall p, In p h ->
            Point.exports p
            = flowSum "Export" (filter (yearKey (JsNumber.toString (Point.year p))) td)
            /\ Point.imports p
               = flowSum "Import" (filter (yearKey (JsNumber.toString (Point.year p))) td).
Proof.
  unfold history. intros H. apply bind_Normal in H as (o & Ho & H).
  apply Normal_inj in H. subst h.
  destruct (historyMap_invariant td o Ho) as ([Hn Hk] & _ & _).
  apply (foldM_invariant (summed Point.exports Point.imports yearKey (fun _ => false))
           addHistory) with (done := []) in Ho.
  - cbn [app] in Ho. destruct Ho as [Hsum _]. intros p Hin.
    apply sort_In_iff, values_In_iff, in_map_iff in Hin as ([k p'] & Hp' & Hin).
    simpl in Hp'. subst p'. pose proof (Hk k p Hin) as Q. apply Normal_inj in Q.
    rewrite Q. apply Hsum. now apply In_lookup.
  - intros s a s' done Hs Hstep. exact (addHistory_summed s s' a done Hstep Hs).
  - apply summed_empty.
Qed.

Lemma history_point_sums_witness :
  Point.exports {| Point.year := 2020; Point.exports := 5; Point.imports := 3;
                   Point.isForecast := None |}
  = flowSum "Export" (filter (yearKey "2020") Sample.bothFlows)
  /\ Point.imports {| Point.year := 2020; Point.exports := 5; Point.imports := 3;
                      Point.isForecast := None |}
     = flowSum "Import" (filter (yearKey "2020") Sample.bothFlows).
Proof.
  apply (history_point_sums Sample.bothFlows Sample.bothFlowsHistory
           ltac:(vm_compute; reflexivity)
           {| Point.year := 2020; Point.exports := 5; Point.imports := 3;
              Point.isForecast := None |}).
  left. reflexivity.
Defined.

Lemma bump_summed {N : Type} (test : string -> TradeRecord -> bool)
      (o o' : obj (Rollup.t N)) (k : string) (name : N) (row : TradeRecord)
      (done : list TradeRecord) :
  bump o k name row = Normal o' ->
  (forall k', test k' row = String.eqb k k') ->
  summed Rollup.exports Rollup.imports test inherited o done ->
  summed Rollup.exports Rollup.imports test inherited o' (done ++ [row]).
Proof.
  intros H Hrow. apply bump_entry in H as [Hupd Hother]. unfold entryUpdated in Hupd.
  apply (summed_step Rollup.exports Rollup.imports rollupAfter test inherited
           (freshRollup name) o o' k row done);
    try reflexivity; [now split | exact Hrow | | exact Hother].
  destruct (lookup k o) as [old|].
  - left. split; [exact Hupd | discriminate].
  - destruct (inherited k) eqn:Ei.
    + right. auto.
    + left. split; [exact Hupd | reflexivity].
Qed.

(** Every entry of the partner rollup holds the totals of its partner,
    and every entry of the region rollup those of its region: the exports
    are the sum of the values of the year's records of that partner (region)
    whose flow contains [Export], added in the order of the records starting
    from 0, and the imports the same for [Import]. *)
Theorem geoStats_entry_sums (cy : list TradeRecord) (gs : GeoStats.t) :
  geoStats cy = Normal gs ->
  (forall e, In e (GeoStats.partners gs) ->
             exists k, ToString (Rollup.name e) = Normal k
                       /\ Rollup.exports e = flowSum "Export" (filter (partnerKey k) cy)
                       /\ Rollup.imports e = flowSum "Import" (filter (partnerKey k) cy))
  /\ (forall e, In e (GeoStats.regions gs) ->
                Rollup.exports e
                = flowSum "Export" (filter (regionIs (regionKey (Rollup.name e))) cy)
                /\ Rollup.imports e
                   = flowSum "Import" (filter (regionIs (regionKey (Rollup.name e))) cy)).
Proof.
  unfold geoStats. intros H. apply bind_Normal in H as (st & Hst & H).
  apply Normal_inj in H. subst gs. cbn [GeoStats.partners GeoStats.regions].
  destruct (geo_invariant cy st Hst) as [[[Hnp Hkp] _] [[Hnr Hkr] _]].
  apply (foldM_invariant
           (fun st done =>
              summed Rollup.exports Rollup.imports partnerKey inherited (fst st) done
              /\ summed Rollup.exports Rollup.imports regionIs inherited (snd st) done)
           addGeo) with (done := []) in Hst.
  - cbn [app] in Hst. destruct Hst as [[Hp _] [Hr _]]. split.
    + intros e Hin.
      apply firstn_In, sort_In_iff, values_In_iff, in_map_iff in Hin as ([k e'] & He' & Hin).
      simpl in He'. subst e'. exists k. split; [exact (Hkp k e Hin)|].
      apply Hp. now apply In_lookup.
    + intros e Hin.
      apply sort_In_iff, values_In_iff, in_map_iff in Hin as ([k e'] & He' & Hin).
      simpl in He'. subst e'. pose proof (Hkr k e Hin) as Q. apply Normal_inj in Q.
      rewrite Q. apply Hr. now apply In_lookup.
  - intros s a s' done [Hp Hr] Hstep. unfold addGeo in Hstep.
    apply bind_Normal in Hstep as (pk & Hpk & Hstep).
    apply bind_Normal in Hstep as (partners & Hpartners & Hstep).
    apply bind_Normal in Hstep as (regions & Hregions & Hstep).
    apply Normal_inj in Hstep. subst s'. cbn [fst snd]. split.
    + apply (bump_summed partnerKey _ _ _ _ _ _ Hpartners); [|exact Hp].
      intros k'. unfold partnerKey. now rewrite Hpk.
    + apply (bump_summed regionIs _ _ _ _ _ _ Hregions); [|exact Hr].
      intros k'. reflexivity.
  - cbn [fst snd]. split; apply summed_empty.
Qed.

Lemma geoStats_entry_sums_witness :
  (forall e, In e (GeoStats.partners Sample.bothFlowsGeoStats) ->
             exists k, ToString (Rollup.name e) = Normal k
                       /\ Rollup.exports e
                          = flowSum "Export" (filter (partnerKey k) Sample.bothFlows)
                       /\ Rollup.imports e
                          = flowSum "Import" (filter (partnerKey k) Sample.bothFlows))
  /\ (forall e, In e (GeoStats.regions Sample.bothFlowsGeoStats) ->
                Rollup.exports e
                = flowSum "Export"
                    (filter (regionIs (regionKey (Rollup.name e))) Sample.bothFlows)
                /\ Rollup.imports e
                   = flowSum "Import"
                       (filter (regionIs (regionKey (Rollup.name e))) Sample.bothFlows)).
Proof.
  apply (geoStats_entry_sums Sample.bothFlows Sample.bothFlowsGeoStats).
  vm_compute. reflexivity.
Defined.

End RollupProperties.

(** ** The merged indicator records *)

Section IndicatorProperties.
Import Js Terms.

Lemma static_mergeIndicator_shape (years years' : obj Indicator.t) (row : value) :
  Static.mergeIndicator years row = Normal years' ->
  years' = years
  \/ exists y e,
       JsNumber.toBoolean y = true
       /\ years' = set years (JsNumber.toString y) e
       /\ Indicator.Year e = Indicator.Year (Static.entryFor years y).
Proof.
  unfold Static.mergeIndicator. intros H.
  apply bind_Normal in H as (yv & _ & H). apply bind_Normal in H as (y & _ & H).
  destruct (JsNumber.toBoolean y) eqn:Ey; cbn [negb] in H.
  - cbv zeta in H.
    apply bind_Normal in H as (code & _ & H). apply bind_Normal in H as (iv & _ & H).
    apply bind_Normal in H as (val & _ & H). apply Normal_inj in H.
    right. exists y. eexists. split; [exact Ey|]. split; [symmetry; exact H|].
    destruct (Static.isGdpCode code), (Static.isCpiCode code); reflexivity.
  - apply Normal_inj in H. now left.
Qed.

Lemma fetched_mergeIndicator_shape (years years' : obj Indicator.t) (row : value) :
  Fetched.mergeIndicator years row = Normal years' ->
  years' = years
  \/ exists y e,
       JsNumber.toBoolean y = true
       /\ years' = set years (JsNumber.toString y) e
       /\ Indicator.Year e = Indicator.Year (Fetched.entryFor years y).
Proof.
  unfold Fetched.mergeIndicator. intros H.
  apply bind_Normal in H as (yv1 & _ & H). apply bind_Normal in H as (yv2 & _ & H).
  apply bind_Normal in H as (y & _ & H).
  destruct (JsNumber.toBoolean y) eqn:Ey; cbn [negb] in H.
  - cbv zeta in H.
    apply bind_Normal in H as (c1 & _ & H). apply bind_Normal in H as (c2 & _ & H).
    apply bind_Normal in H as (v1 & _ & H). apply bind_Normal in H as (v2 & _ & H).
    apply bind_Normal in H as (val & _ & H). apply bind_Normal in H as (isGdp & _ & H).
    apply bind_Normal in H as (isCpi & _ & H). apply Normal_inj in H.
    right. exists y. eexists. split; [exact Ey|]. split; [symmetry; exact H|].
    destruct isGdp, isCpi; reflexivity.
  - apply Normal_inj in H. now left.
Qed.

Lemma indicator_step (entry : float -> Indicator.t) (years years' : obj Indicator.t) :
  (forall y, entry y = match lookup (JsNumber.toString y) years with
                       | Some e => e
                       | None => {| Indicator.Year := y; Indicator.GDP := 0;
                                    Indicator.Inflation := 0 |}
                       end) ->
  (years' = years
   \/ exists y e,
        JsNumber.toBoolean y = true
        /\ years' = set years (JsNumber.toString y) e
        /\ Indicator.Year e = Indicator.Year (entry y)) ->
  keyed (fun r => Normal (JsNumber.toString (Indicator.Year r))) years
  /\ (forall k r, In (k, r) years -> JsNumber.toBoolean (Indicator.Year r) = true) ->
  keyed (fun r => Normal (JsNumber.toString (Indicator.Year r))) years'
  /\ (forall k r, In (k, r) years' -> JsNumber.toBoolean (Indicator.Year r) = true).
Proof.
  intros Hentry [-> | (y & e & Hy & -> & He)] [Hk Ht]; [now split|].
  rewrite Hentry in He.
  assert (Q : JsNumber.toString (Indicator.Year e) = JsNumber.toString y
              /\ JsNumber.toBoolean (Indicator.Year e) = true).
  { rewrite He. destruct (lookup (JsNumber.toString y) years) as [old|] eqn:El.
    - apply lookup_In in El. split; [|exact (Ht _ _ El)].
      pose proof (proj2 Hk _ _ El) as Q. now apply Normal_inj in Q.
    - split; [reflexivity | exact Hy]. }
  destruct Q as [Q1 Q2]. split.
  - apply keyed_set; [exact Hk|]. now rewrite Q1.
  - intros k r Hin. apply set_In in Hin as [Hin | Hin]; [|now apply (Ht k)].
    injection Hin as -> ->. exact Q2.
Qed.

Lemma indicators_sorted_values (years : obj Indicator.t) :
  keyed (fun r => Normal (JsNumber.toString (Indicator.Year r))) years
  /\ (forall k r, In (k, r) years -> JsNumber.toBoolean (Indicator.Year r) = true) ->
  NoDup (map Indicator.Year
           (sort (fun a b => (Indicator.Year a - Indicator.Year b)%float) (values years)))
  /\ (forall r,
        In r (sort (fun a b => (Indicator.Year a - Indicator.Year b)%float) (values years)) ->
        JsNumber.toBoolean (Indicator.Year r) = true).
Proof.
  intros [Hk Ht]. split.
  - apply (Permutation_NoDup (l := map Indicator.Year (values years)));
      [symmetry; apply Permutation_map, sort_Permutation|].
    apply (NoDup_map_outer Indicator.Year (fun y => Normal (JsNumber.toString y))).
    now apply keyed_values.
  - intros r Hin.
    apply sort_In_iff, values_In_iff, in_map_iff in Hin as ([k r'] & Hr' & Hin).
    simpl in Hr'. subst r'. exact (Ht k r Hin).
Qed.

Lemma static_years_keyed (rows : list value) (years : obj Indicator.t) :
  foldM Static.mergeIndicator [] rows = Normal years ->
  keyed (fun r => Normal (JsNumber.toString (Indicator.Year r))) years
  /\ (forall k r, In (k, r) years -> JsNumber.toBoolean (Indicator.Year r) = true).
Proof.
  intros H.
  apply (foldM_invariant
           (fun years (_ : list value) =>
              keyed (fun r => Normal (JsNumber.toString (Indicator.Year r))) years
              /\ (forall k r, In (k, r) years ->
                              JsNumber.toBoolean (Indicator.Year r) = true))
           Static.mergeIndicator) with (l := rows) (s := []) (done := []); [| |exact H].
  - intros s a s' _ Hinv Hstep.
    apply (indicator_step (Static.entryFor s) s s'); [reflexivity | |exact Hinv].
    exact (static_mergeIndicator_shape s s' a Hstep).
  - split; [apply keyed_empty | intros k r []].
Qed.

Lemma fetched_years_keyed (rows : list value) (years : obj Indicator.t) :
  foldM Fetched.mergeIndicator [] rows = Normal years ->
  keyed (fun r => Normal (JsNumber.toString (Indicator.Year r))) years
  /\ (forall k r, In (k, r) years -> JsNumber.toBoolean (Indicator.Year r) = true).
Proof.
  intros H.
  apply (foldM_invariant
           (fun years (_ : list value) =>
              keyed (fun r => Normal (JsNumber.toString (Indicator.Year r))) years
              /\ (forall k r, In (k, r) years ->
                              JsNumber.toBoolean (Indicator.Year r) = true))
           Fetched.mergeIndicator) with (l := rows) (s := []) (done := []); [| |exact H].
  - intros s a s' _ Hinv Hstep.
    apply (indicator_step (Fetched.entryFor s) s s'); [reflexivity | |exact Hinv].
    exact (fetched_mergeIndicator_shape s s' a Hstep).
  - split; [apply keyed_empty | intros k r []].
Qed.

(** In both builds the merged indicator records have one record per
    year: no year appears twice, and no record has a year that is 0 or NaN
    (rows without a usable year are skipped). *)
Theorem indicators_one_record_per_year (raw : value) (recs : list Indicator.t) :
  Static.wbData raw = Normal recs \/ Fetched.formattedWB raw = Normal recs ->
  NoDup (map Indicator.Year recs)
  /\ (forall r, In r recs -> JsNumber.toBoolean (Indicator.Year r) = true).
Proof.
  assert (Hnil : NoDup (map Indicator.Year [])
                 /\ (forall r : Indicator.t, In r [] ->
                                             JsNumber.toBoolean (Indicator.Year r) = true))
    by (split; [constructor | intros r []]).
  intros [H | H].
  - unfold Static.wbData in H.
    destruct raw as [| | | | |rows|]; try (apply Normal_inj in H; subst recs; exact Hnil).
    apply bind_Normal in H as (years & Hy & H). apply Normal_inj in H. subst recs.
    exact (indicators_sorted_values years (static_years_keyed rows years Hy)).
  - unfold Fetched.formattedWB in H.
    destruct raw as [| | | |t|rows|ps]; try discriminate;
      try (apply Normal_inj in H; subst recs; exact Hnil).
    + destruct (String.eqb t EmptyString); [|discriminate].
      apply Normal_inj in H. subst recs. exact Hnil.
    + destruct rows as [|row rows]; [apply Normal_inj in H; subst recs; exact Hnil|].
      apply bind_Normal in H as (years & Hy & H). apply Normal_inj in H. subst recs.
      exact (indicators_sorted_values years (fetched_years_keyed (row :: rows) years Hy)).
    + destruct (lookup "length" ps) as [l|];
        [destruct (truthy l); [discriminate|]|];
        apply Normal_inj in H; subst recs; exact Hnil.
Qed.

Lemma indicators_one_record_per_year_witness :
  NoDup (map Indicator.Year [Sample.merged2021])
  /\ (forall r, In r [Sample.merged2021] ->
                JsNumber.toBoolean (Indicator.Year r) = true).
Proof.
  apply (indicators_one_record_per_year (VArr [Sample.gdpRow; Sample.cpiRow])
           [Sample.merged2021]).
  left. vm_compute. reflexivity.
Defined.

Lemma foldM_app {X S : Type} (step : S -> X -> completion S) (s : S) (l1 l2 : list X) :
  foldM step s (l1 ++ l2) = (s' <- foldM step s l1 ;; foldM step s' l2).
Proof.
  revert s. induction l1 as [|a l1 IH]; intros s; simpl; [reflexivity|].
  destruct (step s a) as [s'|]; simpl; [apply IH | reflexivity].
Qed.

(** The last row of a year wins: when the final row of the payload has a
    usable year, the merged record of that year carries the row's value in
    the field its indicator code selects, whatever the rows before it wrote
    there. *)
Theorem wbData_last_row_wins
        (rows : list value) (row yv code iv : value) (y val : float)
        (recs : list Indicator.t) :
  Static.wbData (VArr (rows ++ [row])) = Normal recs ->
  Static.either row "Year" "year_of_trade" = Normal yv ->
  parseInt yv = Normal y ->
  JsNumber.toBoolean y = true ->
  Static.either row "Indicator_Code" "indicator_code" = Normal code ->
  get row "Indicator_Value" = Normal iv ->
  Static.safeParseFloat iv = Normal val ->
  exists r,
    In r recs
    /\ JsNumber.toString (Indicator.Year r) = JsNumber.toString y
    /\ (Static.isGdpCode code = true -> Indicator.GDP r = val)
    /\ (Static.isCpiCode code = true -> Indicator.Inflation r = val).
Proof.
  unfold Static.wbData. intros H Hyv Hy Ht Hcode Hiv Hval.
  apply bind_Normal in H as (years & Hf & H). apply Normal_inj in H. subst recs.
  rewrite foldM_app in Hf. apply bind_Normal in Hf as (years0 & H0 & Hstep).
  cbn [foldM] in Hstep. apply bind_Normal in Hstep as (years1 & Hstep & E).
  apply Normal_inj in E. subst years1.
  apply static_mergeIndicator_step in Hstep as (yv' & y' & Eyv & Ey & Hstep).
  rewrite Hyv in Eyv. apply Normal_inj in Eyv. subst yv'.
  rewrite Hy in Ey. apply Normal_inj in Ey. subst y'. rewrite Ht in Hstep.
  destruct Hstep as (code' & iv' & val' & Ecode & Eiv & Eval & Hl & _).
  rewrite Hcode in Ecode. apply Normal_inj in Ecode. subst code'.
  rewrite Hiv in Eiv. apply Normal_inj in Eiv. subst iv'.
  rewrite Hval in Eval. apply Normal_inj in Eval. subst val'.
  apply lookup_In in Hl. eexists. split; [|split; [|split]].
  - apply sort_In_iff, values_In_iff, in_map_iff. eexists. split; [|exact Hl]. reflexivity.
  - cbn [written Indicator.Year]. unfold Static.entryFor.
    destruct (lookup (JsNumber.toString y) years0) as [old|] eqn:El; [|reflexivity].
    apply lookup_In in El.
    pose proof (proj2 (proj1 (static_years_keyed rows years0 H0)) _ _ El) as Q.
    now apply Normal_inj in Q.
  - intros ->. reflexivity.
  - intros ->. reflexivity.
Qed.

Lemma wbData_last_row_wins_witness :
  exists r,
    In r [Sample.merged2021]
    /\ JsNumber.toString (Indicator.Year r) = JsNumber.toString 2021
    /\ (Static.isGdpCode (VStr "FP.CPI.TOTL.ZG") = true
        -> Indicator.GDP r = Indicator.Inflation Sample.merged2021)
    /\ (Static.isCpiCode (VStr "FP.CPI.TOTL.ZG") = true
        -> Indicator.Inflation r = Indicator.Inflation Sample.merged2021).
Proof.
  apply (wbData_last_row_wins [Sample.gdpRow] Sample.cpiRow (VNum 2021)
           (VStr "FP.CPI.TOTL.ZG") (VStr "6.2") 2021
           (Indicator.Inflation Sample.merged2021) [Sample.merged2021]);
    vm_compute; reflexivity.
Defined.

End IndicatorProperties.

(** ** The years offered for selection *)

Section PositiveNumbers.
Local Open Scope float_scope.

Lemma SFeqb_positive_eq (a b : spec_float) :
  SFltb (S754_zero false) a = true -> SFeqb a b = true -> a = b.
Proof.
  unfold SFltb, SFeqb.
  destruct a as [s| [|] | | [|] m e]; cbn; try discriminate; intros _;
    destruct b as [s'|[|]| |[|] m' e']; cbn; try discriminate; try reflexivity.
  destruct (Z.compare_spec e e'); try discriminate. subst e'.
  fold (Pos.compare m m').
  destruct (Pos.compare_spec m m'); try discriminate. now subst m'.
Qed.

(** On positive numbers [==] is equality. *)
Lemma positive_eqb_eq (x y : float) : (0 <? x) = true -> (x =? y) = true -> x = y.
Proof.
  rewrite ltb_spec, eqb_spec. intros Hx He.
  apply Prim2SF_inj. apply SFeqb_positive_eq; [exact Hx | exact He].
Qed.

Lemma positive_eqb_refl (x : float) : (0 <? x) = true -> (x =? x) = true.
Proof.
  rewrite ltb_spec, eqb_spec. unfold SFltb, SFeqb.
  change (Prim2SF 0) with (S754_zero false).
  destruct (Prim2SF x) as [s| [|] | | [|] m e]; cbn; try discriminate; intros _;
    try reflexivity.
  rewrite Z.compare_refl. fold (Pos.compare m m). now rewrite Pos.compare_refl.
Qed.

Lemma positive_not_zero (x : float) : (0 <? x) = true -> (x =? 0) = false.
Proof.
  rewrite ltb_spec, eqb_spec. unfold SFltb, SFeqb.
  change (Prim2SF 0) with (S754_zero false).
  destruct (Prim2SF x) as [s| [|] | | [|] m e]; cbn; try discriminate; reflexivity.
Qed.

Lemma positive_truthy (x : float) : (0 <? x) = true -> JsNumber.toBoolean x = true.
Proof.
  intros H. unfold JsNumber.toBoolean, is_nan.
  now rewrite (positive_not_zero x H), (positive_eqb_refl x H).
Qed.

End PositiveNumbers.

Section YearProperties.
Import Js Static Terms.
Local Open Scope float_scope.

Lemma sameValueZero_positive (x : float) (s : list float) :
  (0 <? x) = true -> (existsb (sameValueZero x) s = true <-> In x s).
Proof.
  intros Hx. rewrite existsb_exists. split.
  - intros (y & Hy & He). unfold sameValueZero, is_nan in He.
    rewrite (positive_eqb_refl x Hx), orb_false_r in He.
    now rewrite (positive_eqb_eq x y Hx He).
  - intros H. exists x. split; [exact H|]. unfold sameValueZero.
    now rewrite (positive_eqb_refl x Hx).
Qed.

Lemma setAdd_positive (s : list float) (x : float) :
  (0 <? x) = true -> NoDup s ->
  NoDup (setAdd s x) /\ forall y, In y (setAdd s x) <-> In y s \/ y = x.
Proof.
  intros Hx Hs. unfold setAdd. rewrite (positive_not_zero x Hx).
  destruct (existsb (sameValueZero x) s) eqn:E.
  - apply (sameValueZero_positive x s Hx) in E. split; [exact Hs|].
    intros y. split; [now left | intros [H | ->]; assumption].
  - split.
    + apply NoDup_app; [exact Hs | constructor; [intros [] | constructor] |].
      intros y Hy [<- | []]. apply (sameValueZero_positive x s Hx) in Hy. congruence.
    + intros y. rewrite in_app_iff. simpl. intuition.
Qed.

Lemma setOf_positive (l s : list float) :
  (forall x, In x l -> (0 <? x) = true) -> NoDup s ->
  NoDup (fold_left setAdd l s)
  /\ forall y, In y (fold_left setAdd l s) <-> In y s \/ In y l.
Proof.
  revert s. induction l as [|x l IH]; simpl; intros s Hl Hs.
  - split; [exact Hs | intros y; tauto].
  - destruct (setAdd_positive s x (Hl x (or_introl eq_refl)) Hs) as [Hn Hi].
    destruct (IH (setAdd s x) (fun y Hy => Hl y (or_intror Hy)) Hn) as [Hn' Hi'].
    split; [exact Hn'|]. intros y. rewrite Hi', Hi. intuition.
Qed.

Lemma tradeData_years_positive (raw : value) (td : list TradeRecord) :
  tradeData raw = Normal td -> forall d, In d td -> (0 <? Year d) = true.
Proof.
  intros H d Hd. destruct raw as [| | | | |rows|];
    try (apply Normal_inj in H; subst td; now destruct Hd).
  apply tradeData_filter in H as (ds & _ & ->).
  apply filter_In in Hd as [_ Hk]. unfold kept in Hk.
  now apply andb_true_iff in Hk as [Hk _].
Qed.

Lemma availableYears_of_positive (td : list TradeRecord) :
  (forall d, In d td -> (0 <? Year d) = true) ->
  NoDup (availableYears td)
  /\ forall y, In y (availableYears td) <-> exists d, In d td /\ Year d = y.
Proof.
  intros Hpos. unfold availableYears, setOf.
  destruct (setOf_positive (map Year td) []) as [Hn Hi]; [|constructor|].
  { intros x Hx. apply in_map_iff in Hx as (d & <- & Hd). now apply Hpos. }
  split.
  - apply (Permutation_NoDup (l := fold_left setAdd (map Year td) []));
      [symmetry; apply sort_Permutation | exact Hn].
  - intros y. rewrite sort_In_iff, Hi, in_map_iff. split.
    + intros [[] | (d & Hy & Hd)]. now exists d.
    + intros (d & Hd & Hy). right. now exists d.
Qed.

(** The year selector offers each year of the normalised data exactly
    once: no year appears twice, and a year is offered exactly when some
    record has it. *)
Theorem availableYears_each_year_once (raw : value) (td : list TradeRecord) :
  tradeData raw = Normal td ->
  NoDup (availableYears td)
  /\ forall y, In y (availableYears td) <-> exists d, In d td /\ Year d = y.
Proof.
  intros H. apply availableYears_of_positive. exact (tradeData_years_positive raw td H).
Qed.

Lemma availableYears_each_year_once_witness :
  NoDup (availableYears [Sample.oilRecord])
  /\ forall y, In y (availableYears [Sample.oilRecord])
               <-> exists d, In d [Sample.oilRecord] /\ Year d = y.
Proof.
  apply (availableYears_each_year_once Sample.mixedRows [Sample.oilRecord]).
  vm_compute. reflexivity.
Defined.

(** When no year is selected yet, the effect selects a year of the data
    as soon as there is data; the selection is then truthy, so that the
    effect leaves it alone from then on; without data nothing is selected. *)
Theorem default_year_is_a_year_of_the_data
        (raw selectedYear : value) (td : list TradeRecord) :
  tradeData raw = Normal td -> truthy selectedYear = false ->
  match td with
  | [] => selectDefaultYear (availableYears td) selectedYear = selectedYear
  | _ :: _ =>
      exists d, In d td
                /\ selectDefaultYear (availableYears td) selectedYear = VNum (Year d)
                /\ truthy (VNum (Year d)) = true
                /\ selectDefaultYear (availableYears td) (VNum (Year d)) = VNum (Year d)
  end.
Proof.
  intros H Hsel. pose proof (tradeData_years_positive raw td H) as Hpos.
  destruct (availableYears_of_positive td Hpos) as [_ Hi].
  destruct td as [|d0 td']; [reflexivity|].
  destruct (availableYears (d0 :: td')) as [|y ys] eqn:E.
  - destruct (proj2 (Hi (Year d0)) (ex_intro _ d0 (conj (or_introl eq_refl) eq_refl))).
  - destruct (proj1 (Hi y) (or_introl eq_refl)) as (d & Hd & Hy). subst y.
    exists d. split; [exact Hd|]. unfold selectDefaultYear. rewrite Hsel.
    cbn [truthy]. rewrite (positive_truthy (Year d) (Hpos d Hd)). auto.
Qed.

Lemma default_year_is_a_year_of_the_data_witness :
  exists d, In d [Sample.oilRecord]
            /\ selectDefaultYear (availableYears [Sample.oilRecord]) (VStr EmptyString)
               = VNum (Year d)
            /\ truthy (VNum (Year d)) = true
            /\ selectDefaultYear (availableYears [Sample.oilRecord]) (VNum (Year d))
               = VNum (Year d).
Proof.
  apply (default_year_is_a_year_of_the_data Sample.mixedRows (VStr EmptyString)
           [Sample.oilRecord]).
  - vm_compute. reflexivity.
  - reflexivity.
Defined.

End YearProperties.

(** ** The regression and the projected points *)

Section ForecastProperties.
Import Js Terms.
Local Open Scope float_scope.

Lemma accumulate_own_metric (key : metric) (d1 d2 : list Point.t) (s : Forecast.sums) :
  map Point.year d1 = map Point.year d2 ->
  map (metricOf key) d1 = map (metricOf key) d2 ->
  fold_left (Forecast.accumulate key) d1 s = fold_left (Forecast.accumulate key) d2 s.
Proof.
  revert d2 s. induction d1 as [|p d1 IH]; intros [|q d2] s Hy Hm; try discriminate;
    [reflexivity|].
  simpl in Hy, Hm. injection Hy as Hy Hys. injection Hm as Hm Hms. simpl.
  unfold Forecast.accumulate at 2 4. rewrite Hy, Hm. now apply IH.
Qed.

Lemma regression_own_metric (key : metric) (d1 d2 : list Point.t) :
  map Point.year d1 = map Point.year d2 ->
  map (metricOf key) d1 = map (metricOf key) d2 ->
  Forecast.calculateLinearRegression d1 key = Forecast.calculateLinearRegression d2 key.
Proof.
  intros Hy Hm. unfold Forecast.calculateLinearRegression.
  assert (Hlen : List.length d1 = List.length d2)
    by (rewrite <- (length_map Point.year d1), Hy; apply length_map).
  rewrite Hlen, (accumulate_own_metric key d1 d2 _ Hy Hm).
  destruct (List.length d2 <? 2)%nat; [|reflexivity].
  destruct d1 as [|p d1], d2 as [|q d2]; try discriminate; [reflexivity|].
  simpl in Hm. now injection Hm as -> _.
Qed.

Lemma last_year (r1 r2 : list Point.t) (p1 p2 : Point.t) :
  Point.year p1 = Point.year p2 -> map Point.year r1 = map Point.year r2 ->
  Point.year (List.last r1 p1) = Point.year (List.last r2 p2).
Proof.
  revert r2 p1 p2. induction r1 as [|a r1 IH]; intros [|b r2] p1 p2 Hp Hr;
    try discriminate; [exact Hp|].
  simpl in Hr. injection Hr as Hab Hr. rewrite !last_cons. now apply IH.
Qed.

(** The fit of one metric uses the years and that metric only: two
    histories with the same years and the same exports have the same fit
    for exports and the same exports in every point of the forecast,
    whatever their imports; and likewise for imports. *)
Theorem forecast_of_a_metric_ignores_the_other
        (key : metric) (h1 h2 : list Point.t) :
  map Point.year h1 = map Point.year h2 ->
  map (metricOf key) h1 = map (metricOf key) h2 ->
  Forecast.calculateLinearRegression h1 key = Forecast.calculateLinearRegression h2 key
  /\ map (metricOf key) (Static.forecastData h1)
     = map (metricOf key) (Static.forecastData h2)
  /\ map Point.year (Static.forecastData h1) = map Point.year (Static.forecastData h2).
Proof.
  intros Hy Hm. pose proof (regression_own_metric key h1 h2 Hy Hm) as Hreg.
  split; [exact Hreg|].
  destruct h1 as [|p1 r1], h2 as [|p2 r2]; try discriminate; [split; reflexivity|].
  unfold Static.forecastData, Forecast.project. cbv zeta.
  rewrite !map_app, Hy, Hm.
  assert (Hl : Point.year (List.last r1 p1) = Point.year (List.last r2 p2)).
  { simpl in Hy. injection Hy as Hp Hr. now apply last_year. }
  rewrite Hl. split; [|reflexivity]. f_equal.
  destruct key; cbn [map metricOf Point.exports Point.imports]; now rewrite Hreg.
Qed.

Lemma forecast_of_a_metric_ignores_the_other_witness :
  Forecast.calculateLinearRegression Sample.twoYears Exports
  = Forecast.calculateLinearRegression
      (map (fun p => {| Point.year := Point.year p; Point.exports := Point.exports p;
                        Point.imports := 0; Point.isForecast := None |})
           Sample.twoYears) Exports.
Proof.
  apply (forecast_of_a_metric_ignores_the_other Exports Sample.twoYears
           (map (fun p => {| Point.year := Point.year p; Point.exports := Point.exports p;
                             Point.imports := 0; Point.isForecast := None |})
                Sample.twoYears)); reflexivity.
Defined.

Lemma zero_slope_line (year m : float) :
  finite year = true -> m <> neg_zero -> 0 * year + m = m.
Proof.
  unfold finite. intros Hy Hm.
  assert (Hm' : Prim2SF m <> S754_zero true).
  { intros E. apply Hm. apply Prim2SF_inj. now rewrite E. }
  apply Prim2SF_inj. rewrite add_spec, mul_spec. change (Prim2SF 0) with (S754_zero false).
  destruct (Prim2SF year) as [s| | |s my ey]; try discriminate; cbn;
    destruct (Prim2SF m) as [s'| s'| |s' mm em]; cbn; try reflexivity;
    destruct s, s'; try reflexivity; now destruct Hm'.
Qed.

(** With a single year of history the forecast is flat, in both builds:
    the two projected points repeat that year's exports and imports (the
    next two years being finite numbers, and neither total being -0). *)
Theorem forecast_of_a_single_year_is_flat (p : Point.t) :
  finite (Point.year p + 1) = true -> finite (Point.year p + 2) = true ->
  Point.exports p <> neg_zero -> Point.imports p <> neg_zero ->
  Static.forecastData [p]
  = [p; repeated p (Point.year p + 1); repeated p (Point.year p + 2)]
  /\ Fetched.forecastData (Some [p]) = Normal (Static.forecastData [p]).
Proof.
  intros H1 H2 He Hi. split; [|reflexivity].
  unfold Static.forecastData, Forecast.project, Forecast.calculateLinearRegression, repeated.
  cbn [List.length Nat.ltb Nat.leb List.last map app Line.slope Line.intercept metricOf].
  now rewrite !zero_slope_line.
Qed.

Lemma forecast_of_a_single_year_is_flat_witness :
  Static.forecastData Sample.oilHistory
  = [ {| Point.year := 2020; Point.exports := 1000000; Point.imports := 0;
         Point.isForecast := None |};
      repeated {| Point.year := 2020; Point.exports := 1000000; Point.imports := 0;
                  Point.isForecast := None |} (2020 + 1);
      repeated {| Point.year := 2020; Point.exports := 1000000; Point.imports := 0;
                  Point.isForecast := None |} (2020 + 2) ].
Proof.
  apply (forecast_of_a_single_year_is_flat
           {| Point.year := 2020; Point.exports := 1000000; Point.imports := 0;
              Point.isForecast := None |});
    solve [reflexivity | intros E; apply (f_equal Prim2SF) in E; vm_compute in E; discriminate E].
Defined.

End ForecastProperties.

(** ** Shortened labels *)

Section FormatProperties.
Import Format Terms.

Lemma substring_prefix (n : nat) (s : string) :
  exists rest, s = (substring 0 n s ++ rest)%string.
Proof.
  revert s. induction n as [|n IH]; intros [|c s]; simpl.
  - now exists EmptyString.
  - now exists (String c s).
  - now exists EmptyString.
  - destruct (IH s) as (rest & Hr). exists rest. now rewrite <- Hr.
Qed.

Lemma substring_length (n : nat) (s : string) :
  (String.length (substring 0 n s) <= n)%nat.
Proof.
  revert s. induction n as [|n IH]; intros [|c s]; simpl; try lia.
  specialize (IH s). lia.
Qed.

Lemma endIndex_limit (maxLength : float) (n len : nat) :
  In (maxLength, n) limits -> endIndex maxLength len = Nat.min len n.
Proof.
  intros [H | [H | [H | [H | []]]]]; injection H as <- <-;
    unfold endIndex; lazy -[Nat.min]; reflexivity.
Qed.

(** A shortened label never shows anything that is not in the text: the
    result is the text itself, or a prefix of the text followed by three
    dots; with the limits the charts use (10, 12, 15, 18) that prefix has
    at most as many characters as the limit; and the empty text stays
    empty. *)
Theorem truncateText_shows_a_prefix (text : string) (maxLength : float) :
  (truncateText text maxLength = text
   \/ exists shown rest,
        text = (shown ++ rest)%string
        /\ truncateText text maxLength = (shown ++ "...")%string
        /\ forall n, In (maxLength, n) limits -> (String.length shown <= n)%nat)
  /\ truncateText EmptyString maxLength = EmptyString.
Proof.
  split; [|reflexivity].
  unfold truncateText. destruct (String.eqb text EmptyString) eqn:E.
  - left. apply String.eqb_eq in E. now subst text.
  - destruct (PrimFloat.ltb maxLength _); [|now left].
    right. destruct (substring_prefix (endIndex maxLength (String.length text)) text)
      as (rest & Hr).
    exists (substring 0 (endIndex maxLength (String.length text)) text), rest.
    split; [exact Hr|]. split; [reflexivity|].
    intros n Hn. rewrite (endIndex_limit maxLength n _ Hn).
    etransitivity; [apply substring_length | apply Nat.le_min_r].
Qed.

End FormatProperties.

(** ** The records of the selected year *)

Section SelectionProperties.
Import Js Static Terms.

(** The records of the year are the records whose year equals the number
    read from the selection, in their order, and nothing else; with nothing
    selected there are none. *)
Theorem currentYearData_only_the_selected_year
        (selectedYear : value) (y : float) (td : list TradeRecord) :
  parseInt selectedYear = Normal y ->
  currentYearData selectedYear td
  = Normal (if truthy selectedYear
            then filter (fun d => PrimFloat.eqb (Year d) y) td
            else []).
Proof.
  intros Hy. unfold currentYearData. destruct (truthy selectedYear); [|reflexivity].
  cbn [negb]. induction td as [|d td IH]; [reflexivity|].
  cbn [filterM filter]. rewrite IH, Hy. cbn [bind].
  now destruct (PrimFloat.eqb (Year d) y).
Qed.

Lemma currentYearData_only_the_selected_year_witness :
  currentYearData (VStr "2020") (Sample.oilRecord :: Sample.unknownFlowRecords)
  = Normal (if truthy (VStr "2020")
            then filter (fun d => PrimFloat.eqb (Year d) 2020)
                        (Sample.oilRecord :: Sample.unknownFlowRecords)
            else []).
Proof.
  apply (currentYearData_only_the_selected_year (VStr "2020") 2020
           (Sample.oilRecord :: Sample.unknownFlowRecords)).
  vm_compute. reflexivity.
Defined.

End SelectionProperties.

(** ** Guards and clean-up *)

Section CleanUpProperties.
Import Js Static Terms.
Local Open Scope float_scope.

(** Without trade volume the concentration risk is 0, in both builds:
    when exports plus imports is not greater than 0 (zero, negative or NaN)
    nothing is divided and the risk is exactly 0. *)
Theorem concentrationRisk_without_volume :
  (forall cy td st,
      Static.overviewStats cy td = Normal st ->
      (0 <? Static.Stats.exports st + Static.Stats.imports st) = false ->
      Static.Stats.concentrationRisk st = Some 0)
  /\ (forall (kpi : Fetched.Kpi.t) (partners : list (Rollup.t value)),
        (0 <? Fetched.Kpi.exports kpi + Fetched.Kpi.imports kpi) = false ->
        Fetched.Stats.concentrationRisk (Fetched.overviewStats kpi partners) = 0).
Proof.
  split.
  - exact concentrationRisk_zero_volume.
  - intros kpi partners H. unfold Fetched.overviewStats.
    cbn [Fetched.Stats.concentrationRisk]. now rewrite H.
Qed.

Lemma concentrationRisk_without_volume_witness :
  Fetched.Stats.concentrationRisk
    (Fetched.overviewStats
       {| Fetched.Kpi.exports := 0; Fetched.Kpi.imports := 0; Fetched.Kpi.net := 0 |}
       [ {| Rollup.name := VStr "Italy"; Rollup.exports := 0; Rollup.imports := 0 |} ])
  = 0.
Proof.
  apply (proj2 concentrationRisk_without_volume). reflexivity.
Defined.

Lemma removeCommas_idempotent (s : string) :
  JsString.removeCommas (JsString.removeCommas s) = JsString.removeCommas s.
Proof.
  induction s as [|c s IH]; simpl; [reflexivity|].
  destruct (Ascii.eqb c ",") eqn:E; simpl; [exact IH|]. now rewrite E, IH.
Qed.

(** Thousands separators never change the number: a text and the same
    text without its commas coerce to the same number. *)
Theorem safeParseFloat_ignores_commas (s : string) :
  safeParseFloat (VStr s) = safeParseFloat (VStr (JsString.removeCommas s)).
Proof.
  unfold safeParseFloat. cbn [truthy ToString bind].
  destruct s as [|c s]; [reflexivity|].
  change (negb (negb (String.eqb (String c s) EmptyString))) with false. cbv iota.
  pose proof (removeCommas_idempotent (String c s)) as Hi.
  destruct (JsString.removeCommas (String c s)) as [|c' s'] eqn:E.
  - reflexivity.
  - change (negb (negb (String.eqb (String c' s') EmptyString))) with false. cbv iota.
    now rewrite Hi.
Qed.

Lemma startsWith_semicolon (c : ascii) (r : string) :
  JsString.startsWith (String c r) ";" = Ascii.eqb ";" c.
Proof.
  simpl. apply andb_true_r.
Qed.

Lemma beforeSemicolon_clean (s : string) :
  JsString.includes (JsString.beforeSemicolon s) ";" = false.
Proof.
  induction s as [|c s IH]; [reflexivity|]. cbn [JsString.beforeSemicolon].
  destruct (Ascii.eqb c ";") eqn:E; [reflexivity|].
  cbn [JsString.includes]. rewrite startsWith_semicolon, IH, Ascii.eqb_sym, E. reflexivity.
Qed.

Lemma includes_tail (c : ascii) (r : string) :
  JsString.includes (String c r) ";" = false -> JsString.includes r ";" = false.
Proof.
  cbn [JsString.includes]. intros H. now apply orb_false_iff in H as [_ H].
Qed.

Lemma dropWhile_clean (p : ascii -> bool) (s : string) :
  JsString.includes s ";" = false -> JsString.includes (JsString.dropWhile p s) ";" = false.
Proof.
  induction s as [|c s IH]; [reflexivity|]. intros H. cbn [JsString.dropWhile].
  destruct (p c); [|exact H]. apply IH. exact (includes_tail c s H).
Qed.

(** A group name never contains a semicolon: the cleaned commodity text
    is a part of the text before the first semicolon. *)
Theorem cleanName_has_no_semicolon (rawName : value) (name : string) :
  cleanName rawName = Normal name -> JsString.includes name ";" = false.
Proof.
  unfold cleanName. destruct rawName as [| | | |s| |]; try discriminate.
  intros H. apply Normal_inj in H. subst name.
  pose proof (beforeSemicolon_clean s) as Hb. unfold JsString.stripCodePrefix.
  destruct (JsString.takeWhile JsString.isDigit _); [exact Hb|].
  pose proof (dropWhile_clean JsString.isWhiteSpace _
                (dropWhile_clean JsString.isDigit _ Hb)) as Hd.
  destruct (JsString.dropWhile JsString.isWhiteSpace _) as [|c r]; [exact Hb|].
  destruct (Ascii.eqb c "-") eqn:Ec.
  - apply Ascii.eqb_eq in Ec. subst c. apply dropWhile_clean. exact (includes_tail _ r Hd).
  - destruct c as [[|] [|] [|] [|] [|] [|] [|] [|]]; try exact Hb; discriminate Ec.
Qed.

Lemma cleanName_has_no_semicolon_witness : JsString.includes "Oil" ";" = false.
Proof.
  apply (cleanName_has_no_semicolon (VStr "12 - Oil; crude") "Oil"). reflexivity.
Defined.

End CleanUpProperties.
